(** * WhatsappAgent: intent classification, routing and the guided order wizard

    A shallow embedding of the rule-based core of the repository
    (utils/message_parser.py, agents/order_agent.py, agents/manager_agent.py,
    agents/reject_agent.py, services/database_service.py) together with the
    properties stated about it.

    Modelling conventions.
    - Text is ASCII: Python's [str] methods are transcribed for code points
      below 128; any other byte is left alone by [lower]/[upper] and is
      neither whitespace nor a word character.
    - Python dictionaries are [gmap]s; the tables whose iteration order
      matters (the intent and entity pattern tables) are association lists
      in declaration order.
    - Exceptions are explicit: a computation yields [Ok v] or [Raise e] next
      to the state it leaves behind, so a mutation made before a raise
      survives it, as in Python.
    - The canned response texts are kept symbolic (type [Reply]): one
      constructor per template of the source, carrying the interpolated
      values.
    - The reading of [datetime.now()] (naive local time), the UTC offset of
      the local zone and the random [uuid.uuid4()] are inputs of the
      operations that consult them; SQLite's [CURRENT_TIMESTAMP] is the UTC
      time cut to whole seconds. *)

From Stdlib Require Import ZArith NArith QArith Qminmax Ascii String List Bool Lia Sorted.
From stdpp Require Import gmap strings list.

Local Open Scope string_scope.
#[local] Arguments String.append : simpl nomatch.

(** ** Python string primitives *)

Module Text.

Definition code (c : ascii) : nat := nat_of_ascii c.

Definition in_range (lo hi : nat) (c : ascii) : bool :=
  (lo <=? code c)%nat && (code c <=? hi)%nat.

Definition is_upper (c : ascii) : bool := in_range 65 90 c.
Definition is_lower (c : ascii) : bool := in_range 97 122 c.
Definition is_digit (c : ascii) : bool := in_range 48 57 c.

(** [str.isspace] on one character: TAB, LF, VT, FF, CR, FS, GS, RS, US and
    the space. *)
Definition isspace (c : ascii) : bool :=
  in_range 9 13 c || in_range 28 32 c.

(** [\w]: letters, digits and the underscore. *)
Definition is_word (c : ascii) : bool :=
  is_upper c || is_lower c || is_digit c || (code c =? 95)%nat.

Definition lower_char (c : ascii) : ascii :=
  if is_upper c then ascii_of_nat (code c + 32) else c.

Definition upper_char (c : ascii) : ascii :=
  if is_lower c then ascii_of_nat (code c - 32) else c.

Fixpoint map_chars (f : ascii -> ascii) (s : string) : string :=
  match s with
  | EmptyString => EmptyString
  | String c s' => String (f c) (map_chars f s')
  end.

(** [s.lower()] and [s.upper()] *)
Definition lower (s : string) : string := map_chars lower_char s.
Definition upper (s : string) : string := map_chars upper_char s.

Definition is_empty (s : string) : bool :=
  match s with EmptyString => true | _ => false end.

Fixpoint lstrip (s : string) : string :=
  match s with
  | EmptyString => EmptyString
  | String c s' => if isspace c then lstrip s' else s
  end.

Fixpoint rstrip (s : string) : string :=
  match s with
  | EmptyString => EmptyString
  | String c s' =>
      let r := rstrip s' in
      if isspace c && is_empty r then EmptyString else String c r
  end.

(** [s.strip()] *)
Definition strip (s : string) : string := rstrip (lstrip s).

(** [sub in s] *)
Fixpoint contains (sub s : string) : bool :=
  String.prefix sub s ||
  match s with
  | EmptyString => false
  | String _ s' => contains sub s'
  end.

(** [any(w in s for w in ws)] *)
Definition any_in (ws : list string) (s : string) : bool :=
  existsb (fun w => contains w s) ws.

(** [s.split(sep)] for a one-character separator: never empty. *)
Fixpoint split_chr (sep : ascii) (s : string) : list string :=
  match s with
  | EmptyString => [EmptyString]
  | String c s' =>
      match split_chr sep s' with
      | hd :: tl =>
          if Ascii.eqb c sep then EmptyString :: hd :: tl
          else String c hd :: tl
      | [] => [String c EmptyString]
      end
  end.

(** [s.split(sep)] for a separator of one or more characters; [skip] counts
    the characters of a separator occurrence still to be passed over. *)
Fixpoint split_str (sep : string) (s : string) (skip : nat) : list string :=
  match s with
  | EmptyString => [EmptyString]
  | String c s' =>
      match skip with
      | S k => split_str sep s' k
      | O =>
          if String.prefix sep s
          then EmptyString :: split_str sep s' (String.length sep - 1)
          else match split_str sep s' 0 with
               | hd :: tl => String c hd :: tl
               | [] => [String c EmptyString]
               end
      end
  end.

(** [s[:n]] *)
Definition take_str (n : nat) (s : string) : string := String.substring 0 n s.

(** Text between the first and the second occurrence of [sep] (up to the end
    of the text when [sep] occurs only once); [None] when [sep] does not
    occur. This is the reading "the part after the first colon, cut at the
    next colon", written without [split]. *)
Fixpoint upto (sep : ascii) (s : string) : string :=
  match s with
  | EmptyString => EmptyString
  | String c s' => if Ascii.eqb c sep then EmptyString else String c (upto sep s')
  end.

Fixpoint after_first (sep : ascii) (s : string) : option string :=
  match s with
  | EmptyString => None
  | String c s' => if Ascii.eqb c sep then Some s' else after_first sep s'
  end.

Definition between_first_and_second (sep : ascii) (s : string) : option string :=
  option_map (upto sep) (after_first sep s).

End Text.

(** ** Exceptions *)

Inductive exn : Type :=
| IndexError
| KeyError (key : string)
| ValueError
| TypeError
| ServiceError (what : string).

Inductive Res (A : Type) : Type :=
| Ok (a : A)
| Raise (e : exn).
Arguments Ok {A} a.
Arguments Raise {A} e.

(** ** The part of Python's [re] the pattern tables use

    A backtracking matcher with Python's priorities: alternatives are tried
    left to right, quantifiers are greedy. Quantifiers other than [?] are
    only ever applied to a single character class in the tables, which is
    what [Rep] offers. All patterns are compiled with [re.IGNORECASE]. *)

Module Regex.

Inductive regex : Type :=
| Eps
| Lit (t : string)
| Cls (p : ascii -> bool)
| Rep (p : ascii -> bool) (lo : nat) (hi : option nat)
| Seq (r1 r2 : regex)
| Alt (r1 r2 : regex)
| Opt (r : regex)
| Grp (n : nat) (r : regex)
| WordB.

(** Captured groups, most recent binding first. *)
Definition caps : Type := list (nat * string).

Fixpoint group (cs : caps) (n : nat) : string :=
  match cs with
  | [] => EmptyString
  | (m, v) :: cs' => if (m =? n)%nat then v else group cs' n
  end.

Definition cont : Type := option ascii -> string -> caps -> option (string * caps).

(** A class under IGNORECASE accepts a character when it accepts the
    character itself or one of its case variants. *)
Definition icase (p : ascii -> bool) (c : ascii) : bool :=
  p c || p (Text.lower_char c) || p (Text.upper_char c).

Definition is_word_opt (o : option ascii) : bool :=
  match o with Some c => Text.is_word c | None => false end.

Definition head_chr (s : string) : option ascii :=
  match s with String c _ => Some c | EmptyString => None end.

(** [\b]: exactly one side of the position is a word character. *)
Definition at_boundary (prev : option ascii) (s : string) : bool :=
  xorb (is_word_opt prev) (is_word_opt (head_chr s)).

Fixpoint lit (t : string) (prev : option ascii) (s : string)
  : option (option ascii * string) :=
  match t with
  | EmptyString => Some (prev, s)
  | String a t' =>
      match s with
      | String c s' =>
          if Ascii.eqb (Text.lower_char a) (Text.lower_char c)
          then lit t' (Some c) s' else None
      | EmptyString => None
      end
  end.

Definition may_repeat (hi : option nat) : bool :=
  match hi with Some O => false | _ => true end.

(** Greedy repetition of a class between [lo] and [hi] times: take one more
    character when allowed, and fall back to stopping here. *)
Fixpoint rep (p : ascii -> bool) (lo : nat) (hi : option nat)
    (prev : option ascii) (s : string) (cs : caps) (k : cont)
  : option (string * caps) :=
  let stop := match lo with O => k prev s cs | S _ => None end in
  match s with
  | String c s' =>
      if icase p c && may_repeat hi then
        match rep p (Nat.pred lo) (option_map Nat.pred hi) (Some c) s' cs k with
        | Some r => Some r
        | None => stop
        end
      else stop
  | EmptyString => stop
  end.

Fixpoint run (r : regex) (prev : option ascii) (s : string) (cs : caps)
    (k : cont) : option (string * caps) :=
  match r with
  | Eps => k prev s cs
  | Lit t =>
      match lit t prev s with
      | Some (prev', s') => k prev' s' cs
      | None => None
      end
  | Cls p =>
      match s with
      | String c s' => if icase p c then k (Some c) s' cs else None
      | EmptyString => None
      end
  | Rep p lo hi => rep p lo hi prev s cs k
  | Seq r1 r2 => run r1 prev s cs (fun prev' s' cs' => run r2 prev' s' cs' k)
  | Alt r1 r2 =>
      match run r1 prev s cs k with
      | Some x => Some x
      | None => run r2 prev s cs k
      end
  | Opt r1 =>
      match run r1 prev s cs k with
      | Some x => Some x
      | None => k prev s cs
      end
  | Grp n r1 =>
      run r1 prev s cs (fun prev' s' cs' =>
        k prev' s' ((n, Text.take_str (String.length s - String.length s') s) :: cs'))
  | WordB => if at_boundary prev s then k prev s cs else None
  end.

(** One match attempt at the current position: the number of characters
    consumed and the groups. *)
Definition match_at (r : regex) (prev : option ascii) (s : string)
  : option (nat * caps) :=
  match run r prev s [] (fun _ s' cs => Some (s', cs)) with
  | Some (s', cs) => Some (String.length s - String.length s', cs)
  | None => None
  end.

(** Left-to-right scan for non-overlapping matches; [skip] counts the
    characters of the last match still to be passed over. After an empty
    match the scan moves on by one character. *)
Fixpoint scan (r : regex) (prev : option ascii) (s : string) (skip : nat)
  : list (string * caps) :=
  match s with
  | EmptyString =>
      match skip with
      | O => match match_at r prev s with
             | Some (_, cs) => [(EmptyString, cs)]
             | None => []
             end
      | S _ => []
      end
  | String c s' =>
      match skip with
      | S k => scan r (Some c) s' k
      | O =>
          match match_at r prev s with
          | Some (n, cs) => (Text.take_str n s, cs) :: scan r (Some c) s' (n - 1)
          | None => scan r (Some c) s' 0
          end
      end
  end.

(** Number of capturing groups of a pattern. *)
Fixpoint ngroups (r : regex) : nat :=
  match r with
  | Seq r1 r2 | Alt r1 r2 => Nat.max (ngroups r1) (ngroups r2)
  | Opt r1 => ngroups r1
  | Grp n r1 => Nat.max n (ngroups r1)
  | _ => 0
  end.

(** An element of the list [re.findall] returns: a string when the pattern
    has at most one group, the tuple of all groups otherwise. *)
Inductive item : Type :=
| Str (s : string)
| Tup (gs : list string).

Definition to_item (r : regex) (m : string * caps) : item :=
  match ngroups r with
  | 0 => Str (fst m)
  | 1 => Str (group (snd m) 1)
  | n => Tup (map (group (snd m)) (seq 1 n))
  end.

(** [re.findall(r, s, re.IGNORECASE)] *)
Definition findall (r : regex) (s : string) : list item :=
  map (to_item r) (scan r None s 0).

(** [re.search(r, s)] followed by [.group()] *)
Definition search (r : regex) (s : string) : option string :=
  match scan r None s 0 with
  | m :: _ => Some (fst m)
  | [] => None
  end.

(** Pattern-building helpers. *)
Definition seqs (rs : list regex) : regex := fold_right Seq Eps rs.

Fixpoint alts (rs : list regex) : regex :=
  match rs with
  | [] => Eps
  | [r] => r
  | r :: rs' => Alt r (alts rs')
  end.

Definition words (ws : list string) : regex := alts (map Lit ws).

(** [w1.*w2] *)
Definition dot (c : ascii) : bool := negb (Ascii.eqb c "010"%char).
Definition gap (w1 w2 : string) : regex :=
  seqs [Lit w1; Rep dot 0 None; Lit w2].

Definition chr_in (t : string) (c : ascii) : bool :=
  Text.contains (String c EmptyString) t.

End Regex.

(** ** utils/message_parser.py *)

Module MessageParser.
Import Regex.

Inductive Intent : Type :=
| ORDER_CREATE
| ORDER_STATUS
| ORDER_CANCEL
| FAQ_GENERAL
| FAQ_HOURS
| FAQ_CONTACT
| REJECT_RESPONSE
| HELP
| GREETING
| UNKNOWN.

(** [\b(w1|w2|...)\b] *)
Definition word_of (ws : list string) : regex :=
  seqs [WordB; Grp 1 (words ws); WordB].

(** [\b(a1.*b1|a2.*b2|...)\b] *)
Definition gap_of (gs : list (string * string)) : regex :=
  seqs [WordB; Grp 1 (alts (map (fun g => gap (fst g) (snd g)) gs)); WordB].

Definition dash_or_space (c : ascii) : bool :=
  Ascii.eqb c "-"%char || Text.isspace c.

(** [self.intent_patterns], in declaration order. *)
Definition intent_patterns : list (Intent * list regex) :=
  [ (ORDER_CREATE,
      [ word_of ["order"; "buy"; "purchase"; "want"; "need"];
        gap_of [("create", "order"); ("new", "order"); ("place", "order")];
        word_of ["i want"; "i need"; "looking for"] ]);
    (ORDER_STATUS,
      [ seqs [WordB;
              Grp 1 (alts [Lit "status"; Lit "track";
                           gap "where" "order"; gap "order" "status"]);
              WordB];
        gap_of [("check", "order"); ("find", "order")];
        (* \bord[-\s]*\d+\b *)
        seqs [WordB; Lit "ord"; Rep dash_or_space 0 None;
              Rep Text.is_digit 1 None; WordB] ]);
    (ORDER_CANCEL,
      [ (* \b(cancel|delete|remove).*order\b *)
        seqs [WordB; Grp 1 (words ["cancel"; "delete"; "remove"]);
              Rep dot 0 None; Lit "order"; WordB];
        word_of ["cancel"; "stop"] ]);
    (FAQ_HOURS,
      [ word_of ["hours"; "time"; "open"; "close"; "when"];
        gap_of [("working", "hours"); ("business", "hours")] ]);
    (FAQ_CONTACT,
      [ word_of ["contact"; "phone"; "email"; "address"];
        word_of ["reach"; "call"; "write"] ]);
    (HELP,
      [ word_of ["help"; "assist"; "support"];
        gap_of [("what", "can"); ("how", "work")] ]);
    (GREETING,
      [ word_of ["hello"; "hi"; "hey"; "good morning"; "good afternoon"];
        word_of ["greetings"; "welcome"] ]);
    (REJECT_RESPONSE,
      [ word_of ["no"; "not"; "reject"; "decline"; "refuse"];
        word_of ["don't want"; "not interested"] ]) ].

Definition phone_chr (c : ascii) : bool :=
  Text.is_digit c || Text.isspace c || chr_in "-()" c.

Definition email_local (c : ascii) : bool :=
  Text.is_upper c || Text.is_lower c || Text.is_digit c || chr_in "._%+-" c.

Definition email_domain (c : ascii) : bool :=
  Text.is_upper c || Text.is_lower c || Text.is_digit c || chr_in ".-" c.

Definition email_tld (c : ascii) : bool :=
  Text.is_upper c || Text.is_lower c || chr_in "|" c.

(** [\b(ord|order)[-\s]*(\d+)\b] *)
Definition order_id_pattern : regex :=
  seqs [WordB; Grp 1 (words ["ord"; "order"]); Rep dash_or_space 0 None;
        Grp 2 (Rep Text.is_digit 1 None); WordB].

(** [self.entity_patterns], in declaration order. *)
Definition entity_patterns : list (string * regex) :=
  [ ("order_id", order_id_pattern);
    (* \+?[\d\s\-\(\)]{10,15} *)
    ("phone_number", seqs [Opt (Lit "+"); Rep phone_chr 10 (Some 15)]);
    (* \b[A-Za-z0-9._%+-]+@[A-Za-z0-9.-]+\.[A-Z|a-z]{2,}\b *)
    ("email", seqs [WordB; Rep email_local 1 None; Lit "@";
                    Rep email_domain 1 None; Lit "."; Rep email_tld 2 None;
                    WordB]);
    (* \b(\d+)\s*(piece|pieces|item|items)?\b *)
    ("quantity", seqs [WordB; Grp 1 (Rep Text.is_digit 1 None);
                       Rep Text.isspace 0 None;
                       Opt (Grp 2 (words ["piece"; "pieces"; "item"; "items"]));
                       WordB]);
    (* \b(laptop|phone|computer|tablet|monitor|keyboard|mouse)\w*\b *)
    ("product", seqs [WordB;
                      Grp 1 (words ["laptop"; "phone"; "computer"; "tablet";
                                    "monitor"; "keyboard"; "mouse"]);
                      Rep Text.is_word 0 None; WordB]) ].

(** The inner loop of [_detect_intent]: the summed match count of one
    intent's patterns. *)
Definition score (patterns : list regex) (message : string) : nat :=
  fold_left (fun sc pattern => sc + List.length (findall pattern message))
            patterns 0.

(** [intent_scores]: the intents with a positive score, in insertion order. *)
Fixpoint scores_of (table : list (Intent * list regex)) (message : string)
  : list (Intent * nat) :=
  match table with
  | [] => []
  | (intent, patterns) :: table' =>
      let sc := score patterns message in
      if (0 <? sc)%nat then (intent, sc) :: scores_of table' message
      else scores_of table' message
  end.

Definition intent_scores (message : string) : list (Intent * nat) :=
  scores_of intent_patterns message.

(** [max(d, key=d.get)] over the keys in insertion order: a later key
    replaces the current best only when its value is strictly larger. *)
Fixpoint max_from (best : Intent * nat) (l : list (Intent * nat))
  : Intent * nat :=
  match l with
  | [] => best
  | x :: l' => if (snd best <? snd x)%nat then max_from x l' else max_from best l'
  end.

(** [min(a, b)] of Python: [b] only when it is strictly smaller. *)
Definition py_min (a b : Q) : Q := if Qlt_le_dec b a then b else a.

(** The confidence is computed in exact rationals; [0.3] is [3/10]. *)
Definition confidence_of (max_score : nat) : Q :=
  py_min (inject_Z (Z.of_nat max_score) * (3 # 10)) 1.

Definition _detect_intent (message : string) : Intent * Q :=
  match intent_scores message with
  | [] => (UNKNOWN, 0%Q)
  | x :: l =>
      let best := max_from x l in
      (fst best, confidence_of (snd best))
  end.

(** The value kept for one match in [_extract_entities]. A tuple returned by
    [findall] has as many components as the pattern has groups, at least
    two; the defaults of [nth] are never used. *)
Definition entity_value (entity_type : string) (m : item) : string :=
  if String.eqb entity_type "order_id"
  then match m with Tup gs => nth 1 gs EmptyString | Str s => s end
  else match m with Str s => s | Tup gs => nth 0 gs EmptyString end.

Definition _extract_entities (message : string) : gmap string (list string) :=
  fold_left
    (fun entities '(entity_type, pattern) =>
       match findall pattern message with
       | [] => entities
       | matches => <[entity_type := map (entity_value entity_type) matches]> entities
       end)
    entity_patterns ∅.

Record ParsedMessage : Type := {
  original_message : string;
  intent : Intent;
  confidence : Q;
  entities : gmap string (list string);
  message_length : nat
}.

Definition parse_message (message : string) : ParsedMessage :=
  let message_lower := Text.strip (Text.lower message) in
  let '(i, c) := _detect_intent message_lower in
  {| original_message := message; intent := i; confidence := c;
     entities := _extract_entities message;
     message_length := String.length message |}.

(** [extract_order_id] *)
Definition extract_order_id (message : string) : option string :=
  match default [] (_extract_entities message !! "order_id") with
  | oid :: _ => Some oid
  | [] => None
  end.

(** [line.split(':')[1].strip()] *)
Definition second_field (line : string) : Res string :=
  match Text.split_chr ":" line !! 1%nat with
  | Some v => Ok (Text.strip v)
  | None => Raise IndexError
  end.

Definition digits_pattern : regex := Rep Text.is_digit 1 None.

(** The body of the loop of [extract_order_details] for one line. *)
Definition order_details_line (order_details : gmap string string) (line : string)
  : Res (gmap string string) :=
  let line_lower := Text.lower (Text.strip line) in
  if Text.contains "name:" line_lower then
    match second_field line with
    | Ok v => Ok (<["customer_name" := v]> order_details)
    | Raise e => Raise e
    end
  else if Text.contains "phone:" line_lower then
    match second_field line with
    | Ok v => Ok (<["customer_phone" := v]> order_details)
    | Raise e => Raise e
    end
  else if Text.contains "address:" line_lower then
    match second_field line with
    | Ok v => Ok (<["address" := v]> order_details)
    | Raise e => Raise e
    end
  else if Text.contains "quantity:" line_lower || Text.contains "qty:" line_lower then
    match search digits_pattern line with
    | Some q => Ok (<["quantity" := q]> order_details)
    | None => Ok order_details
    end
  else if Text.any_in ["want"; "order"; "buy"; "need"] line_lower then
    Ok (<["product" := Text.strip line]> order_details)
  else if negb (Text.is_empty (Text.strip line))
          && negb (Text.any_in ["name:"; "phone:"; "address:"; "quantity:"] line_lower)
  then
    match order_details !! "notes" with
    | Some notes =>
        Ok (<["notes" := notes +:+ Text.strip line +:+ " "]> order_details)
    | None => Raise (KeyError "notes")
    end
  else Ok order_details.

Fixpoint order_details_loop (order_details : gmap string string)
    (lines : list string) : Res (gmap string string) :=
  match lines with
  | [] => Ok order_details
  | line :: lines' =>
      match order_details_line order_details line with
      | Ok d => order_details_loop d lines'
      | Raise e => Raise e
      end
  end.

Definition initial_order_details : gmap string string :=
  <["product" := EmptyString]>
  (<["quantity" := "1"]>
  (<["customer_name" := EmptyString]>
  (<["customer_phone" := EmptyString]>
  (<["address" := EmptyString]>
  (<["notes" := EmptyString]> ∅))))).

Definition extract_order_details (message : string) : Res (gmap string string) :=
  let lines := Text.split_chr "010"%char (Text.strip message) in
  match order_details_loop initial_order_details lines with
  | Ok d =>
      match d !! "notes" with
      | Some notes => Ok (<["notes" := Text.strip notes]> d)
      | None => Raise (KeyError "notes")
      end
  | Raise e => Raise e
  end.

End MessageParser.

(** ** agents/reject_agent.py *)

Module RejectAgent.

Inductive RejectionType : Type :=
| not_interested
| too_expensive
| wrong_timing
| need_to_think
| general_no.

Definition not_interested_phrases : list string :=
  ["not interested"; "don't want"; "not looking"].
Definition too_expensive_phrases : list string :=
  ["too expensive"; "too much"; "can't afford"; "cost"; "price"].
Definition wrong_timing_phrases : list string :=
  ["not now"; "bad timing"; "busy"; "later"].
Definition need_to_think_phrases : list string :=
  ["think about"; "consider"; "decide"; "maybe"].

Definition _analyze_rejection (message : string) : RejectionType :=
  let message_lower := Text.lower message in
  if Text.any_in not_interested_phrases message_lower then not_interested
  else if Text.any_in too_expensive_phrases message_lower then too_expensive
  else if Text.any_in wrong_timing_phrases message_lower then wrong_timing
  else if Text.any_in need_to_think_phrases message_lower then need_to_think
  else general_no.

(** The contract in the words of the specification: the phrase sets are
    checked in a fixed priority order and the first category with a phrase
    in the text wins; [general_no] when there is none. *)
Definition priority_table : list (RejectionType * list string) :=
  [ (not_interested, not_interested_phrases);
    (too_expensive, too_expensive_phrases);
    (wrong_timing, wrong_timing_phrases);
    (need_to_think, need_to_think_phrases) ].

Fixpoint first_matching (table : list (RejectionType * list string))
    (text : string) : RejectionType :=
  match table with
  | [] => general_no
  | (t, phrases) :: table' =>
      if Text.any_in phrases text then t else first_matching table' text
  end.

Definition classify_by_priority (message : string) : RejectionType :=
  first_matching priority_table (Text.lower message).

End RejectAgent.

(** ** services/database_service.py *)

Module Store.

Inductive json : Type :=
| JStr (s : string)
| JBool (b : bool).

(** A row of [customers]. *)
Record Customer : Type := {
  phone_number : string;
  name : option string;
  email : option string;
  c_created_at : Z;
  c_updated_at : Z;
  metadata : gmap string json
}.

(** A row of [orders]. Instants are in microseconds. [created_at] and
    [updated_at] are what the stored text denotes when it is read back with
    [datetime.fromisoformat], as [cancel_order] does: a naive instant, which
    SQLite filled in from [CURRENT_TIMESTAMP]. [quantity] is an SQLite
    INTEGER: a stored row has it in the signed 64-bit range. *)
Record Order : Type := {
  order_id : string;
  customer_phone : string;
  product : string;
  quantity : Z;
  status : string;
  details : gmap string json;
  created_at : Z;
  updated_at : Z
}.

(** What the order agent asks of its [database_service]. Every operation
    may raise and may change the store. *)
Record DatabaseService (DB : Type) : Type := {
  get_customer : string -> DB -> Res (option Customer) * DB;
  create_customer :
    string -> option string -> gmap string json -> DB -> Res bool * DB;
  create_order :
    string -> string -> string -> Z -> gmap string json -> DB -> Res bool * DB;
  get_order : string -> DB -> Res (option Order) * DB;
  get_customer_orders : string -> DB -> Res (list Order) * DB;
  cancel_order : string -> option string -> DB -> Res (bool * string) * DB
}.
Arguments get_customer {DB} _ _ _.
Arguments create_customer {DB} _ _ _ _ _.
Arguments create_order {DB} _ _ _ _ _ _ _.
Arguments get_order {DB} _ _ _.
Arguments get_customer_orders {DB} _ _ _.
Arguments cancel_order {DB} _ _ _ _.

End Store.
Import Store.

(** The SQLite-backed service: two tables keyed by their primary keys. Each
    method of the source wraps its body in [try/except] and answers
    [False]/[None]/[[]] on failure; the statement that fails on a
    well-formed store is the [INSERT] of an order, when the id is taken or
    when the quantity does not fit an SQLite INTEGER. *)
Module Sqlite.

Record DB : Type := {
  customers : gmap string Customer;
  orders : gmap string Order
}.

Definition empty_db : DB := {| customers := ∅; orders := ∅ |}.

(** Binding a Python [int] to an SQLite INTEGER raises [OverflowError]
    outside the signed 64-bit range. *)
Definition fits_int64 (z : Z) : bool :=
  ((- 2 ^ 63 <=? z) && (z <? 2 ^ 63))%Z.

Definition second : Z := 1000000.

Definition day : Z := 86400000000.

Section Clock.
(** [now]: the reading of [datetime.now()] during the operation, the naive
    local time.
    [utcoffset]: local time minus UTC.
    [isoformat]: [datetime.isoformat], kept abstract. *)
Variable now : Z.
Variable utcoffset : Z.
Variable isoformat : Z -> string.

(** SQLite's [CURRENT_TIMESTAMP]: the UTC time, cut to whole seconds. It is
    stored as text without a zone, so it reads back as a naive instant. *)
Definition current_timestamp : Z := ((now - utcoffset) / second * second)%Z.

(** INSERT OR REPLACE INTO customers *)
Definition create_customer (phone : string) (name : option string)
    (email : option string) (metadata : gmap string json) (d : DB) : bool * DB :=
  (true,
   {| customers :=
        <[phone := {| phone_number := phone; name := name; email := email;
                      c_created_at := current_timestamp;
                      c_updated_at := current_timestamp;
                      metadata := metadata |}]> (customers d);
      orders := orders d |}).

Definition get_customer (phone : string) (d : DB) : option Customer :=
  customers d !! phone.

Definition create_order (order_id customer_phone product : string)
    (quantity : Z) (details : gmap string json) (d : DB) : bool * DB :=
  (* Ensure customer exists *)
  let d1 := match get_customer customer_phone d with
            | Some _ => d
            | None => snd (create_customer customer_phone None None ∅ d)
            end in
  if negb (fits_int64 quantity)
  then (false, d1)               (* OverflowError when the INSERT binds it *)
  else
    match orders d1 !! order_id with
    | Some _ => (false, d1)      (* primary key taken: the INSERT raises *)
    | None =>
        (true,
         {| customers := customers d1;
            orders :=
              <[order_id := {| order_id := order_id;
                               customer_phone := customer_phone;
                               product := product; quantity := quantity;
                               status := "pending"; details := details;
                               created_at := current_timestamp;
                               updated_at := current_timestamp |}]>
              (orders d1) |})
    end.

Definition get_order (order_id : string) (d : DB) : option Order :=
  orders d !! order_id.

(** ORDER BY created_at DESC *)
Fixpoint insert_desc (o : Order) (l : list Order) : list Order :=
  match l with
  | [] => [o]
  | x :: l' =>
      if (created_at x <? created_at o)%Z then o :: l
      else x :: insert_desc o l'
  end.

Definition get_customer_orders (phone : string) (d : DB) : list Order :=
  fold_right insert_desc []
    (List.filter (fun o => String.eqb (customer_phone o) phone)
                 (map snd (map_to_list (orders d)))).

Definition update_order_status (order_id status : string)
    (details : option (gmap string json)) (d : DB) : bool * DB :=
  match get_order order_id d with
  | None => (false, d)
  | Some current_order =>
      let updated_details :=
        match details with
        | Some extra => extra ∪ Store.details current_order
        | None => Store.details current_order
        end in
      (true,
       {| customers := customers d;
          orders :=
            <[order_id := {| order_id := Store.order_id current_order;
                             customer_phone := customer_phone current_order;
                             product := product current_order;
                             quantity := quantity current_order;
                             status := status; details := updated_details;
                             created_at := created_at current_order;
                             updated_at := current_timestamp |}]> (orders d) |})
  end.

(** [reason or "Customer request"] *)
Definition reason_or_default (reason : option string) : string :=
  match reason with
  | Some r => if Text.is_empty r then "Customer request" else r
  | None => "Customer request"
  end.

Definition cancel_order (order_id : string) (reason : option string) (d : DB)
  : (bool * string) * DB :=
  match get_order order_id d with
  | None => ((false, "Order not found"), d)
  | Some order =>
      if String.eqb (status order) "delivered"
         || String.eqb (status order) "cancelled"
      then ((false, "Cannot cancel order with status: " +:+ status order), d)
      else
        (* [datetime.now() - created_at], the local reading against the
           stored UTC stamp; [time_diff.days >= 1] *)
        let time_diff := (now - created_at order)%Z in
        if (1 <=? time_diff / day)%Z
        then ((false, "Order cannot be cancelled after 24 hours"), d)
        else
          let cancel_details :=
            <["cancelled_at" := JStr (isoformat now)]>
            (<["cancellation_reason" := JStr (reason_or_default reason)]>
             (details order)) in
          let '(success, d') :=
            update_order_status order_id "cancelled" (Some cancel_details) d in
          ((success,
            if success then "Order cancelled successfully"
            else "Error cancelling order"), d')
  end.

(** The service as the agents see it: no operation raises. *)
Definition service : DatabaseService DB :=
  {| Store.get_customer := fun phone d => (Ok (get_customer phone d), d);
     Store.create_customer := fun phone name metadata d =>
       let '(b, d') := create_customer phone name None metadata d in (Ok b, d');
     Store.create_order := fun oid phone product quantity details d =>
       let '(b, d') := create_order oid phone product quantity details d in
       (Ok b, d');
     Store.get_order := fun oid d => (Ok (get_order oid d), d);
     Store.get_customer_orders := fun phone d =>
       (Ok (get_customer_orders phone d), d);
     Store.cancel_order := fun oid reason d =>
       let '(r, d') := cancel_order oid reason d in (Ok r, d') |}.

End Clock.
End Sqlite.

(** ** The response templates *)

Inductive Reply : Type :=
(* agents/order_agent.py *)
| OrderAgentError
| OrderCreateFailed
| OrderFormatError
| GuidedProductPrompt
| GuidedNamePrompt
| GuidedPhonePrompt
| GuidedAddressPrompt
| GuidedError
| OrderConfirmation (order_id product customer phone address : string)
| OrderStatusText (o : Order)
| OrderNotFound (order_id : string)
| CustomerOrdersText (os : list Order)
| NoOrdersFound
| CancelNotFound (order_id : string)
| CancelNotOwner
| OrderCancelled (order_id reason : string)
| CannotCancelOrder (message_result : string)
| CancellableOrders (os : list Order)
| NoCancellableOrders
| OrderHelp
(* agents/faq_agent.py *)
| BusinessHoursText
| ContactText
| HelpText
| FaqText (category : string)
(* agents/reject_agent.py *)
| RejectionText (t : RejectAgent.RejectionType)
(* agents/manager_agent.py *)
| GreetingReturning (name : string)
| GreetingNew
| PricingInfo
| DeliveryInfo
| UnknownMenu
| RouterError.

(** ** agents/faq_agent.py *)

Module FAQAgent.
Import MessageParser.

Definition faqs : list (string * list string) :=
  [ ("hours", ["hours"; "time"; "open"; "close"; "when"; "working"]);
    ("contact", ["contact"; "phone"; "email"; "address"; "reach"; "call"]);
    ("delivery", ["delivery"; "shipping"; "ship"; "deliver"; "how long"]);
    ("payment", ["payment"; "pay"; "price"; "cost"; "money"; "credit"]);
    ("returns", ["return"; "refund"; "exchange"; "warranty"]);
    ("products", ["products"; "catalog"; "items"; "sell"; "available"]) ].

Definition keyword_score (keywords : list string) (message_lower : string) : nat :=
  List.length (List.filter (fun k => Text.contains k message_lower) keywords).

Fixpoint best_category (best : string * nat) (l : list (string * list string))
    (message_lower : string) : string * nat :=
  match l with
  | [] => best
  | (category, keywords) :: l' =>
      let sc := keyword_score keywords message_lower in
      if (snd best <? sc)%nat then best_category (category, sc) l' message_lower
      else best_category best l' message_lower
  end.

Definition _handle_general_faq (message : string) : Reply :=
  let message_lower := Text.lower message in
  let best := best_category (EmptyString, 0) faqs message_lower in
  if (0 <? snd best)%nat then FaqText (fst best) else HelpText.

(** No statement of the body can raise; the handler's [except] branch is
    therefore not represented. *)
Definition handle_message (intent : Intent) (message : string) : Reply :=
  match intent with
  | FAQ_HOURS => BusinessHoursText
  | FAQ_CONTACT => ContactText
  | HELP => HelpText
  | FAQ_GENERAL => _handle_general_faq message
  | _ => HelpText
  end.

End FAQAgent.

(** ** agents/order_agent.py *)

Module OrderAgent.
Import MessageParser.

(** The step of a guided session. The source keeps it as one of the four
    strings ['product'], ['name'], ['phone'], ['address']. *)
Inductive Step : Type :=
| step_product
| step_name
| step_phone
| step_address.

Record PendingOrder : Type := {
  step : Step;
  data : gmap string string;
  started_at : Z
}.

(** The state the agents share: the session map of the order agent and the
    store behind the database service. *)
Record AgentState (DB : Type) : Type := {
  pending_orders : gmap string PendingOrder;
  db : DB
}.
Arguments pending_orders {DB} _.
Arguments db {DB} _.
Arguments Build_AgentState {DB} _ _.

(** [str(uuid.uuid4())]: the 128-bit value in hexadecimal, grouped 8-4-4-4-12. *)
Definition hex_digit (n : N) : ascii :=
  if (n <? 10)%N then ascii_of_N (48 + n) else ascii_of_N (87 + n).

Fixpoint hex (width : nat) (n : N) : string :=
  match width with
  | O => EmptyString
  | S w => hex w (n / 16) +:+ String (hex_digit (n mod 16)) EmptyString
  end.

Definition uuid_str (u : N) : string :=
  let h := hex 32 (u mod 2 ^ 128) in
  String.substring 0 8 h +:+ "-" +:+ String.substring 8 4 h +:+ "-"
  +:+ String.substring 12 4 h +:+ "-" +:+ String.substring 16 4 h +:+ "-"
  +:+ String.substring 20 12 h.

(** [f"ORD-{str(uuid.uuid4())[:8].upper()}"] *)
Definition new_order_id (u : N) : string :=
  "ORD-" +:+ Text.upper (Text.take_str 8 (uuid_str u)).

(** [sys.get_int_max_str_digits()]: CPython (3.11 and later, and the
    security releases of 3.7 to 3.10) refuses to convert a text of more
    decimal digits than this, 4300 unless configured otherwise. *)
Definition int_max_str_digits : Z := 4300.

(** [int(s)] for an optionally signed run of decimal digits with surrounding
    whitespace; anything else is a [ValueError], and so is a run of more
    than [int_max_str_digits] digits. Digit-group underscores are not
    covered. *)
Fixpoint digits_value (acc : Z) (s : string) : option Z :=
  match s with
  | EmptyString => Some acc
  | String c s' =>
      if Text.is_digit c
      then digits_value (10 * acc + Z.of_nat (Text.code c - 48)) s'
      else None
  end.

Definition unsigned_int (s : string) : Res Z :=
  if Text.is_empty s then Raise ValueError
  else if (int_max_str_digits <? Z.of_nat (String.length s))%Z then Raise ValueError
  else match digits_value 0 s with
       | Some z => Ok z
       | None => Raise ValueError
       end.

Definition py_int (s : string) : Res Z :=
  match Text.strip s with
  | String "+" s' => unsigned_int s'
  | String "-" s' =>
      match unsigned_int s' with Ok z => Ok (- z)%Z | Raise e => Raise e end
  | s' => unsigned_int s'
  end.

(** [d.get(key, 'N/A')] and the confirmation template. *)
Definition _get_order_confirmation (order_id : string)
    (order_details : gmap string string) : Reply :=
  OrderConfirmation order_id
    (default "N/A" (order_details !! "product"))
    (default "N/A" (order_details !! "customer_name"))
    (default "N/A" (order_details !! "customer_phone"))
    (default "N/A" (order_details !! "address")).

Definition _is_complete_order (message : string) : bool :=
  let message_lower := Text.lower message in
  let found_fields :=
    List.length
      (List.filter
         (fun field => Text.contains field message_lower
                       || Text.contains (field +:+ ":") message_lower)
         ["product"; "name"; "phone"; "address"]) in
  (3 <=? found_fields)%nat.

Section Agent.
Context {DB : Type}.
(** The injected [database_service]. *)
Variable svc : DatabaseService DB.

(** Computations of the agent: a result or an exception, and the state left
    behind. *)
Definition M (A : Type) : Type := AgentState DB -> Res A * AgentState DB.

Definition ret {A} (a : A) : M A := fun st => (Ok a, st).

Definition bind {A B} (m : M A) (f : A -> M B) : M B :=
  fun st => match m st with
            | (Ok a, st') => f a st'
            | (Raise e, st') => (Raise e, st')
            end.

Definition raise {A} (e : exn) : M A := fun st => (Raise e, st).

(** [try: m except Exception: h] *)
Definition try_except {A} (m : M A) (h : exn -> M A) : M A :=
  fun st => match m st with
            | (Ok a, st') => (Ok a, st')
            | (Raise e, st') => h e st'
            end.

Definition of_res {A} (r : Res A) : M A := fun st => (r, st).

(** A call into the database service. *)
Definition call {A} (op : DB -> Res A * DB) : M A :=
  fun st => let '(r, d) := op (db st) in
            (r, Build_AgentState (pending_orders st) d).

Definition get_pending (sender_number : string) : M (option PendingOrder) :=
  fun st => (Ok (pending_orders st !! sender_number), st).

Definition put_pending (sender_number : string) (p : PendingOrder) : M unit :=
  fun st => (Ok tt, Build_AgentState (<[sender_number := p]> (pending_orders st)) (db st)).

(** [del self.pending_orders[sender_number]] *)
Definition del_pending (sender_number : string) : M unit :=
  fun st => match pending_orders st !! sender_number with
            | Some _ => (Ok tt, Build_AgentState (delete sender_number (pending_orders st)) (db st))
            | None => (Raise (KeyError sender_number), st)
            end.

Notation "'let*' x ':=' m 'in' k" := (bind m (fun x => k))
  (at level 10, x name, m at level 100, k at level 200).
Notation "'exec' m 'in' k" := (bind m (fun _ => k))
  (at level 10, m at level 100, k at level 200).

Definition _create_order_from_message (uuid : N) (message sender_number : string)
  : M Reply :=
  try_except
    (let* order_details := of_res (extract_order_details message) in
     let order_id := new_order_id uuid in
     (* Ensure customer exists *)
     let* customer := call (get_customer svc sender_number) in
     exec match customer with
          | Some _ => ret true
          | None =>
              call (create_customer svc sender_number
                      (Some (default "Unknown" (order_details !! "customer_name")))
                      (<["source" := JStr "whatsapp_order"]> ∅))
          end in
     let* quantity := match order_details !! "quantity" with
                      | Some q => of_res (py_int q)
                      | None => ret 1%Z
                      end in
     let* success :=
       call (create_order svc order_id sender_number
               (default "Product not specified" (order_details !! "product"))
               quantity
               (<["agent_processed" := JBool true]>
                (<["created_via" := JStr "whatsapp"]>
                (<["notes" := JStr (default EmptyString (order_details !! "notes"))]>
                (<["address" := JStr (default EmptyString (order_details !! "address"))]>
                (<["customer_phone" :=
                     JStr (default sender_number (order_details !! "customer_phone"))]>
                (<["customer_name" :=
                     JStr (default EmptyString (order_details !! "customer_name"))]>
                 ∅))))))) in
     if (success : bool) then ret (_get_order_confirmation order_id order_details)
     else ret OrderCreateFailed)
    (fun _ => ret OrderFormatError).

Definition _start_guided_order_creation (now : Z) (message sender_number : string)
  : M Reply :=
  exec put_pending sender_number
         {| step := step_product; data := ∅; started_at := now |} in
  ret GuidedProductPrompt.

(** [order_data['data'][key] = message.strip()] and, when the step changes,
    [order_data['step'] = next]: [order_data] is the very object stored
    under the sender, so the session map sees the writes. *)
Definition record_answer (sender_number : string) (order_data : PendingOrder)
    (key : string) (message : string) (next : Step) : M unit :=
  put_pending sender_number
    {| step := next;
       data := <[key := Text.strip message]> (data order_data);
       started_at := started_at order_data |}.

(** The [try] block of [_continue_order_creation]. *)
Definition continue_body (uuid : N) (message sender_number : string)
    (order_data : PendingOrder) : M Reply :=
  match step order_data with
  | step_product =>
      exec record_answer sender_number order_data "product" message step_name in
      ret GuidedNamePrompt
  | step_name =>
      exec record_answer sender_number order_data "customer_name" message step_phone in
      ret GuidedPhonePrompt
  | step_phone =>
      exec record_answer sender_number order_data "customer_phone" message step_address in
      ret GuidedAddressPrompt
  | step_address =>
      exec record_answer sender_number order_data "address" message step_address in
      let fields := <["address" := Text.strip message]> (data order_data) in
      (* Create the order *)
      let order_id := new_order_id uuid in
      let* product := match fields !! "product" with
                      | Some p => ret p
                      | None => raise (KeyError "product")
                      end in
      let* success :=
        call (create_order svc order_id sender_number product 1%Z
                (<["agent_processed" := JBool true]>
                 (<["created_via" := JStr "whatsapp_guided"]>
                  (JStr <$> fields)))) in
      (* Clean up pending order *)
      exec del_pending sender_number in
      if (success : bool) then ret (_get_order_confirmation order_id fields)
      else ret OrderCreateFailed
  end.

Definition _continue_order_creation (uuid : N) (message sender_number : string)
  : M Reply :=
  let* o := get_pending sender_number in
  match o with
  | None => raise (KeyError sender_number)
  | Some order_data =>
      try_except (continue_body uuid message sender_number order_data)
        (fun _ =>
           (* Clean up on error *)
           let* o' := get_pending sender_number in
           exec match o' with
                | Some _ => del_pending sender_number
                | None => ret tt
                end in
           ret GuidedError)
  end.

(** The handlers also receive [parsed_message]; its one use, the read of
    ['entities'] below the session check, is discarded, so the parameter is
    left out. *)
Definition _handle_order_creation (now : Z) (uuid : N)
    (message sender_number : string) : M Reply :=
  (* Check if customer has pending order creation *)
  let* o := get_pending sender_number in
  match o with
  | Some _ => _continue_order_creation uuid message sender_number
  | None =>
      (* Check if message contains complete order information *)
      if _is_complete_order message
      then _create_order_from_message uuid message sender_number
      else _start_guided_order_creation now message sender_number
  end.

(** Show all orders for customer *)
Definition show_orders (sender_number : string) : M Reply :=
  let* orders := call (get_customer_orders svc sender_number) in
  match orders with
  | [] => ret NoOrdersFound
  | _ => ret (CustomerOrdersText (take 5 orders))
  end.

Definition _handle_order_status (message sender_number : string) : M Reply :=
  match extract_order_id message with
  | Some oid =>
      if negb (Text.is_empty oid) then
        let* order := call (get_order svc ("ORD-" +:+ oid)) in
        match order with
        | Some o => ret (OrderStatusText o)
        | None => ret (OrderNotFound ("ORD-" +:+ oid))
        end
      else show_orders sender_number
  | None => show_orders sender_number
  end.

(** [message.lower().split("reason:")[1].strip()] when the message has a
    reason, the stock reason otherwise. *)
Definition cancellation_reason (message : string) : Res string :=
  if Text.contains "reason:" (Text.lower message) then
    match Text.split_str "reason:" (Text.lower message) 0 !! 1%nat with
    | Some r => Ok (Text.strip r)
    | None => Raise IndexError
    end
  else Ok "Customer request via WhatsApp".

Definition cancellable (o : Order) : bool :=
  negb (String.eqb (status o) "delivered" || String.eqb (status o) "cancelled").

(** Show cancellable orders *)
Definition show_cancellable (sender_number : string) : M Reply :=
  let* orders := call (get_customer_orders svc sender_number) in
  match List.filter cancellable orders with
  | [] => ret NoCancellableOrders
  | cancellable_orders => ret (CancellableOrders (take 5 cancellable_orders))
  end.

Definition _handle_order_cancellation (message sender_number : string) : M Reply :=
  match extract_order_id message with
  | Some oid =>
      if negb (Text.is_empty oid) then
        let order_id := "ORD-" +:+ oid in
        (* Verify order belongs to customer *)
        let* order := call (get_order svc order_id) in
        match order with
        | None => ret (CancelNotFound order_id)
        | Some o =>
            if negb (String.eqb (customer_phone o) sender_number)
            then ret CancelNotOwner
            else
              let* reason := of_res (cancellation_reason message) in
              let* r := call (cancel_order svc order_id (Some reason)) in
              if (fst r : bool) then ret (OrderCancelled order_id reason)
              else ret (CannotCancelOrder (snd r))
        end
      else show_cancellable sender_number
  | None => show_cancellable sender_number
  end.

(** The [try] block of [OrderAgent.handle_message]. *)
Definition handle_body (now : Z) (uuid : N) (intent : Intent)
    (message sender_number : string) : M Reply :=
  match intent with
  | ORDER_CREATE => _handle_order_creation now uuid message sender_number
  | ORDER_STATUS => _handle_order_status message sender_number
  | ORDER_CANCEL => _handle_order_cancellation message sender_number
  | _ => ret OrderHelp
  end.

(** [OrderAgent.handle_message] *)
Definition handle_message (now : Z) (uuid : N) (intent : Intent)
    (message sender_number : string) : M Reply :=
  try_except (handle_body now uuid intent message sender_number)
             (fun _ => ret OrderAgentError).

End Agent.
End OrderAgent.

(** ** agents/manager_agent.py *)

Module ManagerAgent.
Import MessageParser OrderAgent.

Section Router.
Context {DB : Type}.
Variable svc : DatabaseService DB.

Definition _handle_greeting (sender_number : string) : M (DB:=DB) Reply :=
  bind (call (get_customer svc sender_number)) (fun customer =>
    match customer with
    | Some c =>
        match name c with
        | Some n => if Text.is_empty n then ret GreetingNew
                    else ret (GreetingReturning n)
        | None => ret GreetingNew
        end
    | None => ret GreetingNew
    end).

Definition _handle_unknown_intent (message : string) : Reply :=
  let message_lower := Text.lower message in
  if Text.any_in ["price"; "cost"; "how much"] message_lower then PricingInfo
  else if Text.any_in ["delivery"; "shipping"; "when"] message_lower then DeliveryInfo
  else UnknownMenu.

Definition _get_error_response : Reply := RouterError.

(** The [try] block of [_route_to_agent]. *)
Definition route_body (now : Z) (uuid : N) (intent : Intent)
    (message sender_number : string) : M (DB:=DB) Reply :=
  match intent with
  | ORDER_CREATE | ORDER_STATUS | ORDER_CANCEL =>
      OrderAgent.handle_message svc now uuid intent message sender_number
  | FAQ_GENERAL | FAQ_HOURS | FAQ_CONTACT | HELP =>
      ret (FAQAgent.handle_message intent message)
  | REJECT_RESPONSE =>
      ret (RejectionText (RejectAgent._analyze_rejection message))
  | GREETING => _handle_greeting sender_number
  | UNKNOWN => ret (_handle_unknown_intent message)
  end.

Definition _route_to_agent (now : Z) (uuid : N) (intent : Intent)
    (message sender_number : string) : M (DB:=DB) Reply :=
  try_except (route_body now uuid intent message sender_number)
             (fun _ => ret _get_error_response).

End Router.
End ManagerAgent.

(** ** Reference readings used by the properties *)

Module Reference.



Fixpoint all_chars (p : ascii -> bool) (s : string) : bool :=
  match s with
  | EmptyString => true
  | String c s' => p c && all_chars p s'
  end.

(** [ORD-[A-Z0-9]{8}]: the literal prefix and exactly eight upper-case
    letters or digits. *)
Definition order_id_shape (s : string) : bool :=
  match s with
  | String "O" (String "R" (String "D" (String "-" suffix))) =>
      (String.length suffix =? 8)%nat
      && all_chars (fun c => Text.is_upper c || Text.is_digit c) suffix
  | _ => false
  end.

(** The intents the router sends to the order agent. *)
Definition order_intent (i : MessageParser.Intent) : bool :=
  match i with
  | MessageParser.ORDER_CREATE | MessageParser.ORDER_STATUS
  | MessageParser.ORDER_CANCEL => true
  | _ => false
  end.

(** The value of a field in the result of [extract_order_details]. *)
Definition field_of (r : Res (gmap string string)) (key : string) : option string :=
  match r with
  | Ok d => d !! key
  | Raise _ => None
  end.

(** A non-empty run of decimal digits. *)
Definition digit_run (s : string) : bool :=
  negb (Text.is_empty s) && all_chars Text.is_digit s.

End Reference.

(** ** The wizard as a state machine, in the words of the specification *)

Module Wizard.
Import OrderAgent.

(** The field an answer fills at each step. *)
Definition answer_key (s : Step) : string :=
  match s with
  | step_product => "product"
  | step_name => "customer_name"
  | step_phone => "customer_phone"
  | step_address => "address"
  end.

(** AwaitingProduct -> AwaitingName -> AwaitingPhone -> AwaitingAddress ->
    committed (no session). *)
Definition next_step (s : Step) : option Step :=
  match s with
  | step_product => Some step_name
  | step_name => Some step_phone
  | step_phone => Some step_address
  | step_address => None
  end.

(** The session one step further, [None] once the address is in. *)
Definition advanced (p : PendingOrder) (message : string) : option PendingOrder :=
  match next_step (step p) with
  | Some s' =>
      Some {| step := s';
              data := <[answer_key (step p) := Text.strip message]> (data p);
              started_at := started_at p |}
  | None => None
  end.

Definition prompt_after (s : Step) : Reply :=
  match s with
  | step_product => GuidedNamePrompt
  | step_name => GuidedPhonePrompt
  | _ => GuidedAddressPrompt
  end.

(** A test double for the database service whose [create_order] raises. *)
Definition failing_store : DatabaseService unit :=
  {| get_customer := fun _ d => (Ok None, d);
     create_customer := fun _ _ _ d => (Ok true, d);
     create_order := fun _ _ _ _ _ d => (Raise (ServiceError "create_order"), d);
     get_order := fun _ d => (Ok None, d);
     get_customer_orders := fun _ d => (Ok [], d);
     cancel_order := fun _ _ d => (Ok (false, "Order not found"), d) |}.

(** A test double whose [get_customer] raises. *)
Definition unreachable_store : DatabaseService unit :=
  {| get_customer := fun _ d => (Raise (ServiceError "get_customer"), d);
     create_customer := fun _ _ _ d => (Ok true, d);
     create_order := fun _ _ _ _ _ d => (Ok true, d);
     get_order := fun _ d => (Ok None, d);
     get_customer_orders := fun _ d => (Ok [], d);
     cancel_order := fun _ _ d => (Ok (false, "Order not found"), d) |}.

(** A test double whose order queries raise. *)
Definition offline_store : DatabaseService unit :=
  {| get_customer := fun _ d => (Ok None, d);
     create_customer := fun _ _ _ d => (Ok true, d);
     create_order := fun _ _ _ _ _ d => (Ok true, d);
     get_order := fun _ d => (Raise (ServiceError "get_order"), d);
     get_customer_orders := fun _ d => (Raise (ServiceError "get_customer_orders"), d);
     cancel_order := fun _ _ d => (Ok (false, "Order not found"), d) |}.

End Wizard.

(** ** Concrete situations used by the properties *)

Module Situations.
Import OrderAgent.

Definition no_isoformat (t : Z) : string := EmptyString.

(** The SQLite service at clock reading 0, in a process whose local time
    is UTC. *)
Definition store : DatabaseService Sqlite.DB := Sqlite.service 0 0 no_isoformat.

(** A sender who was just asked for the product. *)
Definition asked_for_product : PendingOrder :=
  {| step := step_product; data := ∅; started_at := 0 |}.

Definition awaiting_product : AgentState Sqlite.DB :=
  Build_AgentState {["+15550100" := asked_for_product]} Sqlite.empty_db.

(** A sender who was just asked for the address. *)
Definition asked_for_address : PendingOrder :=
  {| step := step_address;
     data := <["customer_phone" := "555-0123"]>
             (<["customer_name" := "Jane Doe"]>
             (<["product" := "Laptop"]> ∅));
     started_at := 0 |}.

Definition awaiting_address {DB : Type} (d : DB) : AgentState DB :=
  Build_AgentState {["+15550100" := asked_for_address]} d.

(** An order placed at instant 0. *)
Definition old_order : Order :=
  {| order_id := "ORD-1"; customer_phone := "+15550100"; product := "Laptop";
     quantity := 1; status := "pending"; details := ∅;
     created_at := 0; updated_at := 0 |}.

Definition one_order : Sqlite.DB :=
  {| Sqlite.customers := ∅; Sqlite.orders := {["ORD-1" := old_order]} |}.

(** A single-shot order message that names no customer. *)
Definition nameless_order : string :=
  "I want to order product: laptop, phone: 555-0123, address: 1 Main St".

(** A store in which the id that [uuid4] value 7 leads to is taken by an
    order of another customer. *)
Definition clashing_order : Order :=
  {| order_id := new_order_id 7; customer_phone := "+15550199"; product := "Mouse";
     quantity := 1; status := "pending"; details := ∅;
     created_at := 0; updated_at := 0 |}.

Definition clash : Sqlite.DB :=
  {| Sqlite.customers := ∅; Sqlite.orders := {[new_order_id 7 := clashing_order]} |}.

Definition hour : Z := 3600000000.

(** A process whose local time is eight hours behind UTC. *)
Definition behind_utc : Z := - 8 * hour.

(** A process whose local time is two hours ahead of UTC. *)
Definition ahead_of_utc : Z := 2 * hour.

(** The store after an order is placed at local reading 0, eight hours
    behind UTC. *)
Definition placed_behind_utc : Sqlite.DB :=
  snd (Sqlite.create_order 0 behind_utc "ORD-7" "+15550100" "Laptop" 1 ∅
         Sqlite.empty_db).

End Situations.

(** ** Predicates on agent computations *)

Module Predicates.
Import OrderAgent.

(** Lower-case hexadecimal digits, and the characters of an order-id suffix. *)
Definition is_hex_lower (c : ascii) : bool :=
  Text.is_digit c || Text.in_range 97 102 c.
Definition is_id_char (c : ascii) : bool := Text.is_upper c || Text.is_digit c.

(** Running [m] takes the store from [d] to some [d'] with [P d d']. *)
Definition keeps {DB : Type} (P : DB -> DB -> Prop) {A : Type} (m : M (DB:=DB) A)
  : Prop :=
  forall st, P (db st) (db (snd (m st))).

(** A reply that, if it is a confirmation, names the id [oid0]. *)
Definition names (oid0 : string) (r : Reply) : Prop :=
  match r with
  | OrderConfirmation oid _ _ _ _ => oid = oid0
  | _ => True
  end.

Definition confirms {DB : Type} (oid0 : string) (m : M (DB:=DB) Reply) : Prop :=
  forall st r, fst (m st) = Ok r -> names oid0 r.

(** The store gains no order other than possibly [oid]. *)
Definition adds_only (oid : string) (d d' : Sqlite.DB) : Prop :=
  forall k, k <> oid -> Sqlite.orders d' !! k = Sqlite.orders d !! k.

(** The bag handed to the store at the last step of the wizard. *)
Definition guided_details (fields : gmap string string) : gmap string json :=
  <["agent_processed" := JBool true]>
    (<["created_via" := JStr "whatsapp_guided"]> (JStr <$> fields)).

End Predicates.

Module Claims.

(** C1 as stated: whatever the classified intent, a message from a sender
    with a session is handled as the continuation of that session. *)
Definition session_precedes_intent {DB : Type} (svc : DatabaseService DB) : Prop :=
  forall now uuid intent message sender st od,
    OrderAgent.pending_orders st !! sender = Some od ->
    ManagerAgent._route_to_agent svc now uuid intent message sender st
    = OrderAgent._continue_order_creation svc uuid message sender st.

(** C2 as stated: the store holds an order whose detail bag has the four
    fields with the four answers. *)
Definition holds_wizard_order (d : Sqlite.DB) : Prop :=
  exists o,
    In o (map snd (map_to_list (Sqlite.orders d)))
    /\ details o !! "product" = Some (JStr "Laptop")
    /\ details o !! "customer_name" = Some (JStr "Jane Doe")
    /\ details o !! "customer_phone" = Some (JStr "555-0123")
    /\ details o !! "address" = Some (JStr "1 Main St").

(** The state after a session is started for [sender] and the four answers
    are delivered to the order-creation handler, with the last reply. *)
Definition wizard_run (utcoffset : Z) (isoformat : Z -> string) (t0 t1 t2 t3 t4 : Z)
    (u1 u2 u3 u4 : N) (first_message sender : string)
    (st0 : OrderAgent.AgentState Sqlite.DB)
  : Res Reply * OrderAgent.AgentState Sqlite.DB :=
  let handle := fun t u answer st =>
    OrderAgent._handle_order_creation (Sqlite.service t utcoffset isoformat)
      t u answer sender st in
  let st1 := snd (OrderAgent._start_guided_order_creation t0 first_message sender st0) in
  let st2 := snd (handle t1 u1 "Laptop" st1) in
  let st3 := snd (handle t2 u2 "Jane Doe" st2) in
  let st4 := snd (handle t3 u3 "555-0123" st3) in
  handle t4 u4 "1 Main St" st4.

(** The run on a store in which the id of the last step is taken. *)
Definition run_on_taken_id : Res Reply * OrderAgent.AgentState Sqlite.DB :=
  wizard_run 0 Situations.no_isoformat 0 0 0 0 0 0 0 0 7
    "I want to order" "+15550100"
    (OrderAgent.Build_AgentState ∅ Situations.clash).

(** C2 as stated: whatever the store holds beforehand, the run persists the
    order and leaves no session. *)
Definition wizard_always_commits : Prop :=
  forall utcoffset isoformat t0 t1 t2 t3 t4 u1 u2 u3 u4 first_message sender st0,
    let res := wizard_run utcoffset isoformat t0 t1 t2 t3 t4 u1 u2 u3 u4
                 first_message sender st0 in
    holds_wizard_order (OrderAgent.db (snd res))
    /\ OrderAgent.pending_orders (snd res) !! sender = None.

End Claims.

(** ** Further reference notions *)

Module Notions.

(** The keys of the record [extract_order_details] builds. *)
Definition order_detail_keys : list string :=
  ["product"; "quantity"; "customer_name"; "customer_phone"; "address"; "notes"].


(** The entity types of the entity table. *)
Definition entity_types : list string := map fst MessageParser.entity_patterns.

(** The detail bag of a single-shot order, from the extracted record. *)
Definition single_shot_bag (sender_number : string) (order_details : gmap string string)
  : gmap string json :=
  <["agent_processed" := JBool true]>
  (<["created_via" := JStr "whatsapp"]>
  (<["notes" := JStr (default EmptyString (order_details !! "notes"))]>
  (<["address" := JStr (default EmptyString (order_details !! "address"))]>
  (<["customer_phone" :=
       JStr (default sender_number (order_details !! "customer_phone"))]>
  (<["customer_name" :=
       JStr (default EmptyString (order_details !! "customer_name"))]>
   ∅))))).

(** The store after [_create_order_from_message] has made sure of the
    sender's customer record. *)
Definition with_customer (clock utcoffset : Z) (sender : string)
    (d : gmap string string) (db0 : Sqlite.DB) : Sqlite.DB :=
  match Sqlite.get_customer sender db0 with
  | Some _ => db0
  | None => snd (Sqlite.create_customer clock utcoffset sender
                   (Some (default "Unknown" (d !! "customer_name"))) None
                   (<["source" := JStr "whatsapp_order"]> ∅) db0)
  end.

(** A text of ASCII characters only: every code point is below 128. On
    such text the string model is Python's. *)
Definition ascii_text (s : string) : bool :=
  Reference.all_chars (fun c => (Text.code c <? 128)%nat) s.

End Notions.

(** ** Relations between agent states *)

Module Frames.
Import OrderAgent.

(** Running [m] relates the state before to the state after by [R]. *)
Definition preserves {DB A : Type} (R : AgentState DB -> AgentState DB -> Prop)
    (m : M (DB:=DB) A) : Prop :=
  forall st, R st (snd (m st)).

(** The session of [other] is the same. *)
Definition same_session {DB : Type} (other : string) (st st' : AgentState DB) : Prop :=
  pending_orders st' !! other = pending_orders st !! other.

(** All sessions are the same. *)
Definition same_sessions {DB : Type} (st st' : AgentState DB) : Prop :=
  pending_orders st' = pending_orders st.

(** The store is the same. *)
Definition same_store {DB : Type} (st st' : AgentState DB) : Prop :=
  db st' = db st.

(** At most the order [k] differs, and if it does it was [sender]'s and is
    now cancelled; customers are the same. *)
Definition cancels_only (k sender : string) (d d' : Sqlite.DB) : Prop :=
  Sqlite.customers d' = Sqlite.customers d
  /\ (forall j, j <> k -> Sqlite.get_order j d' = Sqlite.get_order j d)
  /\ (Sqlite.get_order k d' = Sqlite.get_order k d
      \/ exists o o', Sqlite.get_order k d = Some o
                      /\ customer_phone o = sender
                      /\ Sqlite.get_order k d' = Some o'
                      /\ status o' = "cancelled").

End Frames.

(** ** agents/faq_agent.py: [search_faq] *)

Module FAQSearch.

(** [matches.sort(key=lambda x: x[1], reverse=True)]: Python's sort is
    stable, also in reverse, so entries of equal score keep their order.
    An entry that came earlier is put in front of the first entry that does
    not score more. *)
Fixpoint insert_by_score (x : string * nat) (l : list (string * nat))
  : list (string * nat) :=
  match l with
  | [] => [x]
  | y :: l' => if (snd x <? snd y)%nat then y :: insert_by_score x l' else x :: l
  end.

Definition sort_by_score (l : list (string * nat)) : list (string * nat) :=
  fold_right insert_by_score [] l.

(** The list [matches]: the categories with a positive score, in table
    order. *)
Fixpoint matches_of (table : list (string * list string)) (query_lower : string)
  : list (string * nat) :=
  match table with
  | [] => []
  | (category, keywords) :: table' =>
      let sc := FAQAgent.keyword_score keywords query_lower in
      if (0 <? sc)%nat then (category, sc) :: matches_of table' query_lower
      else matches_of table' query_lower
  end.

Definition search_faq (query : string) : Reply :=
  let query_lower := Text.lower query in
  match sort_by_score (matches_of FAQAgent.faqs query_lower) with
  | best :: _ => FaqText (fst best)
  | [] => HelpText
  end.

(** [get_faq_categories] *)
Definition get_faq_categories : list string := map fst FAQAgent.faqs.

End FAQSearch.

(** ** The webhook entry point: [ManagerAgent.handle_incoming_message] with
    the request helpers of services/whatsapp_service.py *)

Module Webhook.
Import MessageParser OrderAgent.

(** [Intent.value] *)
Definition intent_value (i : Intent) : string :=
  match i with
  | ORDER_CREATE => "order_create"
  | ORDER_STATUS => "order_status"
  | ORDER_CANCEL => "order_cancel"
  | FAQ_GENERAL => "faq_general"
  | FAQ_HOURS => "faq_hours"
  | FAQ_CONTACT => "faq_contact"
  | REJECT_RESPONSE => "reject_response"
  | HELP => "help"
  | GREETING => "greeting"
  | UNKNOWN => "unknown"
  end.

(** [s.replace(old, '')]: the parts between the occurrences of [old],
    joined. *)
Definition remove_all (old s : string) : string :=
  fold_right String.append EmptyString (Text.split_str old s 0).

(** [request.form]: the fields of the webhook request. *)
Definition Form : Type := gmap string string.

(** [request.form.get(field, '')] *)
Definition form_get (form : Form) (field : string) : string :=
  default EmptyString (form !! field).

(** [validate_webhook]: [From] and [Body] must be present and non-empty. *)
Definition validate_webhook (form : Form) : bool :=
  forallb (fun field => negb (Text.is_empty (form_get form field))) ["From"; "Body"].

Definition get_message_body (form : Form) : string :=
  Text.strip (form_get form "Body").

Definition get_sender_number (form : Form) : string :=
  remove_all "whatsapp:" (form_get form "From").

(** The number [send_message] hands to the messaging client. *)
Definition whatsapp_address (to_number : string) : string :=
  if String.prefix "whatsapp:" to_number then to_number
  else "whatsapp:" +:+ to_number.

(** A row of [conversations], with the four columns [log_conversation]
    inserts; the body is the text received or the reply sent. The table is
    kept beside the customers and orders of [Sqlite.DB], which it does not
    touch. *)
Inductive Logged : Type :=
| Received (text : string)
| Answered (reply : Reply).

Record Conversation : Type := {
  conv_phone : string;
  message_type : string;
  message_body : Logged;
  conv_intent : option string
}.

(** The agents' state, the conversation log (oldest first) and the messages
    the messaging client accepted (oldest first). *)
Record World : Type := {
  agents : AgentState Sqlite.DB;
  conversations : list Conversation;
  outbox : list (string * Reply)
}.

Section Transport.
(** [accepts to body]: whether the messaging client accepts the message;
    [send_message] answers [False] when it raises. *)
Variable accepts : string -> Reply -> bool.
Variables (clock utcoffset : Z) (isoformat : Z -> string) (uuid : N).

Definition log_conversation (phone kind : string) (body : Logged)
    (intent : option string) (w : World) : World :=
  {| agents := agents w;
     conversations :=
       conversations w ++ [{| conv_phone := phone; message_type := kind;
                              message_body := body; conv_intent := intent |}];
     outbox := outbox w |}.

Definition send_message (to_number : string) (message : Reply) (w : World)
  : bool * World :=
  let address := whatsapp_address to_number in
  if accepts address message
  then (true, {| agents := agents w; conversations := conversations w;
                 outbox := outbox w ++ [(address, message)] |})
  else (false, w).

(** The status of the response and the world afterwards. Every reply
    template is a non-empty text, so [if response_message] always holds. *)
Definition handle_incoming_message (form : Form) (w : World) : Z * World :=
  if negb (validate_webhook form) then (400%Z, w)
  else
    let message_body := get_message_body form in
    let sender_number := get_sender_number form in
    let parsed_message := parse_message message_body in
    let w1 := log_conversation sender_number "incoming" (Received message_body)
                (Some (intent_value (intent parsed_message))) w in
    match ManagerAgent._route_to_agent (Sqlite.service clock utcoffset isoformat)
            clock uuid (intent parsed_message) message_body sender_number (agents w1) with
    | (Ok response_message, st) =>
        let w2 := {| agents := st; conversations := conversations w1;
                     outbox := outbox w1 |} in
        let '(success, w3) := send_message sender_number response_message w2 in
        if success
        then (200%Z, log_conversation sender_number "outgoing"
                       (Answered response_message) None w3)
        else (200%Z, w3)
    | (Raise _, st) =>
        (500%Z, {| agents := st; conversations := conversations w1;
                   outbox := outbox w1 |})
    end.

End Transport.
End Webhook.

(** ** Requests used by the witnesses of the webhook properties *)

Module Requests.

(** A greeting sent from a WhatsApp number. *)
Definition hello : Webhook.Form :=
  <["Body" := "hello"]> (<["From" := "whatsapp:+15550123"]> ∅).

(** Nothing stored, logged or sent yet. *)
Definition fresh : Webhook.World :=
  {| Webhook.agents := OrderAgent.Build_AgentState ∅ Sqlite.empty_db;
     Webhook.conversations := [];
     Webhook.outbox := [] |}.

(** A messaging client that accepts every message. *)
Definition reliable (to_number : string) (message : Reply) : bool := true.

End Requests.

(** ** A full run of the guided wizard *)

Module WizardRun.

(** The fields a session holds after the four answers. *)
Definition collected (product name phone address : string) : gmap string string :=
  <["address" := Text.strip address]>
    (<["customer_phone" := Text.strip phone]>
       (<["customer_name" := Text.strip name]>
          (<["product" := Text.strip product]> ∅))).

End WizardRun.

(** * Properties *)

Local Open Scope list_scope.

(** ** Facts about the string primitives *)

Module TextFacts.
Import Text.

Lemma app_assoc_str (a b c : string) : (a +:+ b) +:+ c = a +:+ (b +:+ c).
Proof. induction a as [|x a IH]; simpl; [reflexivity | now rewrite IH]. Qed.

Lemma app_empty_r (a : string) : a +:+ EmptyString = a.
Proof. induction a as [|x a IH]; simpl; [reflexivity | now rewrite IH]. Qed.

Lemma length_app (a b : string) :
  String.length (a +:+ b) = String.length a + String.length b.
Proof. induction a as [|x a IH]; simpl; [reflexivity | now rewrite IH]. Qed.

Lemma prefix_app (p s : string) :
  String.prefix p s = true <-> exists b, s = p +:+ b.
Proof.
  revert s. induction p as [|x p IH]; intros s.
  - destruct s; simpl; (split; [intros _; eexists; reflexivity | reflexivity]).
  - destruct s as [|y s]; simpl.
    + split; [discriminate | intros [b Hb]; discriminate].
    + destruct (ascii_dec x y) as [->|Hne].
      * rewrite IH. split; intros [b Hb]; exists b; [now rewrite Hb | now inversion Hb].
      * split; [discriminate | intros [b Hb]; inversion Hb; congruence].
Qed.

Lemma contains_nil (p : string) :
  contains p EmptyString = String.prefix p EmptyString.
Proof. unfold contains. apply orb_false_r. Qed.

Lemma contains_cons (p : string) (y : ascii) (s : string) :
  contains p (String y s) = String.prefix p (String y s) || contains p s.
Proof. reflexivity. Qed.

(** [sub in s] holds exactly when [s] has [sub] as a contiguous part. *)
Lemma contains_app (p s : string) :
  contains p s = true <-> exists a b, s = a +:+ p +:+ b.
Proof.
  induction s as [|y s IH].
  - rewrite contains_nil, prefix_app. split.
    + intros [b Hb]. now exists EmptyString, b.
    + intros [a [b Hb]]. destruct a; simpl in Hb; [now exists b | discriminate].
  - rewrite contains_cons, orb_true_iff, IH, prefix_app. split.
    + intros [[b Hb] | [a [b Hb]]].
      * now exists EmptyString, b.
      * exists (String y a), b. simpl. now rewrite Hb.
    + intros [a [b Hb]]. destruct a as [|x a]; simpl in Hb.
      * left. now exists b.
      * right. inversion Hb. now exists a, b.
Qed.

Lemma map_chars_app (f : ascii -> ascii) (a b : string) :
  map_chars f (a +:+ b) = map_chars f a +:+ map_chars f b.
Proof. induction a as [|x a IH]; simpl; [reflexivity | now rewrite IH]. Qed.

(** A phrase already in lower case that occurs in a text also occurs in the
    lowered text. *)
Lemma contains_lower (p s : string) :
  lower p = p -> contains p s = true -> contains p (lower s) = true.
Proof.
  intros Hp H. apply contains_app in H as [a [b ->]].
  apply contains_app. exists (lower a), (lower b).
  unfold lower in *. now rewrite !map_chars_app, Hp.
Qed.

Lemma any_in_intro (ws : list string) (w s : string) :
  In w ws -> contains w s = true -> any_in ws s = true.
Proof.
  intros Hin H. unfold any_in. apply existsb_exists. now exists w.
Qed.

(** *** Colons *)

Lemma after_first_app (sep : ascii) (a b : string) :
  is_Some (after_first sep b) -> is_Some (after_first sep (a +:+ b)).
Proof.
  intros H. induction a as [|x a IH]; simpl; [exact H |].
  destruct (Ascii.eqb x sep); [eauto | exact IH].
Qed.

Lemma after_first_app_l (sep : ascii) (a b : string) :
  is_Some (after_first sep a) -> is_Some (after_first sep (a +:+ b)).
Proof.
  induction a as [|x a IH]; simpl; intros H.
  - destruct H as [? H]. discriminate.
  - destruct (Ascii.eqb x sep); [eauto | auto].
Qed.

Lemma lower_char_colon (c : ascii) :
  lower_char c = ":"%char -> c = ":"%char.
Proof.
  destruct c as [[] [] [] [] [] [] [] []]; vm_compute; congruence.
Qed.

Lemma after_first_lower (s : string) :
  is_Some (after_first ":" (lower s)) -> is_Some (after_first ":" s).
Proof.
  induction s as [|x s IH]; simpl; [trivial |].
  destruct (Ascii.eqb (lower_char x) ":") eqn:E.
  - apply Ascii.eqb_eq, lower_char_colon in E. subst x. simpl. eauto.
  - intros H. destruct (Ascii.eqb x ":"); [eauto | auto].
Qed.

Lemma lstrip_suffix (s : string) : exists a, s = a +:+ lstrip s.
Proof.
  induction s as [|x s [a IH]]; simpl.
  - now exists EmptyString.
  - destruct (isspace x).
    + exists (String x a). simpl. now rewrite <- IH.
    + now exists EmptyString.
Qed.

Lemma rstrip_prefix (s : string) : exists b, s = rstrip s +:+ b.
Proof.
  induction s as [|x s [b IH]]; simpl.
  - now exists EmptyString.
  - destruct (isspace x && is_empty (rstrip s)).
    + now exists (String x s).
    + exists b. simpl. now rewrite <- IH.
Qed.

Lemma after_first_strip (s : string) :
  is_Some (after_first ":" (strip s)) -> is_Some (after_first ":" s).
Proof.
  unfold strip. intros H.
  destruct (lstrip_suffix s) as [a Ha].
  destruct (rstrip_prefix (lstrip s)) as [b Hb].
  rewrite Ha. apply after_first_app. rewrite Hb. now apply after_first_app_l.
Qed.

(** A text in which a phrase ending in a colon occurs has a colon. *)
Lemma contains_colon (p s : string) :
  is_Some (after_first ":" p) -> contains p s = true ->
  is_Some (after_first ":" s).
Proof.
  intros Hp H. apply contains_app in H as [a [b ->]].
  apply after_first_app. now apply after_first_app_l.
Qed.

Lemma split_chr_head (sep : ascii) (s : string) :
  exists tl, split_chr sep s = upto sep s :: tl.
Proof.
  induction s as [|x s [tl IH]]; simpl; [now exists [] |].
  rewrite IH. destruct (Ascii.eqb x sep); eauto.
Qed.

(** [s.split(sep)[1]] is the text between the first and the second
    separator. *)
Lemma split_chr_second (sep : ascii) (s rest : string) :
  after_first sep s = Some rest ->
  split_chr sep s !! 1%nat = Some (upto sep rest).
Proof.
  revert rest. induction s as [|x s IH]; simpl; intros rest H; [discriminate |].
  destruct (split_chr_head sep s) as [tl Hs].
  destruct (Ascii.eqb x sep).
  - inversion H; subst rest. now rewrite Hs.
  - specialize (IH rest H). rewrite Hs in *. exact IH.
Qed.

End TextFacts.

(** ** Rejection classifier *)

(** C5. The rejection classifier returns, for every text, the one category
    picked by checking the phrase sets in the order not-interested,
    too-expensive, wrong-timing, need-to-think and falling back to
    general-no; a text containing "not interested" and "too expensive" is
    classified as not-interested. *)
Theorem analyze_rejection_priority (message : string) :
  RejectAgent._analyze_rejection message = RejectAgent.classify_by_priority message
  /\ (Text.contains "too expensive" (Text.lower message) = true ->
      Text.contains "not interested" (Text.lower message) = true ->
      RejectAgent._analyze_rejection message = RejectAgent.not_interested).
Proof.
  split.
  - unfold RejectAgent._analyze_rejection, RejectAgent.classify_by_priority,
      RejectAgent.priority_table. cbn [RejectAgent.first_matching].
    repeat match goal with |- context [if ?b then _ else _] => destruct b end;
      reflexivity.
  - intros _ H. unfold RejectAgent._analyze_rejection.
    rewrite (TextFacts.any_in_intro RejectAgent.not_interested_phrases
               "not interested" (Text.lower message)).
    + reflexivity.
    + simpl. auto.
    + exact H.
Qed.

Lemma analyze_rejection_priority_witness :
  RejectAgent._analyze_rejection "It is Too Expensive and I am NOT interested"
  = RejectAgent.not_interested.
Proof.
  apply (analyze_rejection_priority "It is Too Expensive and I am NOT interested");
    reflexivity.
Defined.

(** ** Structured order messages *)

Lemma second_field_between (line : string) :
  is_Some (Text.after_first ":" line) ->
  exists v, Text.between_first_and_second ":" line = Some v
            /\ MessageParser.second_field line = Ok (Text.strip v).
Proof.
  intros [rest Hrest]. exists (Text.upto ":" rest).
  unfold Text.between_first_and_second, MessageParser.second_field.
  rewrite Hrest, (TextFacts.split_chr_second _ _ _ Hrest). auto.
Qed.

Lemma label_has_colon (label line : string) :
  is_Some (Text.after_first ":" label) ->
  Text.contains label (Text.lower (Text.strip line)) = true ->
  is_Some (Text.after_first ":" line).
Proof.
  intros Hl H. apply TextFacts.after_first_strip, TextFacts.after_first_lower.
  exact (TextFacts.contains_colon _ _ Hl H).
Qed.





(** ** Intent classification *)

Module DetectIntent.
Import MessageParser.










End DetectIntent.



(** ** Entity extraction *)

Module RegexFacts.
Import Regex Reference.

Lemma icase_digit (c : ascii) : icase Text.is_digit c = Text.is_digit c.
Proof. destruct c as [[] [] [] [] [] [] [] []]; reflexivity. Qed.

Lemma take_str_app (a b : string) :
  Text.take_str (String.length (a +:+ b) - String.length b) (a +:+ b) = a.
Proof.
  rewrite TextFacts.length_app.
  replace (String.length a + String.length b - String.length b)
    with (String.length a) by lia.
  unfold Text.take_str. induction a as [|x a IH]; simpl.
  - destruct b; reflexivity.
  - now rewrite IH.
Qed.

(** A successful repetition consumed a run of class characters of at least
    the minimal length and handed the rest to its continuation. *)
Lemma rep_sound p lo hi prev s cs (k : cont) res :
  rep p lo hi prev s cs k = Some res ->
  exists pre prev' s', s = pre +:+ s'
    /\ all_chars (icase p) pre = true
    /\ lo <= String.length pre
    /\ k prev' s' cs = Some res.
Proof.
  revert lo hi prev. induction s as [|c s IH]; intros lo hi prev; simpl.
  - destruct lo; [| discriminate]. intros H.
    exists EmptyString, prev, EmptyString. auto.
  - assert (Hstop : match lo with 0 => k prev (String c s) cs | S _ => None end
                    = Some res ->
                    exists pre prev' s', String c s = pre +:+ s'
                      /\ all_chars (icase p) pre = true
                      /\ lo <= String.length pre
                      /\ k prev' s' cs = Some res).
    { destruct lo; [| discriminate]. intros H.
      exists EmptyString, prev, (String c s). auto. }
    destruct (icase p c && may_repeat hi) eqn:E; [| exact Hstop].
    destruct (rep p (Nat.pred lo) (option_map Nat.pred hi) (Some c) s cs k)
      as [r |] eqn:Hr; [| exact Hstop].
    intros H. inversion H; subst r.
    destruct (IH _ _ _ Hr) as (pre & prev' & s' & Hs & Hall & Hlo & Hk).
    exists (String c pre), prev', s'. simpl.
    apply andb_true_iff in E as [Ec _]. rewrite Ec, Hall, Hs.
    repeat split; auto. lia.
Qed.

(** A successful match reached its continuation. *)
Lemma run_cont r prev s cs (k : cont) res :
  run r prev s cs k = Some res ->
  exists prev' s' cs', k prev' s' cs' = Some res.
Proof.
  revert prev s cs k. induction r; intros prev s cs k; simpl; intros H.
  - eauto.
  - destruct (lit t prev s) as [[p' s'] |]; [eauto | discriminate].
  - destruct s as [|c s]; [discriminate |]. destruct (icase p c); [eauto | discriminate].
  - destruct (rep_sound _ _ _ _ _ _ _ _ H) as (pre & prev' & s' & _ & _ & _ & Hk). eauto.
  - destruct (IHr1 _ _ _ _ H) as (p1 & s1 & c1 & H1). eauto.
  - destruct (run r1 prev s cs k) eqn:E; [inversion H; subst; eauto | eauto].
  - destruct (run r prev s cs k) eqn:E; [inversion H; subst; eauto | eauto].
  - destruct (IHr _ _ _ _ H) as (p1 & s1 & c1 & H1). eauto.
  - destruct (at_boundary prev s); [eauto | discriminate].
Qed.

(** Every match of the order-id pattern binds group 2 to a non-empty run
    of digits. *)
Lemma order_id_match_digits prev s n cs :
  match_at MessageParser.order_id_pattern prev s = Some (n, cs) ->
  digit_run (group cs 2) = true.
Proof.
  unfold match_at.
  destruct (run _ prev s [] _) as [[s' cs'] |] eqn:H; [| discriminate].
  intros E. inversion E; subst n cs'. clear E.
  unfold MessageParser.order_id_pattern, seqs in H. cbn [fold_right run] in H.
  destruct (at_boundary prev s); [| discriminate].
  apply run_cont in H as (p1 & s1 & c1 & H).
  apply rep_sound in H as (_ & p2 & s2 & _ & _ & _ & H).
  apply rep_sound in H as (pre & p3 & s3 & Hs & Hall & Hlen & H).
  destruct (at_boundary p3 s3); [| discriminate].
  inversion H; subst s' cs. cbn [group Nat.eqb].
  rewrite Hs, take_str_app. unfold digit_run.
  destruct pre as [|x pre]; [simpl in Hlen; lia |].
  cbn [Text.is_empty negb andb].
  clear -Hall. revert Hall. generalize (String x pre) as t.
  induction t as [|y t IH]; simpl; [reflexivity |].
  rewrite icase_digit. intros H. apply andb_true_iff in H as [-> H]. auto.
Qed.

Lemma scan_order_id_digits prev s skip :
  Forall (fun m => digit_run (group (snd m) 2) = true)
         (scan MessageParser.order_id_pattern prev s skip).
Proof.
  revert prev skip. induction s as [|c s IH]; intros prev skip; simpl.
  - destruct skip; [| constructor].
    destruct (match_at _ prev EmptyString) as [[n cs] |] eqn:E; [| constructor].
    constructor; [| constructor]. exact (order_id_match_digits _ _ _ _ E).
  - destruct skip; [| apply IH].
    destruct (match_at _ prev (String c s)) as [[n cs] |] eqn:E; [| apply IH].
    constructor; [| apply IH]. exact (order_id_match_digits _ _ _ _ E).
Qed.

Lemma order_id_entity_value (m : string * caps) :
  MessageParser.entity_value "order_id" (to_item MessageParser.order_id_pattern m)
  = group (snd m) 2.
Proof. reflexivity. Qed.

(** Only the first entry of the entity table writes the key [order_id]. *)
Lemma extract_entities_order_id (message : string) :
  MessageParser._extract_entities message !! "order_id"
  = match findall MessageParser.order_id_pattern message with
    | [] => None
    | matches => Some (map (MessageParser.entity_value "order_id") matches)
    end.
Proof.
  unfold MessageParser._extract_entities, MessageParser.entity_patterns.
  cbn [fold_left].
  repeat match goal with
         | |- context [findall (seqs ?l) message] =>
             generalize (findall (seqs l) message); intros ?
         end.
  generalize (findall MessageParser.order_id_pattern message) as ms. intros ms.
  repeat match goal with
         | |- context [match ?l with [] => _ | _ :: _ => _ end] =>
             is_var l; destruct l
         end;
    repeat (rewrite lookup_insert_ne by discriminate);
    rewrite ?lookup_insert_eq, ?lookup_empty; reflexivity.
Qed.

End RegexFacts.

(** C8. The [order_id] entry of the extracted entities lists, for every
    match of the order-id pattern from the first to the last, the digit
    group alone: each value is a non-empty run of digits, the "ord"/"order"
    prefix is not part of it. For "order ORD-1234" the entry is ["1234"]. *)
Theorem order_id_entities_are_digit_groups (message : string) (ids : list string) :
  MessageParser._extract_entities message !! "order_id" = Some ids ->
  ids = map (fun m => Regex.group (snd m) 2)
            (Regex.scan MessageParser.order_id_pattern None message 0)
  /\ Forall (fun v => Reference.digit_run v = true) ids
  /\ MessageParser._extract_entities "order ORD-1234" !! "order_id" = Some ["1234"].
Proof.
  rewrite RegexFacts.extract_entities_order_id. unfold Regex.findall.
  intros H.
  assert (ids = map (MessageParser.entity_value "order_id")
                    (map (Regex.to_item MessageParser.order_id_pattern)
                         (Regex.scan MessageParser.order_id_pattern None message 0)))
    as Hids.
  { destruct (map _ (Regex.scan _ None message 0)); [discriminate | now inversion H]. }
  rewrite map_map in Hids.
  assert (ids = map (fun m => Regex.group (snd m) 2)
                    (Regex.scan MessageParser.order_id_pattern None message 0))
    as Hids'.
  { rewrite Hids. apply map_ext. intros m. apply RegexFacts.order_id_entity_value. }
  split; [exact Hids' |]. split.
  - rewrite Hids'. apply Forall_map.
    apply (RegexFacts.scan_order_id_digits None message 0).
  - vm_compute. reflexivity.
Qed.

Lemma order_id_entities_are_digit_groups_witness :
  ["12"; "34"] = map (fun m => Regex.group (snd m) 2)
                     (Regex.scan MessageParser.order_id_pattern None
                                 "order 12 then ord-34" 0)
  /\ Forall (fun v => Reference.digit_run v = true) ["12"; "34"].
Proof.
  destruct (order_id_entities_are_digit_groups "order 12 then ord-34" ["12"; "34"])
    as (H1 & H2 & _).
  - vm_compute. reflexivity.
  - split; [exact H1 | exact H2].
Defined.

(** ** Order ids *)

Module OrderIdFacts.
Import Text Reference OrderAgent Predicates.

Lemma hex_digit_class (n : N) : is_hex_lower (hex_digit (n mod 16)) = true.
Proof.
  assert (n mod 16 < 16)%N as Hlt by (apply N.mod_lt; discriminate).
  revert Hlt. generalize (n mod 16)%N as x. intros x Hlt.
  assert (x = 0 \/ x = 1 \/ x = 2 \/ x = 3 \/ x = 4 \/ x = 5 \/ x = 6 \/ x = 7
          \/ x = 8 \/ x = 9 \/ x = 10 \/ x = 11 \/ x = 12 \/ x = 13 \/ x = 14
          \/ x = 15)%N as H by lia.
  repeat destruct H as [H | H]; rewrite H; reflexivity.
Qed.

Lemma upper_hex (c : ascii) :
  is_hex_lower c = true -> is_id_char (upper_char c) = true.
Proof.
  destruct c as [[] [] [] [] [] [] [] []]; vm_compute; congruence.
Qed.

Lemma all_chars_app p (a b : string) :
  all_chars p (a +:+ b) = all_chars p a && all_chars p b.
Proof.
  induction a as [|x a IH]; simpl; [reflexivity |].
  now rewrite IH, andb_assoc.
Qed.

Lemma hex_length (w : nat) (n : N) : String.length (hex w n) = w.
Proof.
  revert n. induction w as [|w IH]; intros n; simpl; [reflexivity |].
  rewrite TextFacts.length_app, IH. simpl. lia.
Qed.

Lemma hex_class (w : nat) (n : N) : all_chars is_hex_lower (hex w n) = true.
Proof.
  revert n. induction w as [|w IH]; intros n; simpl; [reflexivity |].
  rewrite all_chars_app, IH. simpl. now rewrite hex_digit_class.
Qed.

Lemma substring_0_length (n : nat) (s : string) :
  n <= String.length s -> String.length (String.substring 0 n s) = n.
Proof.
  revert n. induction s as [|x s IH]; intros n H; simpl in *.
  - destruct n; [reflexivity | lia].
  - destruct n; [reflexivity |]. simpl. rewrite IH; [reflexivity | lia].
Qed.

Lemma substring_0_class p (n : nat) (s : string) :
  all_chars p s = true -> all_chars p (String.substring 0 n s) = true.
Proof.
  revert n. induction s as [|x s IH]; intros n H; simpl in *.
  - destruct n; reflexivity.
  - destruct n; [reflexivity |]. simpl.
    apply andb_true_iff in H as [-> H]. now apply IH.
Qed.

Lemma take_str_length_app (a b : string) :
  take_str (String.length a) (a +:+ b) = a.
Proof.
  unfold take_str. induction a as [|x a IH]; simpl.
  - destruct b; reflexivity.
  - now rewrite IH.
Qed.

Lemma upper_length (s : string) : String.length (upper s) = String.length s.
Proof.
  unfold upper. induction s as [|x s IH]; simpl; [reflexivity | now rewrite IH].
Qed.

Lemma upper_class (s : string) :
  all_chars is_hex_lower s = true -> all_chars is_id_char (upper s) = true.
Proof.
  unfold upper. induction s as [|x s IH]; simpl; [reflexivity |].
  intros H. apply andb_true_iff in H as [Hx H].
  now rewrite (upper_hex _ Hx), IH.
Qed.

(** The first eight characters of the rendered uuid are the first eight
    hexadecimal digits. *)
Lemma uuid_prefix (u : N) :
  take_str 8 (uuid_str u) = String.substring 0 8 (hex 32 (u mod 2 ^ 128)).
Proof.
  unfold uuid_str.
  set (h := hex 32 (u mod 2 ^ 128)).
  assert (String.length (String.substring 0 8 h) = 8) as Hlen.
  { apply substring_0_length. unfold h. rewrite hex_length. lia. }
  rewrite <- Hlen at 1. apply take_str_length_app.
Qed.

(** Whatever [uuid4] returns, the id built from it has the shape
    [ORD-] + eight upper-case letters or digits. *)
Lemma new_order_id_shape (u : N) : order_id_shape (new_order_id u) = true.
Proof.
  unfold new_order_id. rewrite uuid_prefix.
  set (h := hex 32 (u mod 2 ^ 128)).
  cbn [String.append order_id_shape].
  rewrite upper_length, substring_0_length by (unfold h; rewrite hex_length; lia).
  cbn [Nat.eqb andb].
  apply upper_class, substring_0_class. apply hex_class.
Qed.

End OrderIdFacts.

(** ** Reasoning about agent computations *)

Module Effects.
Import OrderAgent Predicates.

Section StoreEffect.
Context {DB : Type}.
(** [P d d']: the store may go from [d] to [d']. *)
Variable P : DB -> DB -> Prop.
Hypothesis P_refl : forall d, P d d.
Hypothesis P_trans : forall a b c, P a b -> P b c -> P a c.

Lemma keeps_ret {A} (a : A) : keeps P (ret a).
Proof. intros st. apply P_refl. Qed.

Lemma keeps_raise {A} (e : exn) : keeps P (raise (A:=A) e).
Proof. intros st. apply P_refl. Qed.

Lemma keeps_of_res {A} (r : Res A) : keeps P (of_res r).
Proof. intros st. apply P_refl. Qed.

Lemma keeps_get_pending sender : keeps P (get_pending sender).
Proof. intros st. apply P_refl. Qed.

Lemma keeps_put_pending sender p : keeps P (put_pending sender p).
Proof. intros st. apply P_refl. Qed.

Lemma keeps_del_pending sender : keeps P (del_pending sender).
Proof.
  intros st. unfold del_pending.
  destruct (pending_orders st !! sender); apply P_refl.
Qed.

Lemma keeps_bind {A B} (m : M A) (f : A -> M B) :
  keeps P m -> (forall a, keeps P (f a)) -> keeps P (bind m f).
Proof.
  intros Hm Hf st. unfold bind. specialize (Hm st).
  destruct (m st) as [[a | e] st1]; simpl in *.
  - exact (P_trans _ _ _ Hm (Hf a st1)).
  - exact Hm.
Qed.

Lemma keeps_try {A} (m : M A) (h : exn -> M A) :
  keeps P m -> (forall e, keeps P (h e)) -> keeps P (try_except m h).
Proof.
  intros Hm Hh st. unfold try_except. specialize (Hm st).
  destruct (m st) as [[a | e] st1]; simpl in *.
  - exact Hm.
  - exact (P_trans _ _ _ Hm (Hh e st1)).
Qed.

Lemma keeps_call {A} (op : DB -> Res A * DB) :
  (forall d, P d (snd (op d))) -> keeps P (call op).
Proof.
  intros H st. unfold call. specialize (H (db st)).
  destruct (op (db st)) as [r d]. exact H.
Qed.

End StoreEffect.

Section Confirms.
Context {DB : Type}.
(** Every confirmation a computation returns names the id [oid0]. *)
Variable oid0 : string.

Lemma confirms_ret r : names oid0 r -> confirms (DB:=DB) oid0 (ret r).
Proof. intros H st r' E. simpl in E. now inversion E; subst. Qed.

Lemma confirms_raise e : confirms (DB:=DB) oid0 (raise e).
Proof. intros st r E. discriminate. Qed.

Lemma confirms_bind {A} (m : M A) (f : A -> M Reply) :
  (forall a, confirms (DB:=DB) oid0 (f a)) -> confirms (DB:=DB) oid0 (bind m f).
Proof.
  intros Hf st r. unfold bind.
  destruct (m st) as [[a | e] st1]; simpl; [apply Hf | discriminate].
Qed.

Lemma confirms_try (m : M Reply) (h : exn -> M Reply) :
  confirms (DB:=DB) oid0 m -> (forall e, confirms (DB:=DB) oid0 (h e)) -> confirms (DB:=DB) oid0 (try_except m h).
Proof.
  intros Hm Hh st r. unfold try_except. specialize (Hm st).
  destruct (m st) as [[a | e] st1]; simpl in *; [apply Hm | apply Hh].
Qed.

End Confirms.

End Effects.

Module OrderIdPaths.
Import OrderAgent Predicates Effects.

Lemma adds_only_refl oid d : adds_only oid d d.
Proof. intros k _. reflexivity. Qed.

Lemma adds_only_trans oid a b c :
  adds_only oid a b -> adds_only oid b c -> adds_only oid a c.
Proof. intros H1 H2 k Hk. now rewrite (H2 k Hk), (H1 k Hk). Qed.

Lemma create_order_adds now utcoffset oid phone product quantity details d :
  adds_only oid d (snd (Sqlite.create_order now utcoffset oid phone product quantity details d)).
Proof.
  intros k Hk. unfold Sqlite.create_order. cbv zeta.
  destruct (Sqlite.get_customer phone d); destruct (negb _);
    cbn [snd Sqlite.create_customer Sqlite.orders]; try reflexivity;
    match goal with |- context [match ?x with Some _ => _ | None => _ end] =>
      destruct x end; cbn [snd Sqlite.orders]; try reflexivity;
    now rewrite lookup_insert_ne.
Qed.

Section Paths.
Variables (now utcoffset : Z) (isoformat : Z -> string) (uuid : N).
Let svc := Sqlite.service now utcoffset isoformat.
Let oid := new_order_id uuid.

Local Ltac step :=
  first
    [ apply keeps_bind; [apply adds_only_trans | | intros ?]
    | apply keeps_try; [apply adds_only_trans | | intros ?]
    | apply keeps_ret; apply adds_only_refl
    | apply keeps_raise; apply adds_only_refl
    | apply keeps_of_res; apply adds_only_refl
    | apply keeps_get_pending; apply adds_only_refl
    | apply keeps_put_pending; apply adds_only_refl
    | apply keeps_del_pending; apply adds_only_refl
    | apply keeps_call; intros ? ].

Lemma continue_keeps message sender :
  keeps (adds_only oid) (_continue_order_creation svc uuid message sender).
Proof.
  unfold _continue_order_creation, continue_body, record_answer.
  step; [step |]. destruct a as [od |]; [| step].
  step; [| repeat step; destruct a; repeat step].
  destruct (step od); repeat step.
  - destruct (_ !! "product"); step.
  - simpl. destruct (Sqlite.create_order _ _ _ _ _ _ _ _) eqn:E. simpl.
    change d0 with (snd (b, d0)). rewrite <- E. apply create_order_adds.
  - destruct a1; step.
Qed.

Lemma create_from_message_keeps message sender :
  keeps (adds_only oid) (_create_order_from_message svc uuid message sender).
Proof.
  unfold _create_order_from_message.
  repeat step.
  - simpl. apply adds_only_refl.
  - destruct a0; repeat step. simpl. intros k _. reflexivity.
  - destruct (_ !! "quantity"); step.
  - simpl. destruct (Sqlite.create_order _ _ _ _ _ _ _ _) eqn:E. simpl.
    change d0 with (snd (b, d0)). rewrite <- E. apply create_order_adds.
  - destruct a3; step.
Qed.

Lemma handle_creation_keeps clock message sender :
  keeps (adds_only oid) (_handle_order_creation svc clock uuid message sender).
Proof.
  unfold _handle_order_creation. step; [step |].
  destruct a.
  - apply continue_keeps.
  - destruct (_is_complete_order message).
    + apply create_from_message_keeps.
    + unfold _start_guided_order_creation. repeat step.
Qed.

Local Ltac cstep :=
  first
    [ apply confirms_bind; intros ?
    | apply confirms_try; [| intros ?]
    | apply confirms_raise
    | apply confirms_ret; exact I
    | apply confirms_ret; reflexivity ].

Lemma handle_creation_confirms clock message sender :
  confirms oid (_handle_order_creation svc clock uuid message sender).
Proof.
  unfold _handle_order_creation. cstep. destruct a.
  - unfold _continue_order_creation, continue_body. cstep.
    destruct a; [| cstep]. cstep; [| repeat cstep].
    destruct (step p0); repeat cstep. destruct a1; cstep.
  - destruct (_is_complete_order message).
    + unfold _create_order_from_message. repeat cstep. destruct a3; cstep.
    + unfold _start_guided_order_creation. repeat cstep.
Qed.

End Paths.
End OrderIdPaths.

(** C9. Both order-creation paths (the single-shot message and the last
    step of the guided wizard) are entered through the order-creation
    handler. Whatever the state, the message, the clock and the value of
    [uuid4]: an order that the handler adds to the store, and the order id
    named in a confirmation it returns, has the shape ORD- followed by
    exactly eight upper-case alphanumeric characters. *)
Theorem generated_order_ids_have_shape
    (now clock utcoffset : Z) (isoformat : Z -> string) (uuid : N)
    (message sender : string) (st : OrderAgent.AgentState Sqlite.DB) :
  let res := OrderAgent._handle_order_creation (Sqlite.service now utcoffset isoformat)
               clock uuid message sender st in
  (forall oid, Sqlite.orders (OrderAgent.db st) !! oid = None ->
               is_Some (Sqlite.orders (OrderAgent.db (snd res)) !! oid) ->
               Reference.order_id_shape oid = true)
  /\ (forall oid product customer phone address,
        fst res = Ok (OrderConfirmation oid product customer phone address) ->
        Reference.order_id_shape oid = true).
Proof.
  intros res. split.
  - intros oid Hnone [o Hsome].
    destruct (decide (oid = OrderAgent.new_order_id uuid)) as [-> | Hne].
    + apply OrderIdFacts.new_order_id_shape.
    + pose proof (OrderIdPaths.handle_creation_keeps now utcoffset isoformat uuid clock
                    message sender st oid Hne) as H.
      fold res in H. rewrite Hsome, Hnone in H. discriminate.
  - intros oid product customer phone address H.
    pose proof (OrderIdPaths.handle_creation_confirms now utcoffset isoformat uuid clock
                  message sender st _ H) as Hn.
    simpl in Hn. subst oid. apply OrderIdFacts.new_order_id_shape.
Qed.

Lemma generated_order_ids_have_shape_witness :
  Reference.order_id_shape "ORD-DEADBEEF" = true.
Proof.
  destruct (generated_order_ids_have_shape 0 0 0 Situations.no_isoformat
              (3735928559 * 2 ^ 96) Situations.nameless_order "+15550100"
              (OrderAgent.Build_AgentState ∅ Sqlite.empty_db)) as [H _].
  apply H.
  - reflexivity.
  - vm_compute. eexists. reflexivity.
Defined.

(** ** The guided wizard *)

Module WizardFacts.
Import OrderAgent Wizard.

Section AnyStore.
Context {DB : Type}.
Variable svc : DatabaseService DB.

(** With a session, the order-creation handler is the continuation. *)
Lemma handle_creation_continues clock uuid message sender st od :
  pending_orders st !! sender = Some od ->
  _handle_order_creation svc clock uuid message sender st
  = _continue_order_creation svc uuid message sender st.
Proof.
  intros H. unfold _handle_order_creation, bind, get_pending at 1. now rewrite H.
Qed.

(** One of the first three answers: the field is recorded, the step moves
    on, the store is not touched. *)
Lemma continue_records uuid message sender st od s' :
  pending_orders st !! sender = Some od ->
  next_step (step od) = Some s' ->
  _continue_order_creation svc uuid message sender st
  = (Ok (prompt_after (step od)),
     Build_AgentState
       (<[sender := {| step := s';
                       data := <[answer_key (step od) := Text.strip message]> (data od);
                       started_at := started_at od |}]> (pending_orders st))
       (db st)).
Proof.
  intros H Hn.
  unfold _continue_order_creation, continue_body, record_answer.
  unfold bind, get_pending, try_except, put_pending, ret.
  rewrite H. destruct (step od); simpl in Hn; inversion Hn; subst s'; reflexivity.
Qed.

(** The last answer: whatever the store does, the continuation returns a
    reply and the session is gone. *)
Lemma continue_final uuid message sender st od :
  pending_orders st !! sender = Some od ->
  step od = step_address ->
  exists reply d',
    _continue_order_creation svc uuid message sender st
    = (Ok reply, Build_AgentState (delete sender (pending_orders st)) d').
Proof.
  intros H Hs.
  unfold _continue_order_creation, continue_body, record_answer.
  unfold bind, get_pending, try_except, put_pending, del_pending, call, raise, ret.
  rewrite H, Hs. cbn [pending_orders db fst snd].
  destruct (_ !! "product") as [product |].
  - match goal with
    | |- context [create_order svc ?a ?b ?c ?q ?f ?g] =>
        destruct (create_order svc a b c q f g) as [[success | e] d']
    end;
      repeat first [rewrite lookup_insert_eq | progress cbn [pending_orders db fst snd]];
      rewrite delete_insert_eq.
    + destruct success; eauto.
    + eauto.
  - repeat first [rewrite lookup_insert_eq | progress cbn [pending_orders db fst snd]].
    rewrite delete_insert_eq. eauto.
Qed.

(** An exception in the [try] block of the continuation ends the session
    and is answered with the restart prompt. *)
Lemma continue_raise uuid message sender st od e :
  pending_orders st !! sender = Some od ->
  fst (continue_body svc uuid message sender od st) = Raise e ->
  fst (_continue_order_creation svc uuid message sender st) = Ok GuidedError
  /\ pending_orders (snd (_continue_order_creation svc uuid message sender st))
     !! sender = None.
Proof.
  intros H Hr.
  unfold _continue_order_creation.
  unfold bind, get_pending, try_except, del_pending, ret.
  rewrite H. cbn [fst snd].
  destruct (continue_body svc uuid message sender od st) as [[r | e'] st1];
    [discriminate |].
  destruct (pending_orders st1 !! sender) eqn:E; cbn [fst snd pending_orders].
  - rewrite E. cbn [fst snd pending_orders]. split; [reflexivity | apply lookup_delete_eq].
  - split; [reflexivity | exact E].
Qed.

(** The session after the continuation, whichever step it was at. *)
Lemma continue_advances uuid message sender st od :
  pending_orders st !! sender = Some od ->
  (exists reply, fst (_continue_order_creation svc uuid message sender st) = Ok reply)
  /\ pending_orders (snd (_continue_order_creation svc uuid message sender st))
     !! sender = advanced od message.
Proof.
  intros H. unfold advanced.
  destruct (next_step (step od)) as [s' |] eqn:Hn.
  - rewrite (continue_records _ _ _ _ _ _ H Hn). cbn [fst snd pending_orders].
    split; [eauto | apply lookup_insert_eq].
  - assert (step od = step_address) as Hs by (destruct (step od); simpl in Hn; congruence).
    destruct (continue_final uuid message sender st od H Hs) as (reply & d' & E).
    rewrite E. cbn [fst snd pending_orders]. split; [eauto | apply lookup_delete_eq].
Qed.

End AnyStore.
End WizardFacts.

(** ** Routing *)

Module RouteFacts.

(** With a session, routing an order-create message is continuing the
    session: the two [try/except] layers above the continuation never see
    an exception. *)
Lemma route_order_create {DB : Type} (svc : DatabaseService DB)
    (now : Z) (uuid : N) (message sender : string)
    (st : OrderAgent.AgentState DB) (od : OrderAgent.PendingOrder) :
  OrderAgent.pending_orders st !! sender = Some od ->
  ManagerAgent._route_to_agent svc now uuid MessageParser.ORDER_CREATE message sender st
  = OrderAgent._continue_order_creation svc uuid message sender st.
Proof.
  intros H.
  destruct (WizardFacts.continue_advances svc uuid message sender st od H)
    as [[reply Hreply] _].
  unfold ManagerAgent._route_to_agent, ManagerAgent.route_body,
    OrderAgent.handle_message, OrderAgent.handle_body, OrderAgent.try_except.
  rewrite (WizardFacts.handle_creation_continues svc now uuid message sender st od H).
  destruct (OrderAgent._continue_order_creation svc uuid message sender st)
    as [[r | e] st1]; [reflexivity | discriminate].
Qed.

End RouteFacts.

(** C1, as the code behaves. A sender was asked for the product and answers
    "Laptop", the kind of answer the prompt asks for. The classifier finds
    no intent in it, so the router, which dispatches on the intent alone
    and never looks at the sessions, hands it to the unknown-intent
    fallback: the reply is the fallback menu, not the prompt for the
    name that continuing the session gives, and the session still waits for
    the product. The session check of the order agent is reached only by
    messages classified as order-create. *)
Theorem answer_to_prompt_not_continued :
  OrderAgent.pending_orders Situations.awaiting_product !! "+15550100"
  = Some Situations.asked_for_product
  /\ MessageParser.intent (MessageParser.parse_message "Laptop") = MessageParser.UNKNOWN
  /\ fst (ManagerAgent._route_to_agent Situations.store 0 0
            (MessageParser.intent (MessageParser.parse_message "Laptop"))
            "Laptop" "+15550100" Situations.awaiting_product)
     = Ok UnknownMenu
  /\ OrderAgent.pending_orders
       (snd (ManagerAgent._route_to_agent Situations.store 0 0
               (MessageParser.intent (MessageParser.parse_message "Laptop"))
               "Laptop" "+15550100" Situations.awaiting_product))
     !! "+15550100" = Some Situations.asked_for_product
  /\ fst (OrderAgent._continue_order_creation Situations.store 0
            "Laptop" "+15550100" Situations.awaiting_product)
     = Ok GuidedNamePrompt
  /\ ~ Claims.session_precedes_intent Situations.store.
Proof.
  assert (fst (ManagerAgent._route_to_agent Situations.store 0 0
            (MessageParser.intent (MessageParser.parse_message "Laptop"))
            "Laptop" "+15550100" Situations.awaiting_product)
          = Ok UnknownMenu) as Hroute by (vm_compute; reflexivity).
  assert (fst (OrderAgent._continue_order_creation Situations.store 0
            "Laptop" "+15550100" Situations.awaiting_product)
          = Ok GuidedNamePrompt) as Hcont by (vm_compute; reflexivity).
  assert (OrderAgent.pending_orders Situations.awaiting_product !! "+15550100"
          = Some Situations.asked_for_product) as Hsession
    by (vm_compute; reflexivity).
  split; [exact Hsession |].
  split; [vm_compute; reflexivity |].
  split; [exact Hroute |].
  split; [vm_compute; reflexivity |].
  split; [exact Hcont |].
  intros Hclaim.
  pose proof (Hclaim 0%Z 0%N
                (MessageParser.intent (MessageParser.parse_message "Laptop"))
                "Laptop" "+15550100" _ _ Hsession) as Heq.
  apply (f_equal fst) in Heq.
  rewrite Hroute, Hcont in Heq. discriminate.
Qed.

(** X26. On the order-create path the session comes first. A message
    routed with the order-create intent from a sender with a session is
    handled as the answer to the session's current step, before the
    complete-order shortcut is considered: the router's result is the
    continuation's, it is a reply, and the session is the same session one
    step further (gone after the address), never a new one at the product
    step. *)
Theorem order_create_continues_session {DB : Type} (svc : DatabaseService DB)
    (now : Z) (uuid : N) (message sender : string)
    (st : OrderAgent.AgentState DB) (od : OrderAgent.PendingOrder) :
  OrderAgent.pending_orders st !! sender = Some od ->
  ManagerAgent._route_to_agent svc now uuid MessageParser.ORDER_CREATE message sender st
  = OrderAgent._continue_order_creation svc uuid message sender st
  /\ (exists reply,
        fst (ManagerAgent._route_to_agent svc now uuid MessageParser.ORDER_CREATE
               message sender st) = Ok reply)
  /\ OrderAgent.pending_orders
       (snd (ManagerAgent._route_to_agent svc now uuid MessageParser.ORDER_CREATE
               message sender st)) !! sender
     = Wizard.advanced od message.
Proof.
  intros H.
  destruct (WizardFacts.continue_advances svc uuid message sender st od H)
    as [[reply Hreply] Hadv].
  rewrite (RouteFacts.route_order_create svc now uuid message sender st od H).
  eauto.
Qed.

Lemma order_create_continues_session_witness :
  OrderAgent.pending_orders
    (snd (ManagerAgent._route_to_agent Situations.store 0 0 MessageParser.ORDER_CREATE
            "name: x, phone: 1, address: y" "+15550100" Situations.awaiting_product))
    !! "+15550100"
  = Wizard.advanced Situations.asked_for_product "name: x, phone: 1, address: y".
Proof.
  apply (order_create_continues_session Situations.store 0 0
           "name: x, phone: 1, address: y" "+15550100"
           Situations.awaiting_product Situations.asked_for_product).
  vm_compute. reflexivity.
Defined.

(** C3. Routing always answers with a reply and never with an exception:
    an exception that leaves a handler is turned into the generic apology
    at the router; an exception inside the order agent is turned into the
    order agent's apology before it reaches the router; and an exception
    raised while a sender's wizard session is being continued is answered
    with the restart prompt and leaves no session for that sender. *)
Theorem routing_contains_exceptions {DB : Type} (svc : DatabaseService DB)
    (now : Z) (uuid : N) (intent : MessageParser.Intent) (message sender : string)
    (st : OrderAgent.AgentState DB) :
  (exists reply,
     fst (ManagerAgent._route_to_agent svc now uuid intent message sender st) = Ok reply)
  /\ (forall e,
        fst (ManagerAgent.route_body svc now uuid intent message sender st) = Raise e ->
        fst (ManagerAgent._route_to_agent svc now uuid intent message sender st)
        = Ok RouterError)
  /\ (forall e,
        Reference.order_intent intent = true ->
        fst (OrderAgent.handle_body svc now uuid intent message sender st) = Raise e ->
        fst (ManagerAgent._route_to_agent svc now uuid intent message sender st)
        = Ok OrderAgentError)
  /\ (forall od e,
        OrderAgent.pending_orders st !! sender = Some od ->
        fst (OrderAgent.continue_body svc uuid message sender od st) = Raise e ->
        fst (ManagerAgent._route_to_agent svc now uuid MessageParser.ORDER_CREATE
               message sender st) = Ok GuidedError
        /\ OrderAgent.pending_orders
             (snd (ManagerAgent._route_to_agent svc now uuid MessageParser.ORDER_CREATE
                     message sender st)) !! sender = None).
Proof.
  split; [| split; [| split]].
  - unfold ManagerAgent._route_to_agent, OrderAgent.try_except.
    destruct (ManagerAgent.route_body svc now uuid intent message sender st)
      as [[r | e] st1]; simpl; eauto.
  - intros e. unfold ManagerAgent._route_to_agent, OrderAgent.try_except.
    destruct (ManagerAgent.route_body svc now uuid intent message sender st)
      as [[r | e'] st1]; simpl; [discriminate | reflexivity].
  - intros e Hi Hr.
    assert (ManagerAgent.route_body svc now uuid intent message sender st
            = OrderAgent.handle_message svc now uuid intent message sender st) as E
      by (destruct intent; try discriminate Hi; reflexivity).
    unfold ManagerAgent._route_to_agent, OrderAgent.try_except at 1. rewrite E.
    unfold OrderAgent.handle_message, OrderAgent.try_except.
    destruct (OrderAgent.handle_body svc now uuid intent message sender st)
      as [[r | e'] st1]; [discriminate | reflexivity].
  - intros od e H Hr.
    rewrite (RouteFacts.route_order_create svc now uuid message sender st od H).
    exact (WizardFacts.continue_raise svc uuid message sender st od e H Hr).
Qed.

Lemma routing_contains_exceptions_witness :
  fst (ManagerAgent._route_to_agent Wizard.unreachable_store 0 0
         MessageParser.GREETING "hello" "+15550100"
         (OrderAgent.Build_AgentState ∅ tt)) = Ok RouterError
  /\ fst (ManagerAgent._route_to_agent Wizard.failing_store 0 0
            MessageParser.ORDER_CREATE "1 Main St" "+15550100"
            (Situations.awaiting_address tt)) = Ok GuidedError
  /\ OrderAgent.pending_orders
       (snd (ManagerAgent._route_to_agent Wizard.failing_store 0 0
               MessageParser.ORDER_CREATE "1 Main St" "+15550100"
               (Situations.awaiting_address tt))) !! "+15550100" = None.
Proof.
  split.
  - apply (routing_contains_exceptions Wizard.unreachable_store 0 0
             MessageParser.GREETING "hello" "+15550100"
             (OrderAgent.Build_AgentState ∅ tt))
      with (e := ServiceError "get_customer").
    reflexivity.
  - apply (routing_contains_exceptions Wizard.failing_store 0 0
             MessageParser.ORDER_CREATE "1 Main St" "+15550100"
             (Situations.awaiting_address tt))
      with (od := Situations.asked_for_address) (e := ServiceError "create_order").
    + vm_compute. reflexivity.
    + vm_compute. reflexivity.
Defined.

(** A status request on a store whose [get_customer_orders] raises is
    answered with the order agent's own apology. *)
Example order_agent_contains_exceptions :
  fst (ManagerAgent._route_to_agent Wizard.offline_store 0 0
         MessageParser.ORDER_STATUS "status" "+15550100"
         (OrderAgent.Build_AgentState ∅ tt)) = Ok OrderAgentError.
Proof. vm_compute. reflexivity. Qed.

(** ** The wizard on the SQLite store *)

Module CommitFacts.
Import OrderAgent Predicates.

(** [create_order] on a store in which the id is free. *)
Lemma create_order_fresh now utcoffset oid phone product quantity details d :
  Sqlite.fits_int64 quantity = true ->
  Sqlite.orders d !! oid = None ->
  exists d',
    Sqlite.create_order now utcoffset oid phone product quantity details d = (true, d')
    /\ Sqlite.orders d' !! oid
       = Some {| order_id := oid; customer_phone := phone; product := product;
                 quantity := quantity; status := "pending"; details := details;
                 created_at := Sqlite.current_timestamp now utcoffset;
                 updated_at := Sqlite.current_timestamp now utcoffset |}.
Proof.
  intros Hq H. unfold Sqlite.create_order. rewrite Hq. cbn [negb].
  destruct (Sqlite.get_customer phone d); cbn [snd Sqlite.create_customer Sqlite.orders];
    rewrite H; eexists; (split; [reflexivity |]);
    cbn [Sqlite.orders]; apply lookup_insert_eq.
Qed.

(** The last answer on the SQLite store, when the order id is free: the
    order is stored with the collected fields and the session is gone. *)
Lemma sqlite_commit now utcoffset isoformat uuid message sender st od product :
  pending_orders st !! sender = Some od ->
  step od = step_address ->
  <["address" := Text.strip message]> (data od) !! "product" = Some product ->
  Sqlite.orders (db st) !! new_order_id uuid = None ->
  exists d',
    _continue_order_creation (Sqlite.service now utcoffset isoformat) uuid message sender st
    = (Ok (_get_order_confirmation (new_order_id uuid)
             (<["address" := Text.strip message]> (data od))),
       Build_AgentState (delete sender (pending_orders st)) d')
    /\ Sqlite.orders d' !! new_order_id uuid
       = Some {| order_id := new_order_id uuid; customer_phone := sender;
                 product := product; quantity := 1; status := "pending";
                 details := guided_details
                              (<["address" := Text.strip message]> (data od));
                 created_at := Sqlite.current_timestamp now utcoffset;
                 updated_at := Sqlite.current_timestamp now utcoffset |}.
Proof.
  intros H Hs Hp Hfresh.
  destruct (create_order_fresh now utcoffset (new_order_id uuid) sender product 1
              (guided_details (<["address" := Text.strip message]> (data od)))
              (db st) eq_refl Hfresh) as (d' & Hc & Ho).
  exists d'. split; [| exact Ho].
  unfold _continue_order_creation, continue_body, record_answer.
  unfold bind, get_pending, try_except, put_pending, del_pending, call, raise, ret.
  rewrite H, Hs. cbn [pending_orders db fst snd]. rewrite Hp.
  cbn [Sqlite.service create_order]. fold (guided_details
    (<["address" := Text.strip message]> (data od))).
  cbn [pending_orders db]. rewrite Hc.
  repeat first [rewrite lookup_insert_eq | progress cbn [pending_orders db fst snd]].
  now rewrite delete_insert_eq.
Qed.

End CommitFacts.

(** C2, counterexample. The store already holds an order of another
    customer under the id the last step generates. The four answers are
    delivered all the same; the last one is answered with the failure
    notice, the store holds what it held, no order with the four fields is
    in it, and the session is gone. *)
Lemma wizard_order_lost_on_taken_id :
  fst Claims.run_on_taken_id = Ok OrderCreateFailed
  /\ Sqlite.orders (OrderAgent.db (snd Claims.run_on_taken_id))
     = Sqlite.orders Situations.clash
  /\ OrderAgent.pending_orders (snd Claims.run_on_taken_id) !! "+15550100" = None
  /\ ~ Claims.holds_wizard_order (OrderAgent.db (snd Claims.run_on_taken_id))
  /\ ~ Claims.wizard_always_commits.
Proof.
  set (res := Claims.run_on_taken_id).
  assert (fst res = Ok OrderCreateFailed) as Hreply by (vm_compute; reflexivity).
  assert (Sqlite.orders (OrderAgent.db (snd res)) = Sqlite.orders Situations.clash)
    as Hsame by (vm_compute; reflexivity).
  assert (~ Claims.holds_wizard_order (OrderAgent.db (snd res))) as Hnone.
  { intros (o & Hin & Hp & _). rewrite Hsame in Hin.
    unfold Situations.clash in Hin. cbn [Sqlite.orders] in Hin.
    rewrite map_to_list_singleton in Hin. cbn [map snd In] in Hin.
    destruct Hin as [<- | []]. cbn [details Situations.clashing_order] in Hp.
    rewrite lookup_empty in Hp. discriminate. }
  split; [exact Hreply |]. split; [exact Hsame |].
  split; [vm_compute; reflexivity |]. split; [exact Hnone |].
  intros Hclaim. apply Hnone.
  exact (proj1 (Hclaim 0%Z Situations.no_isoformat 0%Z 0%Z 0%Z 0%Z 0%Z 0%N 0%N 0%N 7%N
                  "I want to order" "+15550100"
                  (OrderAgent.Build_AgentState ∅ Situations.clash))).
Qed.

(** C2, amended. Start a guided session for a sender and deliver the answers
    "Laptop", "Jane Doe", "555-0123", "1 Main St" to the order-creation
    handler: when the generated order id is not yet taken in the store, the
    store then holds an order under that id whose detail bag has product,
    customer_name, customer_phone and address with these values, the reply
    is the confirmation, and the sender has no session. Whether or not the
    id is free, the sender has no session afterwards. *)
Theorem guided_wizard_commits
    (utcoffset : Z) (isoformat : Z -> string) (t0 t1 t2 t3 t4 : Z) (u1 u2 u3 u4 : N)
    (first_message sender : string) (st0 : OrderAgent.AgentState Sqlite.DB) :
  let handle := fun t u answer st =>
    OrderAgent._handle_order_creation (Sqlite.service t utcoffset isoformat) t u answer sender st in
  let st1 := snd (OrderAgent._start_guided_order_creation t0 first_message sender st0) in
  let st2 := snd (handle t1 u1 "Laptop" st1) in
  let st3 := snd (handle t2 u2 "Jane Doe" st2) in
  let st4 := snd (handle t3 u3 "555-0123" st3) in
  let res := handle t4 u4 "1 Main St" st4 in
  OrderAgent.pending_orders (snd res) !! sender = None
  /\ (Sqlite.orders (OrderAgent.db st0) !! OrderAgent.new_order_id u4 = None ->
      fst res = Ok (OrderConfirmation (OrderAgent.new_order_id u4)
                      "Laptop" "Jane Doe" "555-0123" "1 Main St")
      /\ exists o,
           Sqlite.orders (OrderAgent.db (snd res)) !! OrderAgent.new_order_id u4 = Some o
           /\ details o !! "product" = Some (JStr "Laptop")
           /\ details o !! "customer_name" = Some (JStr "Jane Doe")
           /\ details o !! "customer_phone" = Some (JStr "555-0123")
           /\ details o !! "address" = Some (JStr "1 Main St")).
Proof.
  intros handle st1 st2 st3 st4 res.
  set (p0 := {| OrderAgent.step := OrderAgent.step_product;
                OrderAgent.data := ∅; OrderAgent.started_at := t0 |}).
  assert (st1 = OrderAgent.Build_AgentState
                  (<[sender := p0]> (OrderAgent.pending_orders st0))
                  (OrderAgent.db st0)) as E1 by reflexivity.
  assert (OrderAgent.pending_orders st1 !! sender = Some p0) as L1
    by (rewrite E1; apply lookup_insert_eq).
  (* the product *)
  pose proof (WizardFacts.continue_records (Sqlite.service t1 utcoffset isoformat) u1
                "Laptop" sender st1 p0 OrderAgent.step_name L1 eq_refl) as C1.
  assert (st2 = snd (OrderAgent._continue_order_creation
                       (Sqlite.service t1 utcoffset isoformat) u1 "Laptop" sender st1)) as E2.
  { unfold st2, handle.
    now rewrite (WizardFacts.handle_creation_continues _ t1 u1 "Laptop" sender st1 p0 L1). }
  rewrite C1 in E2. cbn [snd] in E2.
  match type of E2 with _ = OrderAgent.Build_AgentState (<[_ := ?p]> _) _ => set (p1 := p) in * end.
  assert (OrderAgent.pending_orders st2 !! sender = Some p1) as L2
    by (rewrite E2; apply lookup_insert_eq).
  (* the name *)
  pose proof (WizardFacts.continue_records (Sqlite.service t2 utcoffset isoformat) u2
                "Jane Doe" sender st2 p1 OrderAgent.step_phone L2 eq_refl) as C2.
  assert (st3 = snd (OrderAgent._continue_order_creation
                       (Sqlite.service t2 utcoffset isoformat) u2 "Jane Doe" sender st2)) as E3.
  { unfold st3, handle.
    now rewrite (WizardFacts.handle_creation_continues _ t2 u2 "Jane Doe" sender st2 p1 L2). }
  rewrite C2 in E3. cbn [snd] in E3.
  match type of E3 with _ = OrderAgent.Build_AgentState (<[_ := ?p]> _) _ => set (p2 := p) in * end.
  assert (OrderAgent.pending_orders st3 !! sender = Some p2) as L3
    by (rewrite E3; apply lookup_insert_eq).
  (* the phone number *)
  pose proof (WizardFacts.continue_records (Sqlite.service t3 utcoffset isoformat) u3
                "555-0123" sender st3 p2 OrderAgent.step_address L3 eq_refl) as C3.
  assert (st4 = snd (OrderAgent._continue_order_creation
                       (Sqlite.service t3 utcoffset isoformat) u3 "555-0123" sender st3)) as E4.
  { unfold st4, handle.
    now rewrite (WizardFacts.handle_creation_continues _ t3 u3 "555-0123" sender st3 p2 L3). }
  rewrite C3 in E4. cbn [snd] in E4.
  match type of E4 with _ = OrderAgent.Build_AgentState (<[_ := ?p]> _) _ => set (p3 := p) in * end.
  assert (OrderAgent.pending_orders st4 !! sender = Some p3) as L4
    by (rewrite E4; apply lookup_insert_eq).
  assert (OrderAgent.db st4 = OrderAgent.db st0) as D4.
  { rewrite E4. cbn [OrderAgent.db]. rewrite E3. cbn [OrderAgent.db].
    rewrite E2. cbn [OrderAgent.db]. now rewrite E1. }
  (* the address *)
  assert (res = OrderAgent._continue_order_creation
                  (Sqlite.service t4 utcoffset isoformat) u4 "1 Main St" sender st4) as E5.
  { unfold res, handle.
    now rewrite (WizardFacts.handle_creation_continues _ t4 u4 "1 Main St" sender st4 p3 L4). }
  split.
  - destruct (WizardFacts.continue_final (Sqlite.service t4 utcoffset isoformat) u4
                "1 Main St" sender st4 p3 L4 eq_refl) as (reply & d' & E).
    rewrite E5, E. cbn [snd OrderAgent.pending_orders]. apply lookup_delete_eq.
  - intros Hfresh. rewrite <- D4 in Hfresh.
    destruct (CommitFacts.sqlite_commit t4 utcoffset isoformat u4 "1 Main St" sender st4 p3
                "Laptop" L4 eq_refl) as (d' & E & Ho);
      [vm_compute; reflexivity | exact Hfresh |].
    rewrite E5, E. cbn [fst snd OrderAgent.db]. split.
    + unfold OrderAgent._get_order_confirmation.
      generalize (OrderAgent.new_order_id u4) as oid. intros oid.
      do 2 f_equal; vm_compute; reflexivity.
    + eexists. split; [exact Ho |]. cbn [details].
      repeat split; vm_compute; reflexivity.
Qed.

Lemma guided_wizard_commits_witness :
  fst (OrderAgent._handle_order_creation Situations.store 0 7 "1 Main St" "+15550100"
        (snd (OrderAgent._handle_order_creation Situations.store 0 0 "555-0123" "+15550100"
        (snd (OrderAgent._handle_order_creation Situations.store 0 0 "Jane Doe" "+15550100"
        (snd (OrderAgent._handle_order_creation Situations.store 0 0 "Laptop" "+15550100"
        (snd (OrderAgent._start_guided_order_creation 0 "I want to order" "+15550100"
                (OrderAgent.Build_AgentState ∅ Sqlite.empty_db))))))))))
  = Ok (OrderConfirmation (OrderAgent.new_order_id 7)
          "Laptop" "Jane Doe" "555-0123" "1 Main St").
Proof.
  apply (guided_wizard_commits 0 Situations.no_isoformat 0 0 0 0 0 0 0 0 7
           "I want to order" "+15550100"
           (OrderAgent.Build_AgentState ∅ Sqlite.empty_db)).
  reflexivity.
Defined.

(** ** Cancellation *)

Module CancelFacts.

Lemma update_existing now utcoffset oid status details d o :
  Sqlite.get_order oid d = Some o ->
  fst (Sqlite.update_order_status now utcoffset oid status details d) = true.
Proof. intros H. unfold Sqlite.update_order_status. now rewrite H. Qed.

End CancelFacts.

(** C6, as the code behaves. An order is placed in a process whose local
    time is eight hours behind UTC; SQLite stamps it with the UTC time.
    Twenty-five hours later the same process is asked to cancel it.
    [cancel_order] subtracts the stored UTC stamp from the naive local
    reading of [datetime.now()], finds seventeen hours, and cancels the
    order, although more than 24 hours have passed since it was created. *)
Theorem day_old_order_still_cancelled :
  created_at <$> Sqlite.get_order "ORD-7" Situations.placed_behind_utc
  = Some (8 * Situations.hour)%Z
  /\ (Sqlite.day < 25 * Situations.hour - 0)%Z
  /\ fst (Sqlite.cancel_order (25 * Situations.hour) Situations.behind_utc
            Situations.no_isoformat "ORD-7" None Situations.placed_behind_utc)
     = (true, "Order cancelled successfully")
  /\ status <$> Sqlite.get_order "ORD-7"
                  (snd (Sqlite.cancel_order (25 * Situations.hour)
                          Situations.behind_utc Situations.no_isoformat "ORD-7" None
                          Situations.placed_behind_utc))
     = Some "cancelled".
Proof. repeat split; vm_compute; reflexivity. Qed.

(** X27. [cancel_order] fails with a message that names the cause when the
    order does not exist, when its status is delivered or cancelled, and
    when the naive local reading of [datetime.now()] is 24 hours or more
    past the stored creation stamp; and whenever it fails, the store, hence
    the order's status and every other field of the record, is what it
    was. The stored stamp is a UTC reading, so the third cause is the
    order's age only in a process whose local time is UTC. *)
Theorem cancel_order_failures (now utcoffset : Z) (isoformat : Z -> string)
    (order_id : string) (reason : option string) (d : Sqlite.DB) :
  let res := Sqlite.cancel_order now utcoffset isoformat order_id reason d in
  (Sqlite.orders d !! order_id = None ->
   res = ((false, "Order not found"), d))
  /\ (forall o, Sqlite.orders d !! order_id = Some o ->
        status o = "delivered" \/ status o = "cancelled" ->
        res = ((false, "Cannot cancel order with status: " +:+ status o), d))
  /\ (forall o, Sqlite.orders d !! order_id = Some o ->
        status o <> "delivered" -> status o <> "cancelled" ->
        (Sqlite.day <= now - created_at o)%Z ->
        res = ((false, "Order cannot be cancelled after 24 hours"), d))
  /\ (fst (fst res) = false -> snd res = d).
Proof.
  intros res. subst res. unfold Sqlite.cancel_order, Sqlite.get_order.
  split; [| split; [| split]].
  - intros H. now rewrite H.
  - intros o H Hs. rewrite H.
    destruct Hs as [Hs | Hs]; rewrite Hs; reflexivity.
  - intros o H Hd Hc Hlate. rewrite H.
    apply String.eqb_neq in Hd, Hc. rewrite Hd, Hc. cbn [orb].
    destruct (Z.leb_spec 1 ((now - created_at o) / Sqlite.day)) as [_ | Hlt];
      [reflexivity |].
    exfalso.
    assert (now - created_at o < Sqlite.day)%Z; [| lia].
    unfold Sqlite.day in *.
    pose proof (Z.div_lt_upper_bound (now - created_at o) 86400000000 1).
    pose proof (Z.div_le_lower_bound (now - created_at o) 86400000000 1).
    lia.
  - destruct (Sqlite.orders d !! order_id) as [o |] eqn:H; [| reflexivity].
    destruct (_ || _); [reflexivity |].
    destruct (1 <=? _)%Z; [reflexivity |].
    pose proof (CancelFacts.update_existing now utcoffset order_id "cancelled"
      (Some (<["cancelled_at" := JStr (isoformat now)]>
             (<["cancellation_reason" := JStr (Sqlite.reason_or_default reason)]>
              (details o)))) d o H) as Hu.
    destruct (Sqlite.update_order_status _ _ _ _ _ _) as [success d'].
    cbn [fst snd] in *. rewrite Hu. discriminate.
Qed.

Lemma cancel_order_failures_witness :
  Sqlite.cancel_order 86400000001 0 Situations.no_isoformat "ORD-1" None
    Situations.one_order
  = ((false, "Order cannot be cancelled after 24 hours"), Situations.one_order)
  /\ Sqlite.cancel_order 0 0 Situations.no_isoformat "ORD-2" None Situations.one_order
     = ((false, "Order not found"), Situations.one_order).
Proof.
  split.
  - apply (cancel_order_failures 86400000001 0 Situations.no_isoformat "ORD-1" None
             Situations.one_order) with (o := Situations.old_order).
    + reflexivity.
    + discriminate.
    + discriminate.
    + vm_compute. discriminate.
  - apply (cancel_order_failures 0 0 Situations.no_isoformat "ORD-2" None
             Situations.one_order).
    reflexivity.
Defined.

(** ** The single-shot order *)

Module SingleShotFacts.
Import MessageParser.

(** The loop of [extract_order_details] never removes a key. *)
Lemma line_keeps_keys d line d' key :
  order_details_line d line = Ok d' -> is_Some (d !! key) -> is_Some (d' !! key).
Proof.
  unfold order_details_line. intros H Hk.
  assert (forall k v, is_Some (<[k := v]> d !! key)) as Hins.
  { intros k v. destruct (decide (k = key)) as [-> | Hne].
    - rewrite lookup_insert_eq. eauto.
    - now rewrite lookup_insert_ne. }
  repeat match type of H with
         | (if ?b then _ else _) = _ => destruct b
         | match ?x with _ => _ end = _ => destruct x
         end;
    inversion H; subst; auto.
Qed.

Lemma loop_keeps_keys lines d d' key :
  order_details_loop d lines = Ok d' -> is_Some (d !! key) -> is_Some (d' !! key).
Proof.
  revert d. induction lines as [|line lines IH]; intros d; simpl.
  - intros H. now inversion H.
  - destruct (order_details_line d line) as [d1 |] eqn:E; [| discriminate].
    intros H Hk. apply (IH d1 H). exact (line_keeps_keys _ _ _ _ E Hk).
Qed.

(** The extracted record always has the key [customer_name], so the
    default of [.get('customer_name', 'Unknown')] is never taken. *)
Lemma customer_name_always_present message d :
  extract_order_details message = Ok d -> is_Some (d !! "customer_name").
Proof.
  unfold extract_order_details.
  destruct (order_details_loop _ _) as [d1 |] eqn:E; [| discriminate].
  destruct (d1 !! "notes"); [| discriminate].
  intros H. inversion H; subst. rewrite lookup_insert_ne by discriminate.
  apply (loop_keeps_keys _ _ _ _ E). vm_compute. eauto.
Qed.

(** No line makes the loop raise: a labelled line has a colon, so
    [split(':')[1]] exists, and the key [notes] is always there. *)
Lemma line_total d line :
  is_Some (d !! "notes") -> exists d', order_details_line d line = Ok d'.
Proof.
  intros [notes Hn]. unfold order_details_line.
  assert (forall label k,
            is_Some (Text.after_first ":" label) ->
            Text.contains label (Text.lower (Text.strip line)) = true ->
            exists d', match second_field line with
                       | Ok v => Ok (<[k := v]> d)
                       | Raise e => Raise e
                       end = Ok d') as Hlab.
  { intros label k Hl Hc.
    destruct (second_field_between line (label_has_colon label line Hl Hc))
      as (seg & _ & Hs).
    rewrite Hs. eauto. }
  destruct (Text.contains "name:" _) eqn:E1;
    [apply (Hlab "name:"); [vm_compute; eauto | exact E1] |].
  destruct (Text.contains "phone:" _) eqn:E2;
    [apply (Hlab "phone:"); [vm_compute; eauto | exact E2] |].
  destruct (Text.contains "address:" _) eqn:E3;
    [apply (Hlab "address:"); [vm_compute; eauto | exact E3] |].
  rewrite Hn.
  repeat match goal with
         | |- context [if ?b then _ else _] => destruct b
         | |- context [match ?x with Some _ => _ | None => _ end] => destruct x
         end; eauto.
Qed.

Lemma loop_total lines d :
  is_Some (d !! "notes") -> exists d', order_details_loop d lines = Ok d'.
Proof.
  revert d. induction lines as [|line lines IH]; intros d Hn; simpl; [eauto |].
  destruct (line_total d line Hn) as [d1 E]. rewrite E.
  apply IH. exact (line_keeps_keys _ _ _ _ E Hn).
Qed.

(** [extract_order_details] returns a record for every message. *)
Lemma extract_order_details_total message :
  exists d, extract_order_details message = Ok d.
Proof.
  unfold extract_order_details.
  assert (is_Some (initial_order_details !! "notes")) as H0 by (vm_compute; eauto).
  destruct (loop_total (Text.split_chr "010" (Text.strip message)) _ H0) as [d1 E].
  rewrite E.
  destruct (loop_keeps_keys _ _ _ "notes" E H0) as [notes Hn]. rewrite Hn. eauto.
Qed.

End SingleShotFacts.

(** C7, as the code behaves. The message is classified as order-create and
    names a product, a phone number and an address, so it is taken as a
    complete order; it gives no name and the sender has no customer record.
    The record that is created carries the empty name, not "Unknown". *)
Theorem nameless_order_creates_empty_name :
  MessageParser.intent (MessageParser.parse_message Situations.nameless_order)
  = MessageParser.ORDER_CREATE
  /\ OrderAgent._is_complete_order Situations.nameless_order = true
  /\ Reference.field_of
       (MessageParser.extract_order_details Situations.nameless_order)
       "customer_name" = Some EmptyString
  /\ Sqlite.customers Sqlite.empty_db !! "+15550100" = None
  /\ name <$> (Sqlite.customers
                 (OrderAgent.db
                    (snd (ManagerAgent._route_to_agent Situations.store 0 0
                            (MessageParser.intent
                               (MessageParser.parse_message Situations.nameless_order))
                            Situations.nameless_order "+15550100"
                            (OrderAgent.Build_AgentState ∅ Sqlite.empty_db))))
               !! "+15550100")
     = Some (Some EmptyString).
Proof. repeat split; vm_compute; reflexivity. Qed.


(** * Further properties of the store *)

Module StoreFacts.

Lemma insert_desc_In (o x : Order) (l : list Order) :
  In x (Sqlite.insert_desc o l) <-> x = o \/ In x l.
Proof.
  induction l as [|y l IH]; simpl.
  - intuition.
  - destruct (created_at y <? created_at o)%Z; simpl; [intuition |].
    rewrite IH. intuition.
Qed.

Lemma sort_desc_In (x : Order) (l : list Order) :
  In x (fold_right Sqlite.insert_desc [] l) <-> In x l.
Proof.
  induction l as [|y l IH]; simpl; [reflexivity |].
  rewrite insert_desc_In, IH. intuition.
Qed.

Lemma insert_desc_sorted (o : Order) (l : list Order) :
  StronglySorted (fun a b => (created_at b <= created_at a)%Z) l ->
  StronglySorted (fun a b => (created_at b <= created_at a)%Z)
                 (Sqlite.insert_desc o l).
Proof.
  induction 1 as [|y l Hs IH Hall]; simpl.
  - constructor; constructor.
  - destruct (Z.ltb_spec (created_at y) (created_at o)) as [Hlt | Hge].
    + constructor; [constructor; assumption |].
      constructor; [lia |].
      rewrite List.Forall_forall in *. intros z Hz. specialize (Hall z Hz). lia.
    + constructor; [exact IH |].
      rewrite List.Forall_forall in *. intros z Hz.
      apply insert_desc_In in Hz as [-> | Hz]; [exact Hge | auto].
Qed.

Lemma sort_desc_sorted (l : list Order) :
  StronglySorted (fun a b => (created_at b <= created_at a)%Z)
                 (fold_right Sqlite.insert_desc [] l).
Proof.
  induction l as [|y l IH]; simpl; [constructor |].
  now apply insert_desc_sorted.
Qed.

End StoreFacts.

(** X1. [create_order] with an id that is free. When the quantity fits an
    SQLite INTEGER (the signed 64-bit range) it answers [True], and the
    order can then be read back under that id with the given fields, status
    [pending] and SQLite's [CURRENT_TIMESTAMP] (UTC, whole seconds) as
    creation and update time. When the quantity does not fit, the [INSERT]
    raises, the answer is [False] and no order is stored. Either way no
    other order is affected. *)
Theorem create_order_then_get_order (now utcoffset : Z) (oid phone item : string) (qty : Z)
    (bag : gmap string json) (d : Sqlite.DB) :
  Sqlite.get_order oid d = None ->
  let r := Sqlite.create_order now utcoffset oid phone item qty bag d in
  (forall k, k <> oid -> Sqlite.get_order k (snd r) = Sqlite.get_order k d)
  /\ ((- 2 ^ 63 <= qty < 2 ^ 63)%Z ->
      fst r = true
      /\ Sqlite.get_order oid (snd r)
         = Some {| order_id := oid; customer_phone := phone; product := item;
                   quantity := qty; status := "pending"; details := bag;
                   created_at := Sqlite.current_timestamp now utcoffset;
                   updated_at := Sqlite.current_timestamp now utcoffset |})
  /\ (~ (- 2 ^ 63 <= qty < 2 ^ 63)%Z ->
      fst r = false /\ Sqlite.get_order oid (snd r) = None).
Proof.
  unfold Sqlite.get_order, Sqlite.create_order. intros H. cbv zeta.
  assert (Sqlite.fits_int64 qty = true <-> (- 2 ^ 63 <= qty < 2 ^ 63)%Z) as Hfits.
  { unfold Sqlite.fits_int64. rewrite andb_true_iff, Z.leb_le, Z.ltb_lt. tauto. }
  destruct (Sqlite.fits_int64 qty);
    destruct (Sqlite.get_customer phone d);
    cbn [negb fst snd Sqlite.create_customer Sqlite.orders]; rewrite ?H;
    cbn [fst snd Sqlite.orders].
  all: split; [intros k Hk; rewrite ?lookup_insert_ne by congruence; reflexivity |].
  all: split; [intros Hq | intros Hq].
  all: try (exfalso; apply Hq; apply Hfits; reflexivity).
  all: try (apply Hfits in Hq; discriminate).
  all: split; [reflexivity |]; first [apply lookup_insert_eq | reflexivity].
Qed.

Lemma create_order_then_get_order_witness :
  Sqlite.get_order "ORD-2"
    (snd (Sqlite.create_order 5000123 0 "ORD-2" "+15550100" "Mouse" 2 ∅
            Situations.one_order))
  = Some {| order_id := "ORD-2"; customer_phone := "+15550100"; product := "Mouse";
            quantity := 2; status := "pending"; details := ∅;
            created_at := 5000000; updated_at := 5000000 |}.
Proof.
  destruct (create_order_then_get_order 5000123 0 "ORD-2" "+15550100" "Mouse" 2 ∅
              Situations.one_order eq_refl) as (_ & Hfits & _).
  apply Hfits. lia.
Defined.

(** X2. [create_order] with an id that is already taken answers [False]
    and leaves every stored order as it was: the existing order is not
    overwritten. *)
Theorem create_order_taken_id (now utcoffset : Z) (oid phone item : string) (qty : Z)
    (bag : gmap string json) (d : Sqlite.DB) (o : Order) :
  Sqlite.get_order oid d = Some o ->
  let r := Sqlite.create_order now utcoffset oid phone item qty bag d in
  fst r = false /\ Sqlite.orders (snd r) = Sqlite.orders d.
Proof.
  unfold Sqlite.get_order, Sqlite.create_order. intros H. cbv zeta.
  destruct (Sqlite.get_customer phone d); destruct (negb _);
    cbn [snd Sqlite.create_customer Sqlite.orders]; rewrite ?H; auto.
Qed.

Lemma create_order_taken_id_witness :
  Sqlite.orders
    (snd (Sqlite.create_order 5 0 "ORD-1" "+15550199" "Mouse" 2 ∅ Situations.one_order))
  = Sqlite.orders Situations.one_order.
Proof.
  apply (create_order_taken_id 5 0 "ORD-1" "+15550199" "Mouse" 2 ∅
           Situations.one_order Situations.old_order).
  reflexivity.
Defined.

(** X3. [create_order] makes sure the customer exists: a customer record
    that is there is left untouched, and a missing one is created without a
    name or an email, also when the order itself is then refused. Records
    of other customers never change. *)
Theorem create_order_ensures_customer (now utcoffset : Z) (oid phone item : string) (qty : Z)
    (bag : gmap string json) (d : Sqlite.DB) :
  let d' := snd (Sqlite.create_order now utcoffset oid phone item qty bag d) in
  Sqlite.get_customer phone d'
  = Some (default {| phone_number := phone; name := None; email := None;
                     c_created_at := Sqlite.current_timestamp now utcoffset;
                     c_updated_at := Sqlite.current_timestamp now utcoffset;
                     metadata := ∅ |}
                  (Sqlite.get_customer phone d))
  /\ (forall other, other <> phone ->
        Sqlite.get_customer other d' = Sqlite.get_customer other d).
Proof.
  unfold Sqlite.create_order, Sqlite.get_customer. cbv zeta.
  destruct (Sqlite.customers d !! phone) as [c |] eqn:Hc; destruct (negb _);
    cbn [snd Sqlite.create_customer Sqlite.orders Sqlite.customers default];
    try match goal with |- context [match ?x with Some _ => _ | None => _ end] =>
      destruct x end;
    cbn [snd Sqlite.customers];
    rewrite ?lookup_insert_eq; (split; [auto |]);
    intros other Hne; rewrite ?lookup_insert_ne by congruence; reflexivity.
Qed.

(** X4. [update_order_status] answers [False] and changes nothing when the
    order is missing. For a stored order it answers [True], sets the status,
    merges the given details into the stored ones (a given key wins, every
    other stored key stays) and keeps the id, customer, product, quantity
    and creation time; other orders and all customers are untouched. *)
Theorem update_order_status_effect (now utcoffset : Z) (oid new_status : string)
    (extra : gmap string json) (d : Sqlite.DB) :
  let r := Sqlite.update_order_status now utcoffset oid new_status (Some extra) d in
  match Sqlite.get_order oid d with
  | None => r = (false, d)
  | Some o =>
      fst r = true
      /\ Sqlite.get_order oid (snd r)
         = Some {| order_id := order_id o; customer_phone := customer_phone o;
                   product := product o; quantity := quantity o;
                   status := new_status; details := extra ∪ details o;
                   created_at := created_at o;
                   updated_at := Sqlite.current_timestamp now utcoffset |}
      /\ (forall key, (extra ∪ details o) !! key
                      = match extra !! key with
                        | Some v => Some v
                        | None => details o !! key
                        end)
      /\ (forall k, k <> oid -> Sqlite.get_order k (snd r) = Sqlite.get_order k d)
      /\ Sqlite.customers (snd r) = Sqlite.customers d
  end.
Proof.
  unfold Sqlite.update_order_status.
  destruct (Sqlite.get_order oid d) as [o |] eqn:H; [| reflexivity].
  cbn [fst snd]. unfold Sqlite.get_order. cbn [Sqlite.orders Sqlite.customers].
  split; [reflexivity |]. split; [apply lookup_insert_eq |].
  split; [| split; [| reflexivity]].
  - intros key. rewrite lookup_union.
    destruct (extra !! key), (details o !! key); reflexivity.
  - intros k Hk. now rewrite lookup_insert_ne.
Qed.

(** X5. Cancelling a stored order that is neither delivered nor cancelled
    succeeds when the naive local reading of [datetime.now()] is less than
    24 hours past the stored creation stamp, which is the measure the code
    takes (the stamp is a UTC reading, so this is the order's age only in a
    process whose local time is UTC): the answer is
    [(True, "Order cancelled successfully")], the stored status becomes
    [cancelled], the detail bag gains the cancellation reason (the default
    reason when none is given) and the local cancellation time, and the
    product, quantity, customer and creation stamp are kept. *)
Theorem cancel_order_success (now utcoffset : Z) (isoformat : Z -> string)
    (oid : string) (reason : option string) (d : Sqlite.DB) (o : Order) :
  Sqlite.get_order oid d = Some o ->
  status o <> "delivered" -> status o <> "cancelled" ->
  (now - created_at o < Sqlite.day)%Z ->
  let r := Sqlite.cancel_order now utcoffset isoformat oid reason d in
  fst r = (true, "Order cancelled successfully")
  /\ exists o',
       Sqlite.get_order oid (snd r) = Some o'
       /\ status o' = "cancelled"
       /\ details o' !! "cancellation_reason"
          = Some (JStr (Sqlite.reason_or_default reason))
       /\ details o' !! "cancelled_at" = Some (JStr (isoformat now))
       /\ (forall key, key <> "cancellation_reason" -> key <> "cancelled_at" ->
             details o' !! key = details o !! key)
       /\ product o' = product o /\ quantity o' = quantity o
       /\ customer_phone o' = customer_phone o /\ created_at o' = created_at o
       /\ (forall k, k <> oid -> Sqlite.get_order k (snd r) = Sqlite.get_order k d).
Proof.
  intros H Hd Hc Hfresh.
  unfold Sqlite.cancel_order. rewrite H.
  apply String.eqb_neq in Hd, Hc. rewrite Hd, Hc. cbn [orb].
  destruct (Z.leb_spec 1 ((now - created_at o) / Sqlite.day)) as [Hle | _].
  { exfalso. unfold Sqlite.day in *.
    pose proof (Z.div_lt_upper_bound (now - created_at o) 86400000000 1). lia. }
  unfold Sqlite.update_order_status. rewrite H. cbn [fst snd].
  split; [reflexivity |].
  eexists. unfold Sqlite.get_order. cbn [Sqlite.orders].
  split; [apply lookup_insert_eq |]. cbn [status details product quantity
    customer_phone created_at].
  split; [reflexivity |].
  split; [rewrite lookup_union, lookup_insert_ne by discriminate;
          rewrite lookup_insert_eq; destruct (details o !! _); reflexivity |].
  split; [rewrite lookup_union, lookup_insert_eq;
          destruct (details o !! _); reflexivity |].
  split.
  { intros key H1 H2. rewrite lookup_union.
    rewrite !lookup_insert_ne by congruence.
    destruct (details o !! key); reflexivity. }
  repeat (split; [reflexivity |]).
  intros k Hk. now rewrite lookup_insert_ne.
Qed.

Lemma cancel_order_success_witness :
  fst (Sqlite.cancel_order 1000 0 Situations.no_isoformat "ORD-1" None
         Situations.one_order)
  = (true, "Order cancelled successfully").
Proof.
  apply (cancel_order_success 1000 0 Situations.no_isoformat "ORD-1" None
           Situations.one_order Situations.old_order).
  - reflexivity.
  - discriminate.
  - discriminate.
  - reflexivity.
Defined.

(** X6. An order cannot be cancelled twice: after a successful
    cancellation, a further cancellation of the same order, at any later
    time and for any reason, fails with the message naming the status
    [cancelled] and changes nothing. *)
Theorem cancel_order_twice (now later utcoffset : Z) (isoformat : Z -> string)
    (oid : string) (reason reason' : option string) (d : Sqlite.DB) :
  let r := Sqlite.cancel_order now utcoffset isoformat oid reason d in
  fst (fst r) = true ->
  Sqlite.cancel_order later utcoffset isoformat oid reason' (snd r)
  = ((false, "Cannot cancel order with status: cancelled"), snd r).
Proof.
  unfold Sqlite.cancel_order.
  destruct (Sqlite.get_order oid d) as [o |] eqn:H; [| discriminate].
  destruct (_ || _); [discriminate |].
  destruct (1 <=? _)%Z; [discriminate |].
  unfold Sqlite.update_order_status. rewrite H. cbn [fst snd]. intros _.
  unfold Sqlite.get_order at 1. cbn [Sqlite.orders].
  rewrite lookup_insert_eq. reflexivity.
Qed.

Lemma cancel_order_twice_witness :
  Sqlite.cancel_order 2000 0 Situations.no_isoformat "ORD-1" (Some "again")
    (snd (Sqlite.cancel_order 1000 0 Situations.no_isoformat "ORD-1" None
            Situations.one_order))
  = ((false, "Cannot cancel order with status: cancelled"),
     snd (Sqlite.cancel_order 1000 0 Situations.no_isoformat "ORD-1" None
            Situations.one_order)).
Proof.
  apply (cancel_order_twice 1000 2000 0 Situations.no_isoformat "ORD-1" None
           (Some "again") Situations.one_order).
  reflexivity.
Defined.

Module WindowFacts.

(** What [cancel_order] measures for an order stamped by [create_order]. *)
Lemma measured_age (t1 t2 utcoffset : Z) :
  (t2 - Sqlite.current_timestamp t1 utcoffset
   = (t2 - t1) + utcoffset + (t1 - utcoffset) mod Sqlite.second)%Z.
Proof.
  unfold Sqlite.current_timestamp, Sqlite.second.
  pose proof (Z.div_mod (t1 - utcoffset) 1000000 ltac:(lia)). lia.
Qed.

Lemma days_at_least_one (x : Z) : (1 <=? x / Sqlite.day)%Z = (Sqlite.day <=? x)%Z.
Proof.
  unfold Sqlite.day.
  destruct (Z.leb_spec 86400000000 x) as [H | H].
  - apply Z.leb_le. apply Z.div_le_lower_bound; lia.
  - apply Z.leb_gt.
    assert (x / 86400000000 < 1)%Z by (apply Z.div_lt_upper_bound; lia). lia.
Qed.

End WindowFacts.

(** X28. What the 24-hour check measures. For an order placed with
    [create_order] at local reading [t1] (free id, quantity in range) and
    cancelled at local reading [t2] under the same UTC offset: the check compares
    with 24 hours the elapsed time [t2 - t1] plus the UTC offset of the
    local zone plus the fraction of a second that SQLite cut from the
    stamp. The cancellation is refused with the 24-hour message, and the
    store left as it was, exactly when that sum reaches 24 hours; otherwise
    it succeeds. So behind UTC an order older than 24 hours can still be
    cancelled, and ahead of UTC a younger one is refused. *)
Theorem cancellation_window (t1 t2 utcoffset : Z) (isoformat : Z -> string)
    (oid phone item : string) (qty : Z) (bag : gmap string json)
    (reason : option string) (d : Sqlite.DB) :
  Sqlite.get_order oid d = None ->
  (- 2 ^ 63 <= qty < 2 ^ 63)%Z ->
  let d1 := snd (Sqlite.create_order t1 utcoffset oid phone item qty bag d) in
  let res := Sqlite.cancel_order t2 utcoffset isoformat oid reason d1 in
  let measured := ((t2 - t1) + utcoffset + (t1 - utcoffset) mod Sqlite.second)%Z in
  ((Sqlite.day <= measured)%Z ->
   res = ((false, "Order cannot be cancelled after 24 hours"), d1))
  /\ ((measured < Sqlite.day)%Z ->
      fst res = (true, "Order cancelled successfully")
      /\ status <$> Sqlite.get_order oid (snd res) = Some "cancelled").
Proof.
  intros Hfree Hqty d1 res measured.
  assert (Sqlite.fits_int64 qty = true) as Hfits.
  { unfold Sqlite.fits_int64. apply andb_true_iff.
    split; [apply Z.leb_le | apply Z.ltb_lt]; lia. }
  destruct (CommitFacts.create_order_fresh t1 utcoffset oid phone item qty bag d
              Hfits Hfree) as (d' & Hc & Ho).
  assert (d1 = d') as -> by (unfold d1; rewrite Hc; reflexivity).
  subst res. unfold Sqlite.cancel_order, Sqlite.get_order. rewrite Ho.
  cbn [status created_at String.eqb Ascii.eqb Bool.eqb orb].
  rewrite WindowFacts.days_at_least_one, WindowFacts.measured_age.
  fold measured. split.
  - intros H. apply Z.leb_le in H. rewrite H. reflexivity.
  - intros H. apply Z.leb_gt in H. rewrite H.
    unfold Sqlite.update_order_status, Sqlite.get_order. rewrite Ho.
    cbn [fst snd Sqlite.orders]. split; [reflexivity |].
    rewrite lookup_insert_eq. reflexivity.
Qed.

Lemma cancellation_window_witness :
  Sqlite.cancel_order (23 * Situations.hour) Situations.ahead_of_utc
    Situations.no_isoformat "ORD-7" None
    (snd (Sqlite.create_order 0 Situations.ahead_of_utc "ORD-7" "+15550100" "Laptop" 1
            ∅ Sqlite.empty_db))
  = ((false, "Order cannot be cancelled after 24 hours"),
     snd (Sqlite.create_order 0 Situations.ahead_of_utc "ORD-7" "+15550100" "Laptop" 1
            ∅ Sqlite.empty_db)).
Proof.
  apply (cancellation_window 0 (23 * Situations.hour) Situations.ahead_of_utc
           Situations.no_isoformat "ORD-7" "+15550100" "Laptop" 1 ∅ None
           Sqlite.empty_db).
  - reflexivity.
  - lia.
  - vm_compute. discriminate.
Defined.

(** X7. [get_customer_orders] lists exactly the stored orders of the given
    customer, the most recently created first. *)
Theorem customer_orders_exact_and_newest_first (phone : string) (d : Sqlite.DB) :
  (forall o, In o (Sqlite.get_customer_orders phone d)
             <-> (exists k, Sqlite.get_order k d = Some o)
                 /\ customer_phone o = phone)
  /\ StronglySorted (fun a b => (created_at b <= created_at a)%Z)
                    (Sqlite.get_customer_orders phone d).
Proof.
  unfold Sqlite.get_customer_orders, Sqlite.get_order. split.
  - intros o. rewrite StoreFacts.sort_desc_In, List.filter_In, String.eqb_eq.
    rewrite <- list_elem_of_In, list_elem_of_fmap.
    split.
    + intros [[[k o'] [-> Hin]] Hp]. apply elem_of_map_to_list in Hin.
      split; [exists k; exact Hin | exact Hp].
    + intros [[k Hk] Hp]. split; [| exact Hp].
      exists (k, o). split; [reflexivity |]. now apply elem_of_map_to_list.
  - apply StoreFacts.sort_desc_sorted.
Qed.

(** * Further properties of the message parser *)

Module ParserFacts.
Import Regex Reference MessageParser.

Lemma lower_upper_char (c : ascii) :
  Text.lower_char (Text.upper_char c) = Text.lower_char c.
Proof. destruct c as [[] [] [] [] [] [] [] []]; reflexivity. Qed.

Lemma lower_upper (s : string) : Text.lower (Text.upper s) = Text.lower s.
Proof.
  unfold Text.lower, Text.upper.
  induction s as [|c s IH]; simpl; [reflexivity |].
  now rewrite lower_upper_char, IH.
Qed.

Lemma isspace_upper_char (c : ascii) :
  Text.isspace (Text.upper_char c) = Text.isspace c.
Proof. destruct c as [[] [] [] [] [] [] [] []]; reflexivity. Qed.

Lemma upper_lstrip (s : string) :
  Text.lstrip (Text.upper s) = Text.upper (Text.lstrip s).
Proof.
  unfold Text.upper. induction s as [|c s IH]; simpl; [reflexivity |].
  rewrite isspace_upper_char. destruct (Text.isspace c); [exact IH | reflexivity].
Qed.

Lemma upper_is_empty (s : string) :
  Text.is_empty (Text.upper s) = Text.is_empty s.
Proof. destruct s; reflexivity. Qed.

Lemma upper_rstrip (s : string) :
  Text.rstrip (Text.upper s) = Text.upper (Text.rstrip s).
Proof.
  unfold Text.upper. induction s as [|c s IH]; simpl; [reflexivity |].
  rewrite isspace_upper_char, IH.
  change (Text.map_chars Text.upper_char (Text.rstrip s))
    with (Text.upper (Text.rstrip s)).
  rewrite upper_is_empty.
  destruct (Text.isspace c && Text.is_empty (Text.rstrip s)); reflexivity.
Qed.

Lemma upper_strip (s : string) :
  Text.strip (Text.upper s) = Text.upper (Text.strip s).
Proof. unfold Text.strip. now rewrite upper_lstrip, upper_rstrip. Qed.



(** A match of the digits pattern is a non-empty run of digits. *)
Lemma digits_match prev s n cs :
  match_at digits_pattern prev s = Some (n, cs) ->
  digit_run (Text.take_str n s) = true.
Proof.
  unfold match_at, digits_pattern. cbn [run].
  destruct (rep _ _ _ prev s [] _) as [[s' cs'] |] eqn:H; [| discriminate].
  intros E. inversion E; subst n cs'. clear E.
  apply RegexFacts.rep_sound in H as (pre & p' & s1 & Hs & Hall & Hlen & Hk).
  inversion Hk; subst s1. rewrite Hs, RegexFacts.take_str_app.
  unfold digit_run. destruct pre as [|x pre]; [simpl in Hlen; lia |].
  cbn [Text.is_empty negb andb].
  clear -Hall. revert Hall. generalize (String x pre) as t.
  induction t as [|y t IH]; simpl; [reflexivity |].
  rewrite RegexFacts.icase_digit. intros H. apply andb_true_iff in H as [-> H]. auto.
Qed.

Lemma scan_digits prev s skip :
  Forall (fun m => digit_run (fst m) = true) (scan digits_pattern prev s skip).
Proof.
  revert prev skip. induction s as [|c s IH]; intros prev skip; cbn [scan].
  - destruct skip; [| constructor].
    destruct (match_at _ prev EmptyString) as [[n cs] |] eqn:E; [| constructor].
    exfalso. apply digits_match in E. destruct n; discriminate.
  - destruct skip; [| apply IH].
    destruct (match_at _ prev (String c s)) as [[n cs] |] eqn:E; [| apply IH].
    constructor; [| apply IH]. exact (digits_match _ _ _ _ E).
Qed.

Lemma search_digits line q :
  search digits_pattern line = Some q -> digit_run q = true.
Proof.
  unfold search. pose proof (scan_digits None line 0) as H.
  destruct (scan digits_pattern None line 0) as [|m ms]; [discriminate |].
  intros E. inversion E; subst. now inversion H.
Qed.

(** The loop keeps the quantity a digit run. *)
Lemma line_keeps_quantity d line d' :
  order_details_line d line = Ok d' ->
  (exists q, d !! "quantity" = Some q /\ digit_run q = true) ->
  exists q, d' !! "quantity" = Some q /\ digit_run q = true.
Proof.
  unfold order_details_line. intros H Hq.
  repeat match type of H with
         | (if ?b then _ else _) = _ => destruct b
         | match ?x with _ => _ end = _ => destruct x eqn:?
         end;
    inversion H; subst; try (rewrite lookup_insert_ne by discriminate; exact Hq);
    try exact Hq.
  rewrite lookup_insert_eq. eexists. split; [reflexivity |].
  eapply search_digits. eassumption.
Qed.

Lemma loop_keeps_quantity lines d d' :
  order_details_loop d lines = Ok d' ->
  (exists q, d !! "quantity" = Some q /\ digit_run q = true) ->
  exists q, d' !! "quantity" = Some q /\ digit_run q = true.
Proof.
  revert d. induction lines as [|line lines IH]; intros d; simpl.
  - intros H. now inversion H.
  - destruct (order_details_line d line) as [d1 |] eqn:E; [| discriminate].
    intros H Hq. apply (IH d1 H). exact (line_keeps_quantity _ _ _ E Hq).
Qed.

Lemma extracted_quantity message d :
  extract_order_details message = Ok d ->
  exists q, d !! "quantity" = Some q /\ digit_run q = true.
Proof.
  unfold extract_order_details.
  destruct (order_details_loop _ _) as [d1 |] eqn:E; [| discriminate].
  destruct (d1 !! "notes"); [| discriminate].
  intros H. inversion H; subst. rewrite lookup_insert_ne by discriminate.
  apply (loop_keeps_quantity _ _ _ E). exists "1". split; reflexivity.
Qed.

(** [int] of a digit run. *)
Lemma digit_not_space (c : ascii) : Text.is_digit c = true -> Text.isspace c = false.
Proof. destruct c as [[] [] [] [] [] [] [] []]; vm_compute; congruence. Qed.

Lemma rstrip_digits (s : string) :
  all_chars Text.is_digit s = true -> Text.rstrip s = s.
Proof.
  induction s as [|c s IH]; simpl; [reflexivity |].
  intros H. apply andb_true_iff in H as [Hc Hs].
  rewrite (digit_not_space c Hc), (IH Hs). reflexivity.
Qed.

Lemma digits_value_ok (s : string) (acc : Z) :
  all_chars Text.is_digit s = true -> (0 <= acc)%Z ->
  exists z, OrderAgent.digits_value acc s = Some z /\ (0 <= z)%Z.
Proof.
  revert acc. induction s as [|c s IH]; intros acc H Hacc; simpl.
  - eauto.
  - simpl in H. apply andb_true_iff in H as [Hc Hs]. rewrite Hc.
    apply IH; [exact Hs | lia].
Qed.

Lemma py_int_digit_run (q : string) :
  digit_run q = true ->
  if (OrderAgent.int_max_str_digits <? Z.of_nat (String.length q))%Z
  then OrderAgent.py_int q = Raise ValueError
  else exists z, OrderAgent.py_int q = Ok z /\ (0 <= z)%Z.
Proof.
  unfold digit_run. intros H. apply andb_true_iff in H as [Hne Hall].
  destruct q as [|c q]; [discriminate |].
  assert (Text.strip (String c q) = String c q) as Hstrip.
  { unfold Text.strip. simpl in Hall. apply andb_true_iff in Hall as [Hc Hq].
    cbn [Text.lstrip]. rewrite (digit_not_space c Hc).
    apply rstrip_digits. simpl. now rewrite Hc, Hq. }
  unfold OrderAgent.py_int. rewrite Hstrip.
  assert (OrderAgent.unsigned_int (String c q)
          = if (OrderAgent.int_max_str_digits <? Z.of_nat (String.length (String c q)))%Z
            then Raise ValueError
            else match OrderAgent.digits_value 0 (String c q) with
                 | Some z => Ok z
                 | None => Raise ValueError
                 end) as Hu by reflexivity.
  destruct (digits_value_ok (String c q) 0 Hall ltac:(lia)) as (z & Hz & Hpos).
  assert (c <> "+"%char /\ c <> "-"%char) as [Hp Hm].
  { simpl in Hall. apply andb_true_iff in Hall as [Hc _].
    split; intros ->; discriminate. }
  assert (match String c q with
          | String "+" s' => OrderAgent.unsigned_int s'
          | String "-" s' =>
              match OrderAgent.unsigned_int s' with
              | Ok z => Ok (- z)%Z
              | Raise e => Raise e
              end
          | s' => OrderAgent.unsigned_int s'
          end = OrderAgent.unsigned_int (String c q)) as Hsign.
  { destruct c as [[] [] [] [] [] [] [] []]; try congruence; reflexivity. }
  rewrite Hsign, Hu.
  destruct (OrderAgent.int_max_str_digits <? _)%Z; [reflexivity |].
  rewrite Hz. eauto.
Qed.

(** The fold of [_extract_entities] over any table. *)
Lemma extract_fold (table : list (string * regex)) (message : string)
    (acc : gmap string (list string)) (ty : string) (l : list string) :
  fold_left
    (fun entities '(entity_type, pattern) =>
       match findall pattern message with
       | [] => entities
       | matches => <[entity_type := map (entity_value entity_type) matches]> entities
       end) table acc !! ty = Some l ->
  acc !! ty = Some l \/ (l <> [] /\ In ty (map fst table)).
Proof.
  revert acc. induction table as [|[ty' r] t IH]; intros acc; simpl; [auto |].
  intros H. apply IH in H as [H | [Hl Hin]]; [| auto].
  destruct (findall r message) as [|m ms]; [auto |].
  destruct (decide (ty' = ty)) as [-> | Hne].
  - rewrite lookup_insert_eq in H. inversion H. right. split; [discriminate | auto].
  - rewrite lookup_insert_ne in H by exact Hne. auto.
Qed.

End ParserFacts.

(** X8. [extract_order_details] never raises: for every message it returns
    a record, and the record has all six keys. In particular
    [split(':')[1]] always exists where the code uses it. *)
Theorem extract_order_details_never_raises (message : string) :
  exists d, MessageParser.extract_order_details message = Ok d
            /\ Forall (fun key => is_Some (d !! key)) Notions.order_detail_keys.
Proof.
  destruct (SingleShotFacts.extract_order_details_total message) as [d E].
  exists d. split; [exact E |].
  unfold MessageParser.extract_order_details in E.
  destruct (MessageParser.order_details_loop _ _) as [d1 |] eqn:El; [| discriminate].
  destruct (d1 !! "notes"); [| discriminate].
  inversion E; subst d. clear E.
  assert (forall key, is_Some (MessageParser.initial_order_details !! key) ->
                      is_Some (<["notes" := Text.strip s]> d1 !! key)) as Hk.
  { intros key Hi. pose proof (SingleShotFacts.loop_keeps_keys _ _ _ key El Hi) as H1.
    destruct (decide ("notes" = key)) as [<- | Hne].
    - rewrite lookup_insert_eq. eauto.
    - now rewrite lookup_insert_ne. }
  unfold Notions.order_detail_keys.
  repeat (constructor; [apply Hk; vm_compute; eauto |]). constructor.
Qed.

(** X9. The quantity [extract_order_details] returns is always a non-empty
    run of decimal digits. The [int(...)] of the single-shot order path
    yields a non-negative number for it when the run has at most 4300
    digits, CPython's default limit for the conversion, and raises
    [ValueError] when the run is longer. *)
Theorem extracted_quantity_is_a_number (message : string) :
  exists d q,
    MessageParser.extract_order_details message = Ok d
    /\ d !! "quantity" = Some q
    /\ Reference.digit_run q = true
    /\ if (OrderAgent.int_max_str_digits <? Z.of_nat (String.length q))%Z
       then OrderAgent.py_int q = Raise ValueError
       else exists z, OrderAgent.py_int q = Ok z /\ (0 <= z)%Z.
Proof.
  destruct (SingleShotFacts.extract_order_details_total message) as [d E].
  destruct (ParserFacts.extracted_quantity message d E) as (q & Hq & Hd).
  exists d, q. split; [exact E |]. split; [exact Hq |]. split; [exact Hd |].
  apply (ParserFacts.py_int_digit_run q Hd).
Qed.


(** X11. For a message of ASCII characters, letter case does not matter
    for a routing decision: the message in upper case is again ASCII, and
    the intent and confidence, the rejection type, whether the message
    counts as a complete order and the unknown-intent fallback are the same
    for it as for the message. (Outside ASCII, [str.upper] maps some
    letters to ASCII ones and the statement fails.) *)
Theorem decisions_ignore_letter_case (message : string) :
  Notions.ascii_text message = true ->
  Notions.ascii_text (Text.upper message) = true
  /\ MessageParser.intent (MessageParser.parse_message (Text.upper message))
     = MessageParser.intent (MessageParser.parse_message message)
  /\ MessageParser.confidence (MessageParser.parse_message (Text.upper message))
     = MessageParser.confidence (MessageParser.parse_message message)
  /\ RejectAgent._analyze_rejection (Text.upper message)
     = RejectAgent._analyze_rejection message
  /\ OrderAgent._is_complete_order (Text.upper message)
     = OrderAgent._is_complete_order message
  /\ ManagerAgent._handle_unknown_intent (Text.upper message)
     = ManagerAgent._handle_unknown_intent message.
Proof.
  intros Hascii. split.
  { unfold Notions.ascii_text in *. induction message as [|c message IH];
      [reflexivity |].
    cbn [Text.upper Text.map_chars Reference.all_chars] in *.
    apply andb_true_iff in Hascii as [Hc Hm].
    apply andb_true_iff. split; [| exact (IH Hm)].
    revert Hc. destruct c as [[] [] [] [] [] [] [] []]; vm_compute; congruence. }
  unfold MessageParser.parse_message, RejectAgent._analyze_rejection,
    OrderAgent._is_complete_order, ManagerAgent._handle_unknown_intent.
  rewrite !ParserFacts.lower_upper.
  repeat split; destruct (MessageParser._detect_intent _); reflexivity.
Qed.

Lemma decisions_ignore_letter_case_witness :
  RejectAgent._analyze_rejection (Text.upper "Too busy right now")
  = RejectAgent._analyze_rejection "Too busy right now".
Proof.
  destruct (decisions_ignore_letter_case "Too busy right now" eq_refl)
    as (_ & _ & _ & H & _).
  exact H.
Defined.

(** X12. The entity mapping never holds an empty list, and its keys are
    among the five entity types: a type without a match is absent. *)
Theorem entities_have_matches (message ty : string) (l : list string) :
  MessageParser._extract_entities message !! ty = Some l ->
  l <> [] /\ In ty Notions.entity_types.
Proof.
  unfold MessageParser._extract_entities. intros H.
  apply ParserFacts.extract_fold in H as [H | H]; [| exact H].
  rewrite lookup_empty in H. discriminate.
Qed.

Lemma entities_have_matches_witness :
  ["1234"] <> [] /\ In "order_id" Notions.entity_types.
Proof.
  apply (entities_have_matches "order ORD-1234" "order_id" ["1234"]).
  vm_compute. reflexivity.
Defined.

(** * Further properties of the agents *)

Module FrameFacts.
Import OrderAgent Frames.

Section Rules.
Context {DB : Type}.
Variable R : AgentState DB -> AgentState DB -> Prop.
Hypothesis R_refl : forall st, R st st.
Hypothesis R_trans : forall a b c, R a b -> R b c -> R a c.

Lemma preserves_ret {A} (a : A) : preserves R (ret a).
Proof. intros st. apply R_refl. Qed.

Lemma preserves_raise {A} (e : exn) : preserves R (raise (A:=A) e).
Proof. intros st. apply R_refl. Qed.

Lemma preserves_of_res {A} (r : Res A) : preserves R (of_res r).
Proof. intros st. apply R_refl. Qed.

Lemma preserves_get_pending sender : preserves R (get_pending sender).
Proof. intros st. apply R_refl. Qed.

Lemma preserves_bind {A B} (m : M A) (f : A -> M B) :
  preserves R m -> (forall a, preserves R (f a)) -> preserves R (bind m f).
Proof.
  intros Hm Hf st. unfold bind. specialize (Hm st).
  destruct (m st) as [[a | e] st1]; simpl in *.
  - exact (R_trans _ _ _ Hm (Hf a st1)).
  - exact Hm.
Qed.

Lemma preserves_try {A} (m : M A) (h : exn -> M A) :
  preserves R m -> (forall e, preserves R (h e)) -> preserves R (try_except m h).
Proof.
  intros Hm Hh st. unfold try_except. specialize (Hm st).
  destruct (m st) as [[a | e] st1]; simpl in *.
  - exact Hm.
  - exact (R_trans _ _ _ Hm (Hh e st1)).
Qed.

Lemma preserves_put sender p :
  (forall st, R st (Build_AgentState (<[sender := p]> (pending_orders st)) (db st))) ->
  preserves R (put_pending sender p).
Proof. intros H st. apply H. Qed.

Lemma preserves_del sender :
  (forall st, R st (Build_AgentState (delete sender (pending_orders st)) (db st))) ->
  preserves R (del_pending sender).
Proof.
  intros H st. unfold del_pending.
  destruct (pending_orders st !! sender); [apply H | apply R_refl].
Qed.

Lemma preserves_call {A} (op : DB -> Res A * DB) :
  (forall st, R st (Build_AgentState (pending_orders st) (snd (op (db st))))) ->
  preserves R (call op).
Proof.
  intros H st. unfold call. specialize (H st).
  destruct (op (db st)) as [r d]. exact H.
Qed.

End Rules.

(** The three relations are preorders. *)
Lemma same_session_refl {DB} other (st : AgentState DB) : same_session other st st.
Proof. reflexivity. Qed.
Lemma same_session_trans {DB} other (a b c : AgentState DB) :
  same_session other a b -> same_session other b c -> same_session other a c.
Proof. unfold same_session. congruence. Qed.
Lemma same_sessions_refl {DB} (st : AgentState DB) : same_sessions st st.
Proof. reflexivity. Qed.
Lemma same_sessions_trans {DB} (a b c : AgentState DB) :
  same_sessions a b -> same_sessions b c -> same_sessions a c.
Proof. unfold same_sessions. congruence. Qed.
Lemma same_store_refl {DB} (st : AgentState DB) : same_store st st.
Proof. reflexivity. Qed.
Lemma same_store_trans {DB} (a b c : AgentState DB) :
  same_store a b -> same_store b c -> same_store a c.
Proof. unfold same_store. congruence. Qed.

(** One proof step for a goal [preserves R m], given that [R] is a
    preorder and what it says about the three primitive writes. *)
Ltac frame_step Rrefl Rtrans Hput Hdel Hcall :=
  first
    [ apply preserves_bind; [exact Rtrans | | intros ?]
    | apply preserves_try; [exact Rtrans | | intros ?]
    | apply preserves_ret; exact Rrefl
    | apply preserves_raise; exact Rrefl
    | apply preserves_of_res; exact Rrefl
    | apply preserves_get_pending; exact Rrefl
    | apply preserves_put; Hput
    | apply preserves_del; [exact Rrefl | Hdel]
    | apply preserves_call; Hcall
    | match goal with
      | |- preserves _ (match ?x with _ => _ end) => destruct x
      | |- preserves _ (if ?x then _ else _) => destruct x
      end ].

Section AnyStore.
Context {DB : Type}.
Variable svc : DatabaseService DB.

(** Handling a message of [sender] leaves the session of any other sender
    alone. *)
Lemma order_agent_isolated now uuid intent message sender other :
  other <> sender ->
  preserves (same_session other)
            (OrderAgent.handle_message svc now uuid intent message sender).
Proof.
  intros Hne.
  unfold OrderAgent.handle_message, handle_body, _handle_order_creation,
    _continue_order_creation, continue_body, record_answer,
    _create_order_from_message, _start_guided_order_creation,
    _handle_order_status, _handle_order_cancellation, show_orders, show_cancellable.
  repeat frame_step (same_session_refl (DB:=DB) other)
                    (same_session_trans (DB:=DB) other)
                    ltac:(intros ?; unfold same_session; cbn [pending_orders];
                          now rewrite lookup_insert_ne by congruence)
                    ltac:(intros ?; unfold same_session; cbn [pending_orders];
                          now rewrite lookup_delete_ne by congruence)
                    ltac:(intros ?; reflexivity).
Qed.

(** The status and cancellation handlers never write a session. *)
Lemma status_keeps_sessions message sender :
  preserves same_sessions (_handle_order_status svc message sender).
Proof.
  unfold _handle_order_status, show_orders.
  repeat frame_step (same_sessions_refl (DB:=DB)) (same_sessions_trans (DB:=DB))
                    ltac:(fail) ltac:(fail) ltac:(intros ?; reflexivity).
Qed.

Lemma cancellation_keeps_sessions message sender :
  preserves same_sessions (_handle_order_cancellation svc message sender).
Proof.
  unfold _handle_order_cancellation, show_cancellable.
  repeat frame_step (same_sessions_refl (DB:=DB)) (same_sessions_trans (DB:=DB))
                    ltac:(fail) ltac:(fail) ltac:(intros ?; reflexivity).
Qed.

Lemma greeting_keeps_sessions sender :
  preserves same_sessions (ManagerAgent._handle_greeting svc sender).
Proof.
  unfold ManagerAgent._handle_greeting.
  repeat frame_step (same_sessions_refl (DB:=DB)) (same_sessions_trans (DB:=DB))
                    ltac:(fail) ltac:(fail) ltac:(intros ?; reflexivity).
Qed.

End AnyStore.
End FrameFacts.

(** X13. Sessions are isolated and only order-create messages write them:
    whatever the database service does, routing a message of one sender
    never changes the session of another sender, and routing a message with
    any intent other than order-create changes no session at all. *)
Theorem sessions_are_isolated {DB : Type} (svc : DatabaseService DB)
    (now : Z) (uuid : N) (intent : MessageParser.Intent) (message sender : string)
    (st : OrderAgent.AgentState DB) :
  let st' := snd (ManagerAgent._route_to_agent svc now uuid intent message sender st) in
  (forall other, other <> sender ->
     OrderAgent.pending_orders st' !! other = OrderAgent.pending_orders st !! other)
  /\ (intent <> MessageParser.ORDER_CREATE ->
      OrderAgent.pending_orders st' = OrderAgent.pending_orders st).
Proof.
  split.
  - intros other Hne.
    assert (Frames.preserves (Frames.same_session other)
              (ManagerAgent._route_to_agent svc now uuid intent message sender)) as H.
    { unfold ManagerAgent._route_to_agent, ManagerAgent.route_body.
      apply FrameFacts.preserves_try;
        [apply FrameFacts.same_session_trans | |
         intros ?; apply FrameFacts.preserves_ret; apply FrameFacts.same_session_refl].
      destruct intent;
        try (apply FrameFacts.order_agent_isolated; exact Hne);
        try (apply FrameFacts.preserves_ret; apply FrameFacts.same_session_refl).
      unfold ManagerAgent._handle_greeting.
      repeat FrameFacts.frame_step (FrameFacts.same_session_refl (DB:=DB) other)
               (FrameFacts.same_session_trans (DB:=DB) other)
               ltac:(fail) ltac:(fail) ltac:(intros ?; reflexivity). }
    exact (H st).
  - intros Hi.
    assert (Frames.preserves Frames.same_sessions
              (ManagerAgent._route_to_agent svc now uuid intent message sender)) as H.
    { unfold ManagerAgent._route_to_agent, ManagerAgent.route_body.
      apply FrameFacts.preserves_try;
        [apply FrameFacts.same_sessions_trans | |
         intros ?; apply FrameFacts.preserves_ret; apply FrameFacts.same_sessions_refl].
      destruct intent; try congruence;
        try (apply FrameFacts.preserves_ret; apply FrameFacts.same_sessions_refl);
        try apply FrameFacts.greeting_keeps_sessions;
        unfold OrderAgent.handle_message, OrderAgent.handle_body;
        (apply FrameFacts.preserves_try;
         [apply FrameFacts.same_sessions_trans | |
          intros ?; apply FrameFacts.preserves_ret; apply FrameFacts.same_sessions_refl]);
        first [apply FrameFacts.status_keeps_sessions
              | apply FrameFacts.cancellation_keeps_sessions]. }
    exact (H st).
Qed.

Module ReadOnlyFacts.
Import OrderAgent Frames.

Section OnSqlite.
Variables (clock utcoffset : Z) (isoformat : Z -> string).
Let svc := Sqlite.service clock utcoffset isoformat.

Local Ltac store_step :=
  FrameFacts.frame_step (FrameFacts.same_store_refl (DB:=Sqlite.DB))
    (FrameFacts.same_store_trans (DB:=Sqlite.DB))
    ltac:(intros ?; reflexivity) ltac:(intros ?; reflexivity)
    ltac:(intros ?; reflexivity).

Lemma status_reads_only message sender :
  preserves same_store (_handle_order_status svc message sender).
Proof. unfold _handle_order_status, show_orders. repeat store_step. Qed.

Lemma greeting_reads_only sender :
  preserves same_store (ManagerAgent._handle_greeting svc sender).
Proof. unfold ManagerAgent._handle_greeting. repeat store_step. Qed.

Lemma route_reads_only now uuid intent message sender :
  intent <> MessageParser.ORDER_CREATE -> intent <> MessageParser.ORDER_CANCEL ->
  preserves same_store (ManagerAgent._route_to_agent svc now uuid intent message sender).
Proof.
  intros H1 H2. unfold ManagerAgent._route_to_agent, ManagerAgent.route_body.
  store_step; [| store_step].
  destruct intent; try congruence;
    first [ apply greeting_reads_only
          | progress unfold OrderAgent.handle_message, handle_body;
            store_step; [apply status_reads_only | store_step]
          | store_step ].
Qed.

End OnSqlite.

(** The state a [try/except] with a constant handler leaves is the state
    its body leaves. *)
Lemma try_ret_state {DB A} (m : M (DB:=DB) A) (a : A) (st : AgentState DB) :
  snd (try_except m (fun _ => ret a) st) = snd (m st).
Proof. unfold try_except, ret. destruct (m st) as [[r | e] st1]; reflexivity. Qed.

Lemma state_eta {DB} (st st' : AgentState DB) :
  pending_orders st' = pending_orders st -> db st' = db st -> st' = st.
Proof. destruct st, st'; simpl; congruence. Qed.

End ReadOnlyFacts.

(** X14. On the SQLite store only order-create and order-cancel messages
    change anything: for every other intent (order status, the FAQ intents,
    help, greeting, rejection, unknown) routing leaves the sessions and the
    store exactly as they were. *)
Theorem other_intents_change_nothing (clock now : Z) (utcoffset : Z) (isoformat : Z -> string)
    (uuid : N) (intent : MessageParser.Intent) (message sender : string)
    (st : OrderAgent.AgentState Sqlite.DB) :
  intent <> MessageParser.ORDER_CREATE ->
  intent <> MessageParser.ORDER_CANCEL ->
  snd (ManagerAgent._route_to_agent (Sqlite.service clock utcoffset isoformat) now uuid
         intent message sender st) = st.
Proof.
  intros H1 H2. apply ReadOnlyFacts.state_eta.
  - assert (Frames.preserves Frames.same_sessions
              (ManagerAgent._route_to_agent (Sqlite.service clock utcoffset isoformat)
                 now uuid intent message sender)) as H.
    { unfold ManagerAgent._route_to_agent, ManagerAgent.route_body.
      apply FrameFacts.preserves_try;
        [apply FrameFacts.same_sessions_trans | |
         intros ?; apply FrameFacts.preserves_ret; apply FrameFacts.same_sessions_refl].
      destruct intent; try congruence;
        try (apply FrameFacts.preserves_ret; apply FrameFacts.same_sessions_refl);
        try apply FrameFacts.greeting_keeps_sessions.
      unfold OrderAgent.handle_message, OrderAgent.handle_body.
      apply FrameFacts.preserves_try;
        [apply FrameFacts.same_sessions_trans
        | apply FrameFacts.status_keeps_sessions
        | intros ?; apply FrameFacts.preserves_ret; apply FrameFacts.same_sessions_refl]. }
    exact (H st).
  - exact (ReadOnlyFacts.route_reads_only clock utcoffset isoformat now uuid intent message
             sender H1 H2 st).
Qed.

Lemma other_intents_change_nothing_witness :
  snd (ManagerAgent._route_to_agent Situations.store 0 0 MessageParser.ORDER_STATUS
         "status of order 1" "+15550100"
         (Situations.awaiting_address Situations.one_order))
  = Situations.awaiting_address Situations.one_order.
Proof.
  apply (other_intents_change_nothing 0 0 0 Situations.no_isoformat 0
           MessageParser.ORDER_STATUS "status of order 1" "+15550100"
           (Situations.awaiting_address Situations.one_order));
    discriminate.
Defined.

Module CancelHandlerFacts.
Import OrderAgent Frames.

(** The effect of a cancellation that goes through. *)
Lemma cancel_order_ok now utcoffset isoformat oid reason d o :
  Sqlite.get_order oid d = Some o ->
  status o <> "delivered" -> status o <> "cancelled" ->
  (now - created_at o < Sqlite.day)%Z ->
  Sqlite.cancel_order now utcoffset isoformat oid reason d
  = ((true, "Order cancelled successfully"),
     {| Sqlite.customers := Sqlite.customers d;
        Sqlite.orders :=
          <[oid := {| order_id := order_id o; customer_phone := customer_phone o;
                      product := product o; quantity := quantity o;
                      status := "cancelled";
                      details :=
                        <["cancelled_at" := JStr (isoformat now)]>
                          (<["cancellation_reason" :=
                               JStr (Sqlite.reason_or_default reason)]> (details o))
                        ∪ details o;
                      created_at := created_at o;
                   updated_at := Sqlite.current_timestamp now utcoffset |}]>
          (Sqlite.orders d) |}).
Proof.
  intros H Hd Hc Hfresh.
  unfold Sqlite.cancel_order. rewrite H.
  apply String.eqb_neq in Hd, Hc. rewrite Hd, Hc. cbn [orb].
  destruct (Z.leb_spec 1 ((now - created_at o) / Sqlite.day)) as [Hle | _].
  { exfalso. unfold Sqlite.day in *.
    pose proof (Z.div_lt_upper_bound (now - created_at o) 86400000000 1). lia. }
  unfold Sqlite.update_order_status. rewrite H. reflexivity.
Qed.

Lemma cancels_only_refl k sender d : cancels_only k sender d d.
Proof. unfold cancels_only. auto. Qed.

(** [cancel_order] touches at most the named order, and only to cancel it. *)
Lemma cancel_order_frame now utcoffset isoformat oid reason d o :
  Sqlite.get_order oid d = Some o ->
  cancels_only oid (customer_phone o) d
    (snd (Sqlite.cancel_order now utcoffset isoformat oid reason d)).
Proof.
  intros H. unfold Sqlite.cancel_order. rewrite H.
  destruct (_ || _); [apply cancels_only_refl |].
  destruct (1 <=? _)%Z; [apply cancels_only_refl |].
  unfold Sqlite.update_order_status. rewrite H. cbn [fst snd].
  unfold cancels_only, Sqlite.get_order in *. cbn [Sqlite.customers Sqlite.orders].
  split; [reflexivity |]. split.
  - intros j Hj. now rewrite lookup_insert_ne.
  - right. eexists o, _. rewrite lookup_insert_eq. auto.
Qed.

(** The id a message names is a non-empty run of digits. *)
Lemma extract_order_id_digits message oid :
  MessageParser.extract_order_id message = Some oid ->
  Reference.digit_run oid = true.
Proof.
  unfold MessageParser.extract_order_id.
  rewrite RegexFacts.extract_entities_order_id. unfold Regex.findall.
  pose proof (RegexFacts.scan_order_id_digits None message 0) as Hall.
  destruct (Regex.scan MessageParser.order_id_pattern None message 0) as [|m ms];
    [discriminate |].
  cbn [map default]. rewrite RegexFacts.order_id_entity_value.
  intros E. inversion E; subst. now inversion Hall.
Qed.

Lemma split_str_nonempty sep s skip : Text.split_str sep s skip <> [].
Proof.
  revert skip. induction s as [|c s IH]; intros skip; cbn [Text.split_str];
    [discriminate |].
  destruct skip; [| apply IH].
  destruct (String.prefix sep (String c s)); [discriminate |].
  destruct (Text.split_str sep s 0); discriminate.
Qed.

(** A text in which the separator occurs splits into at least two parts. *)
Lemma split_str_second a sep s :
  Text.contains (String a sep) s = true ->
  exists r, Text.split_str (String a sep) s 0 !! 1%nat = Some r.
Proof.
  induction s as [|c s IH].
  - rewrite TextFacts.contains_nil. discriminate.
  - rewrite TextFacts.contains_cons. cbn [Text.split_str].
    destruct (String.prefix (String a sep) (String c s)) eqn:Hp.
    + intros _.
      pose proof (split_str_nonempty (String a sep) s
                    (String.length (String a sep) - 1)) as Hne.
      destruct (Text.split_str (String a sep) s (String.length (String a sep) - 1))
        as [|x xs]; [congruence |].
      exists x. reflexivity.
    + cbn [orb]. intros H. destruct (IH H) as [r Hr].
      destruct (Text.split_str (String a sep) s 0) as [|x xs]; [discriminate |].
      exists r. exact Hr.
Qed.

(** Reading the cancellation reason never raises. *)
Lemma cancellation_reason_total message :
  exists reason, cancellation_reason message = Ok reason.
Proof.
  unfold cancellation_reason.
  destruct (Text.contains "reason:" (Text.lower message)) eqn:H; [| eauto].
  destruct (split_str_second _ _ _ H) as [r Hr]. rewrite Hr. eauto.
Qed.

Section OnSqlite.
Variables (clock utcoffset : Z) (isoformat : Z -> string).
Let svc := Sqlite.service clock utcoffset isoformat.

Lemma show_cancellable_state sender st :
  snd (show_cancellable svc sender st) = st.
Proof.
  unfold show_cancellable, bind, call, ret. cbn.
  destruct (List.filter _ _); destruct st; reflexivity.
Qed.

(** What the cancellation handler does to the store. *)
Lemma cancellation_state message sender st :
  match MessageParser.extract_order_id message with
  | Some oid =>
      cancels_only ("ORD-" +:+ oid) sender (db st)
        (db (snd (_handle_order_cancellation svc message sender st)))
  | None => db (snd (_handle_order_cancellation svc message sender st)) = db st
  end.
Proof.
  unfold _handle_order_cancellation.
  destruct (MessageParser.extract_order_id message) as [oid |];
    [| now rewrite show_cancellable_state].
  destruct (negb (Text.is_empty oid));
    [| rewrite show_cancellable_state; apply cancels_only_refl].
  unfold bind, call, ret, of_res. cbn [svc Sqlite.service get_order cancel_order].
  cbn [db pending_orders fst snd].
  destruct (Sqlite.get_order ("ORD-" +:+ oid) (db st)) as [o |] eqn:Ho;
    cbn [db snd]; [| apply cancels_only_refl].
  destruct (String.eqb_spec (customer_phone o) sender) as [Heq | Hne];
    cbn [negb db snd]; [| apply cancels_only_refl].
  destruct (cancellation_reason message) as [reason | e];
    cbn [db snd]; [| apply cancels_only_refl].
  pose proof (cancel_order_frame clock utcoffset isoformat ("ORD-" +:+ oid) (Some reason)
                (db st) o Ho) as Hf.
  rewrite Heq in Hf.
  destruct (Sqlite.cancel_order clock utcoffset isoformat ("ORD-" +:+ oid) (Some reason) (db st))
    as [[ok msg] d'].
  cbn [db snd fst] in *. destruct ok; exact Hf.
Qed.

End OnSqlite.
End CancelHandlerFacts.

(** X15. What a cancellation request can do to the SQLite store. The only
    order it can change is the one named in the message as "ord"/"order"
    followed by digits, looked up as ORD- plus those digits, and only if
    that order belongs to the sender, in which case it ends up cancelled;
    every other order and every customer record stay as they are, and a
    message that names no order changes nothing. *)
Theorem cancellation_touches_only_own_order (clock now : Z) (utcoffset : Z) (isoformat : Z -> string)
    (uuid : N) (message sender : string) (st : OrderAgent.AgentState Sqlite.DB) :
  let st' := snd (ManagerAgent._route_to_agent (Sqlite.service clock utcoffset isoformat)
                    now uuid MessageParser.ORDER_CANCEL message sender st) in
  match MessageParser.extract_order_id message with
  | Some oid =>
      Reference.digit_run oid = true
      /\ Frames.cancels_only ("ORD-" +:+ oid) sender
           (OrderAgent.db st) (OrderAgent.db st')
  | None => OrderAgent.db st' = OrderAgent.db st
  end.
Proof.
  intros st'. subst st'.
  unfold ManagerAgent._route_to_agent, ManagerAgent.route_body,
    OrderAgent.handle_message, OrderAgent.handle_body.
  rewrite !ReadOnlyFacts.try_ret_state.
  pose proof (CancelHandlerFacts.cancellation_state clock utcoffset isoformat message sender st)
    as H.
  destruct (MessageParser.extract_order_id message) as [oid |] eqn:E; [| exact H].
  split; [exact (CancelHandlerFacts.extract_order_id_digits message oid E) | exact H].
Qed.

(** X16. A sender's request to cancel their own order goes through end to
    end: when the message names an order that is stored under ORD- plus the
    digits, belongs to the sender, is neither delivered nor cancelled, and
    the naive local clock reading is less than 24 hours past its stored
    creation stamp (a UTC reading: the measure [cancel_order] takes, the
    order's age only in a process whose local time is UTC), the reply is
    the cancellation notice with the reason read from the message, and the
    stored order is cancelled with that reason (the stock reason when the
    one given is empty). Reading the reason never raises. *)
Theorem own_order_is_cancelled (clock now : Z) (utcoffset : Z) (isoformat : Z -> string)
    (uuid : N) (message sender oid : string) (o : Order)
    (st : OrderAgent.AgentState Sqlite.DB) :
  MessageParser.extract_order_id message = Some oid ->
  Sqlite.get_order ("ORD-" +:+ oid) (OrderAgent.db st) = Some o ->
  customer_phone o = sender ->
  status o <> "delivered" -> status o <> "cancelled" ->
  (clock - created_at o < Sqlite.day)%Z ->
  let res := ManagerAgent._route_to_agent (Sqlite.service clock utcoffset isoformat)
               now uuid MessageParser.ORDER_CANCEL message sender st in
  exists reason o',
    OrderAgent.cancellation_reason message = Ok reason
    /\ fst res = Ok (OrderCancelled ("ORD-" +:+ oid) reason)
    /\ Sqlite.get_order ("ORD-" +:+ oid) (OrderAgent.db (snd res)) = Some o'
    /\ status o' = "cancelled"
    /\ details o' !! "cancellation_reason"
       = Some (JStr (Sqlite.reason_or_default (Some reason))).
Proof.
  intros E Ho Hown Hd Hc Hfresh res. subst res.
  destruct (CancelHandlerFacts.cancellation_reason_total message) as [reason Hr].
  pose proof (CancelHandlerFacts.cancel_order_ok clock utcoffset isoformat ("ORD-" +:+ oid)
                (Some reason) (OrderAgent.db st) o Ho Hd Hc Hfresh) as Hok.
  pose proof (CancelHandlerFacts.extract_order_id_digits message oid E) as Hdig.
  assert (Text.is_empty oid = false) as Hne
    by (unfold Reference.digit_run in Hdig; destruct oid; [discriminate | reflexivity]).
  exists reason. eexists.
  split; [exact Hr |].
  unfold ManagerAgent._route_to_agent, ManagerAgent.route_body,
    OrderAgent.handle_message, OrderAgent.handle_body,
    OrderAgent._handle_order_cancellation.
  rewrite E, Hne. cbn [negb].
  unfold OrderAgent.try_except, OrderAgent.bind, OrderAgent.call, OrderAgent.ret,
    OrderAgent.of_res.
  cbn [Sqlite.service get_order cancel_order]. rewrite Ho. cbn [OrderAgent.db fst snd].
  rewrite Hown, String.eqb_refl. cbn [negb]. rewrite Hr.
  cbn [OrderAgent.db OrderAgent.pending_orders]. rewrite Hok.
  cbn [fst snd OrderAgent.db]. split; [reflexivity |].
  unfold Sqlite.get_order. cbn [Sqlite.orders]. rewrite lookup_insert_eq.
  split; [reflexivity |]. cbn [status details]. split; [reflexivity |].
  rewrite lookup_union, lookup_insert_ne by discriminate.
  rewrite lookup_insert_eq. destruct (details o !! _); reflexivity.
Qed.

Lemma own_order_is_cancelled_witness :
  exists reason o',
    OrderAgent.cancellation_reason "cancel order 1 reason: Changed my mind" = Ok reason
    /\ fst (ManagerAgent._route_to_agent (Sqlite.service 1000 0 Situations.no_isoformat)
              0 0 MessageParser.ORDER_CANCEL "cancel order 1 reason: Changed my mind"
              "+15550100" (OrderAgent.Build_AgentState ∅ Situations.one_order))
       = Ok (OrderCancelled "ORD-1" reason)
    /\ Sqlite.get_order "ORD-1"
         (OrderAgent.db
            (snd (ManagerAgent._route_to_agent
                    (Sqlite.service 1000 0 Situations.no_isoformat)
                    0 0 MessageParser.ORDER_CANCEL
                    "cancel order 1 reason: Changed my mind"
                    "+15550100" (OrderAgent.Build_AgentState ∅ Situations.one_order))))
       = Some o'
    /\ status o' = "cancelled"
    /\ details o' !! "cancellation_reason"
       = Some (JStr (Sqlite.reason_or_default (Some reason))).
Proof.
  apply (own_order_is_cancelled 1000 0 0 Situations.no_isoformat 0
           "cancel order 1 reason: Changed my mind" "+15550100" "1"
           Situations.old_order
           (OrderAgent.Build_AgentState ∅ Situations.one_order)).
  - vm_compute. reflexivity.
  - reflexivity.
  - reflexivity.
  - discriminate.
  - discriminate.
  - reflexivity.
Defined.

Module SingleShotStoreFacts.
Import OrderAgent.

Lemma with_customer_orders clock utcoffset sender d db0 :
  Sqlite.orders (Notions.with_customer clock utcoffset sender d db0) = Sqlite.orders db0.
Proof. unfold Notions.with_customer. destruct (Sqlite.get_customer sender db0); reflexivity. Qed.

(** The single-shot path, once the record and the quantity are known. *)
Lemma single_shot_run clock utcoffset isoformat uuid message sender st d q z :
  MessageParser.extract_order_details message = Ok d ->
  d !! "quantity" = Some q ->
  py_int q = Ok z ->
  _create_order_from_message (Sqlite.service clock utcoffset isoformat) uuid message sender st
  = let r := Sqlite.create_order clock utcoffset (new_order_id uuid) sender
               (default "Product not specified" (d !! "product")) z
               (Notions.single_shot_bag sender d)
               (Notions.with_customer clock utcoffset sender d (db st)) in
    (Ok (if fst r then _get_order_confirmation (new_order_id uuid) d
         else OrderCreateFailed),
     Build_AgentState (pending_orders st) (snd r)).
Proof.
  intros Hd Hq Hz.
  unfold _create_order_from_message, try_except, bind, call, ret, of_res.
  unfold Notions.single_shot_bag, Notions.with_customer.
  rewrite Hd, Hq, Hz. cbn [Sqlite.service get_customer create_customer create_order].
  cbn [db pending_orders fst snd].
  destruct (Sqlite.get_customer sender (db st)) as [c |];
    cbn [db pending_orders fst snd Sqlite.create_customer];
    match goal with
    | |- context [Sqlite.create_order ?a ?z ?b ?c0 ?e ?f ?g ?h] =>
        destruct (Sqlite.create_order a z b c0 e f g h) as [[|] d2]
    end; cbn [fst snd]; reflexivity.
Qed.

(** The single-shot path when [int] raises on the quantity: the [except]
    branch answers, after the customer was made sure of. *)
Lemma single_shot_raise clock utcoffset isoformat uuid message sender st d q e :
  MessageParser.extract_order_details message = Ok d ->
  d !! "quantity" = Some q ->
  py_int q = Raise e ->
  _create_order_from_message (Sqlite.service clock utcoffset isoformat) uuid message sender st
  = (Ok OrderFormatError,
     Build_AgentState (pending_orders st)
       (Notions.with_customer clock utcoffset sender d (db st))).
Proof.
  intros Hd Hq Hz.
  unfold _create_order_from_message, try_except, bind, call, ret, of_res.
  unfold Notions.with_customer.
  rewrite Hd, Hq, Hz. cbn [Sqlite.service get_customer create_customer create_order].
  cbn [db pending_orders fst snd].
  destruct (Sqlite.get_customer sender (db st)) as [c |];
    cbn [db pending_orders fst snd Sqlite.create_customer]; reflexivity.
Qed.

(** [create_order] refuses a quantity that does not fit and an id that is
    taken, and stores nothing then. *)
Lemma create_order_refused clock utcoffset oid phone item qty bag d :
  Sqlite.fits_int64 qty = false \/ is_Some (Sqlite.orders d !! oid) ->
  fst (Sqlite.create_order clock utcoffset oid phone item qty bag d) = false
  /\ Sqlite.orders (snd (Sqlite.create_order clock utcoffset oid phone item qty bag d))
     = Sqlite.orders d.
Proof.
  intros H. unfold Sqlite.create_order. cbv zeta.
  destruct (Sqlite.fits_int64 qty) eqn:Hq; cbn [negb].
  - destruct H as [H | [o Ho]]; [discriminate |].
    destruct (Sqlite.get_customer phone d);
      cbn [snd Sqlite.create_customer Sqlite.orders]; rewrite Ho; auto.
  - destruct (Sqlite.get_customer phone d); auto.
Qed.

End SingleShotStoreFacts.

(** X17. The single-shot order path on the SQLite store never raises and
    never opens a session. The quantity it reads is a non-empty digit run.
    When the run has more than 4300 digits, [int] raises and the answer is
    the format-error apology; when the number does not fit an SQLite
    INTEGER, or the generated id is taken, the answer is that the order
    could not be created; in these cases no order is stored or changed.
    Otherwise the answer is the confirmation and the store then holds the
    order under the generated id, pending, for the sender, with the
    quantity as a number and marked as created via whatsapp. *)
Theorem single_shot_order (clock utcoffset : Z) (isoformat : Z -> string) (uuid : N)
    (message sender : string) (st : OrderAgent.AgentState Sqlite.DB) :
  let res := OrderAgent._create_order_from_message (Sqlite.service clock utcoffset isoformat)
               uuid message sender st in
  let oid := OrderAgent.new_order_id uuid in
  let unchanged :=
    Sqlite.orders (OrderAgent.db (snd res)) = Sqlite.orders (OrderAgent.db st) in
  OrderAgent.pending_orders (snd res) = OrderAgent.pending_orders st
  /\ exists d q,
       MessageParser.extract_order_details message = Ok d
       /\ d !! "quantity" = Some q /\ Reference.digit_run q = true
       /\ if (OrderAgent.int_max_str_digits <? Z.of_nat (String.length q))%Z
          then fst res = Ok OrderFormatError /\ unchanged
          else
            exists z,
              OrderAgent.py_int q = Ok z /\ (0 <= z)%Z
              /\ if (2 ^ 63 <=? z)%Z
                 then fst res = Ok OrderCreateFailed /\ unchanged
                 else
                   match Sqlite.get_order oid (OrderAgent.db st) with
                   | Some _ => fst res = Ok OrderCreateFailed /\ unchanged
                   | None =>
                       fst res = Ok (OrderAgent._get_order_confirmation oid d)
                       /\ exists o,
                            Sqlite.get_order oid (OrderAgent.db (snd res)) = Some o
                            /\ customer_phone o = sender /\ status o = "pending"
                            /\ quantity o = z
                            /\ product o
                               = default "Product not specified" (d !! "product")
                            /\ details o !! "created_via" = Some (JStr "whatsapp")
                            /\ details o !! "agent_processed" = Some (JBool true)
                   end.
Proof.
  intros res oid unchanged. subst res oid unchanged.
  destruct (SingleShotFacts.extract_order_details_total message) as [d Hd].
  destruct (ParserFacts.extracted_quantity message d Hd) as (q & Hq & Hdig).
  pose proof (ParserFacts.py_int_digit_run q Hdig) as Hint.
  pose proof (SingleShotStoreFacts.with_customer_orders clock utcoffset sender d
                (OrderAgent.db st)) as Hd1.
  set (d1 := Notions.with_customer clock utcoffset sender d
               (OrderAgent.db st)) in *.
  assert (OrderAgent.pending_orders
            (snd (OrderAgent._create_order_from_message
                    (Sqlite.service clock utcoffset isoformat) uuid message sender st))
          = OrderAgent.pending_orders st) as Hsess.
  { destruct (OrderAgent.py_int q) as [z | e] eqn:Hz.
    - rewrite (SingleShotStoreFacts.single_shot_run clock utcoffset isoformat uuid
                 message sender st d q z Hd Hq Hz). reflexivity.
    - rewrite (SingleShotStoreFacts.single_shot_raise clock utcoffset isoformat uuid
                 message sender st d q e Hd Hq Hz). reflexivity. }
  split; [exact Hsess |].
  exists d, q. split; [exact Hd |]. split; [exact Hq |]. split; [exact Hdig |].
  destruct (OrderAgent.int_max_str_digits <? Z.of_nat (String.length q))%Z.
  { rewrite (SingleShotStoreFacts.single_shot_raise clock utcoffset isoformat uuid
               message sender st d q ValueError Hd Hq Hint).
    cbn [fst snd OrderAgent.db]. split; [reflexivity | exact Hd1]. }
  destruct Hint as (z & Hz & Hpos). exists z. split; [exact Hz |]. split; [exact Hpos |].
  rewrite (SingleShotStoreFacts.single_shot_run clock utcoffset isoformat uuid
             message sender st d q z Hd Hq Hz).
  fold d1. set (bag := Notions.single_shot_bag sender d) in *.
  cbv zeta. cbn [fst snd OrderAgent.db].
  destruct (Z.leb_spec (2 ^ 63) z) as [Hbig | Hsmall].
  { destruct (SingleShotStoreFacts.create_order_refused clock utcoffset
                (OrderAgent.new_order_id uuid) sender
                (default "Product not specified" (d !! "product")) z bag d1)
      as [Hf Ho].
    { left. unfold Sqlite.fits_int64. apply andb_false_iff. right.
      apply Z.ltb_ge. exact Hbig. }
    rewrite Hf, Ho. split; [reflexivity | exact Hd1]. }
  assert (Sqlite.fits_int64 z = true) as Hfits.
  { unfold Sqlite.fits_int64. apply andb_true_iff. split.
    - apply Z.leb_le. lia.
    - apply Z.ltb_lt. exact Hsmall. }
  unfold Sqlite.get_order. rewrite <- Hd1.
  destruct (Sqlite.orders d1 !! OrderAgent.new_order_id uuid) as [o |] eqn:Ho.
  - destruct (SingleShotStoreFacts.create_order_refused clock utcoffset
                (OrderAgent.new_order_id uuid) sender
                (default "Product not specified" (d !! "product")) z bag d1)
      as [Hf Hsame].
    { right. rewrite Ho. eauto. }
    rewrite Hf, Hsame. split; reflexivity.
  - destruct (CommitFacts.create_order_fresh clock utcoffset (OrderAgent.new_order_id uuid)
                sender (default "Product not specified" (d !! "product")) z bag d1
                Hfits Ho)
      as (d2 & Hc & Hget).
    rewrite Hc. cbn [fst snd]. split; [reflexivity |].
    eexists. split; [exact Hget |]. cbn [customer_phone status quantity product details].
    repeat split;
      first [ reflexivity
            | unfold bag, Notions.single_shot_bag;
              rewrite ?lookup_insert_ne by discriminate; apply lookup_insert_eq ].
Qed.

Module ListingFacts.
Import OrderAgent.

Lemma take_In {A} (n : nat) (l : list A) (x : A) : In x (take n l) -> In x l.
Proof.
  revert n. induction l as [|y l IH]; intros [|n]; simpl; try tauto.
  intros [-> | H]; [auto | right; eauto].
Qed.

Lemma take_length_le {A} (n : nat) (l : list A) : length (take n l) <= n.
Proof. rewrite length_take. lia. Qed.

Lemma take_sorted {A} (R : A -> A -> Prop) (n : nat) (l : list A) :
  StronglySorted R l -> StronglySorted R (take n l).
Proof.
  intros H. revert n. induction H as [|y l Hs IH Hall]; intros [|n]; simpl;
    try constructor; [apply IH |].
  rewrite List.Forall_forall in *. intros z Hz. apply Hall. eapply take_In, Hz.
Qed.

(** The orders [get_customer_orders] returns belong to the customer and are
    stored. *)
Lemma customer_orders_In phone d o :
  In o (Sqlite.get_customer_orders phone d) ->
  customer_phone o = phone /\ exists k, Sqlite.get_order k d = Some o.
Proof.
  unfold Sqlite.get_customer_orders, Sqlite.get_order.
  rewrite StoreFacts.sort_desc_In, List.filter_In, String.eqb_eq.
  rewrite <- list_elem_of_In, list_elem_of_fmap.
  intros [[[k o'] [-> Hin]] Hp]. apply elem_of_map_to_list in Hin.
  split; [exact Hp | exists k; exact Hin].
Qed.

Section OnSqlite.
Variables (clock utcoffset : Z) (isoformat : Z -> string).
Let svc := Sqlite.service clock utcoffset isoformat.

Lemma show_orders_reply sender st :
  fst (show_orders svc sender st)
  = Ok (match Sqlite.get_customer_orders sender (db st) with
        | [] => NoOrdersFound
        | os => CustomerOrdersText (take 5 os)
        end).
Proof.
  unfold show_orders, bind, call, ret. cbn.
  destruct (Sqlite.get_customer_orders sender (db st)); reflexivity.
Qed.

Lemma show_cancellable_reply sender st :
  fst (show_cancellable svc sender st)
  = Ok (match List.filter cancellable (Sqlite.get_customer_orders sender (db st)) with
        | [] => NoCancellableOrders
        | os => CancellableOrders (take 5 os)
        end).
Proof.
  unfold show_cancellable, bind, call, ret. cbn.
  destruct (List.filter _ _); reflexivity.
Qed.

(** The only replies of the status handler. *)
Lemma status_replies message sender st :
  fst (_handle_order_status svc message sender st) = fst (show_orders svc sender st)
  \/ (exists o, fst (_handle_order_status svc message sender st) = Ok (OrderStatusText o))
  \/ (exists k, fst (_handle_order_status svc message sender st) = Ok (OrderNotFound k)).
Proof.
  unfold _handle_order_status.
  destruct (MessageParser.extract_order_id message) as [oid |]; [| auto].
  destruct (negb (Text.is_empty oid)); [| auto].
  unfold bind, call, ret, svc.
  cbn [Sqlite.service get_order db fst snd pending_orders].
  match goal with
  | |- context [Sqlite.get_order ?a ?b] => destruct (Sqlite.get_order a b)
  end; cbn [fst snd]; eauto.
Qed.

(** The only replies of the cancellation handler. *)
Lemma cancellation_replies message sender st :
  fst (_handle_order_cancellation svc message sender st)
  = fst (show_cancellable svc sender st)
  \/ (forall os, fst (_handle_order_cancellation svc message sender st)
                 <> Ok (CancellableOrders os)).
Proof.
  unfold _handle_order_cancellation.
  destruct (MessageParser.extract_order_id message) as [oid |]; [| auto].
  destruct (negb (Text.is_empty oid)); [| auto].
  right. intros os.
  unfold bind, call, ret, of_res, svc.
  cbn [Sqlite.service get_order cancel_order db fst snd pending_orders].
  match goal with
  | |- context [Sqlite.get_order ?a ?b] =>
      destruct (Sqlite.get_order a b) as [o |]
  end; cbn [fst snd]; [| discriminate].
  destruct (negb _); cbn [fst snd]; [discriminate |].
  destruct (cancellation_reason message); cbn [fst snd db pending_orders];
    [| discriminate].
  match goal with
  | |- context [Sqlite.cancel_order ?a ?z ?b ?c ?e ?f] =>
      destruct (Sqlite.cancel_order a z b c e f) as [[[|] msg] d']
  end; cbn [fst snd]; discriminate.
Qed.

End OnSqlite.
End ListingFacts.

(** X18. The lists the order agent shows on the SQLite store. A list of
    cancellable orders holds at most five orders, all stored, all of the
    sender, none delivered or cancelled. A list of the sender's orders holds
    between one and five orders, all stored and all of the sender, the most
    recently created first. *)
Theorem order_lists (clock utcoffset : Z) (isoformat : Z -> string) (message sender : string)
    (st : OrderAgent.AgentState Sqlite.DB) (os : list Order) :
  (fst (OrderAgent._handle_order_cancellation (Sqlite.service clock utcoffset isoformat)
          message sender st) = Ok (CancellableOrders os) ->
   length os <= 5
   /\ Forall (fun o => customer_phone o = sender
                       /\ status o <> "delivered" /\ status o <> "cancelled"
                       /\ exists k, Sqlite.get_order k (OrderAgent.db st) = Some o) os)
  /\ (fst (OrderAgent._handle_order_status (Sqlite.service clock utcoffset isoformat)
             message sender st) = Ok (CustomerOrdersText os) ->
      1 <= length os <= 5
      /\ Forall (fun o => customer_phone o = sender
                          /\ exists k, Sqlite.get_order k (OrderAgent.db st) = Some o) os
      /\ StronglySorted (fun a b => (created_at b <= created_at a)%Z) os).
Proof.
  split.
  - intros H.
    destruct (ListingFacts.cancellation_replies clock utcoffset isoformat message sender st)
      as [E | Hno]; [| exfalso; exact (Hno os H)].
    rewrite E, ListingFacts.show_cancellable_reply in H.
    destruct (List.filter OrderAgent.cancellable _) as [|x xs] eqn:Hf; [discriminate |].
    assert (os = take 5 (x :: xs)) as -> by congruence. clear H.
    split; [apply ListingFacts.take_length_le |].
    rewrite List.Forall_forall. intros o Ho. apply ListingFacts.take_In in Ho.
    rewrite <- Hf in Ho. apply List.filter_In in Ho as [Hin Hc].
    destruct (ListingFacts.customer_orders_In _ _ _ Hin) as [Hp Hk].
    unfold OrderAgent.cancellable in Hc. apply negb_true_iff, orb_false_iff in Hc.
    destruct Hc as [Hd Hcn]. apply String.eqb_neq in Hd, Hcn. auto.
  - intros H.
    destruct (ListingFacts.status_replies clock utcoffset isoformat message sender st)
      as [E | [[o E] | [k E]]]; rewrite E in H; try discriminate.
    rewrite ListingFacts.show_orders_reply in H.
    destruct (Sqlite.get_customer_orders sender (OrderAgent.db st)) as [|x xs] eqn:Hl;
      [discriminate |].
    assert (os = take 5 (x :: xs)) as -> by congruence. clear H.
    split; [split; [simpl; lia | apply ListingFacts.take_length_le] |].
    split.
    + rewrite List.Forall_forall. intros o Ho. apply ListingFacts.take_In in Ho.
      rewrite <- Hl in Ho. exact (ListingFacts.customer_orders_In _ _ _ Ho).
    + apply ListingFacts.take_sorted. rewrite <- Hl.
      apply StoreFacts.sort_desc_sorted.
Qed.

Module DispatchFacts.
Import OrderAgent.

(** A [try/except] whose handler answers with a constant returns a reply. *)
Lemma try_ret_ok {DB A} (m : M (DB:=DB) A) (a : A) (st : AgentState DB) :
  exists r, fst (try_except m (fun _ => ret a) st) = Ok r.
Proof. unfold try_except, ret. destruct (m st) as [[r | e] st1]; simpl; eauto. Qed.

(** A [try/except] around a computation that returns a reply is that
    computation. *)
Lemma try_of_ok {DB A} (m : M (DB:=DB) A) (h : exn -> M A) (st : AgentState DB) r :
  fst (m st) = Ok r -> try_except m h st = m st.
Proof. unfold try_except. destruct (m st) as [[r' | e] st1]; simpl; congruence. Qed.

End DispatchFacts.

(** X19. An order-create message from a sender without a session, for any
    database service. If the message does not count as a complete order
    the router answers with the product prompt, opens a session at the
    product step with no field recorded and the current time, and leaves
    the store alone: incomplete input starts the wizard instead of failing.
    If it counts as complete, the router's result is the single-shot path's
    and no session is opened. *)
Theorem new_order_request {DB : Type} (svc : DatabaseService DB)
    (now : Z) (uuid : N) (message sender : string) (st : OrderAgent.AgentState DB) :
  OrderAgent.pending_orders st !! sender = None ->
  let res := ManagerAgent._route_to_agent svc now uuid MessageParser.ORDER_CREATE
               message sender st in
  if OrderAgent._is_complete_order message
  then res = OrderAgent._create_order_from_message svc uuid message sender st
       /\ OrderAgent.pending_orders (snd res) = OrderAgent.pending_orders st
  else res = (Ok GuidedProductPrompt,
              OrderAgent.Build_AgentState
                (<[sender := {| OrderAgent.step := OrderAgent.step_product;
                                OrderAgent.data := ∅;
                                OrderAgent.started_at := now |}]>
                   (OrderAgent.pending_orders st))
                (OrderAgent.db st)).
Proof.
  intros H res. subst res.
  unfold ManagerAgent._route_to_agent, ManagerAgent.route_body,
    OrderAgent.handle_message, OrderAgent.handle_body.
  assert (OrderAgent._handle_order_creation svc now uuid message sender st
          = if OrderAgent._is_complete_order message
            then OrderAgent._create_order_from_message svc uuid message sender st
            else OrderAgent._start_guided_order_creation now message sender st) as E.
  { unfold OrderAgent._handle_order_creation, OrderAgent.bind, OrderAgent.get_pending.
    rewrite H. destruct (OrderAgent._is_complete_order message); reflexivity. }
  destruct (OrderAgent._is_complete_order message).
  - assert (exists r, fst (OrderAgent._create_order_from_message svc uuid message
                             sender st) = Ok r) as [r Hr]
      by (unfold OrderAgent._create_order_from_message; apply DispatchFacts.try_ret_ok).
    rewrite (DispatchFacts.try_of_ok _ _ st r);
      rewrite (DispatchFacts.try_of_ok _ _ st r); rewrite ?E; try exact Hr.
    split; [reflexivity |].
    assert (Frames.preserves Frames.same_sessions
              (OrderAgent._create_order_from_message svc uuid message sender)) as Hp.
    { unfold OrderAgent._create_order_from_message.
      repeat FrameFacts.frame_step (FrameFacts.same_sessions_refl (DB:=DB))
               (FrameFacts.same_sessions_trans (DB:=DB))
               ltac:(fail) ltac:(fail) ltac:(intros ?; reflexivity). }
    exact (Hp st).
  - rewrite (DispatchFacts.try_of_ok _ _ st GuidedProductPrompt);
      rewrite (DispatchFacts.try_of_ok _ _ st GuidedProductPrompt);
      rewrite ?E; reflexivity.
Qed.

Lemma new_order_request_witness :
  ManagerAgent._route_to_agent Situations.store 5 0 MessageParser.ORDER_CREATE
    "I want to order" "+15550100" (OrderAgent.Build_AgentState ∅ Sqlite.empty_db)
  = (Ok GuidedProductPrompt,
     OrderAgent.Build_AgentState
       (<["+15550100" := {| OrderAgent.step := OrderAgent.step_product;
                            OrderAgent.data := ∅;
                            OrderAgent.started_at := 5 |}]> ∅)
       Sqlite.empty_db).
Proof.
  apply (new_order_request Situations.store 5 0 "I want to order" "+15550100"
           (OrderAgent.Build_AgentState ∅ Sqlite.empty_db)).
  reflexivity.
Defined.

(** ** The FAQ search *)

Module FAQFacts.
Import FAQAgent FAQSearch.

(** The scores of all categories, in table order. *)
Lemma best_category_lower_bound best table q :
  (snd best <= snd (best_category best table q))%nat.
Proof.
  revert best. induction table as [|[c ks] table IH]; intro best; cbn [best_category].
  - lia.
  - cbv zeta. destruct (Nat.ltb_spec (snd best) (keyword_score ks q)).
    + specialize (IH (c, keyword_score ks q)). cbn [snd] in IH. lia.
    + apply IH.
Qed.

Lemma insert_by_score_hd x l :
  hd_error (insert_by_score x l) =
  Some (match hd_error l with
        | Some m => if (snd x <? snd m)%nat then m else x
        | None => x
        end).
Proof.
  destruct l as [|y l]; cbn [insert_by_score hd_error]; [reflexivity|].
  destruct (snd x <? snd y)%nat; reflexivity.
Qed.

(** The running maximum of [_handle_general_faq] against the head of the
    sorted matches of [search_faq]. *)
Lemma best_category_sorted_head table q best :
  best_category best table q =
  match hd_error (sort_by_score (matches_of table q)) with
  | Some m => if (snd best <? snd m)%nat then m else best
  | None => best
  end.
Proof.
  revert best. induction table as [|[c ks] table IH]; intro best.
  - reflexivity.
  - cbn [best_category matches_of]. cbv zeta.
    set (sc := keyword_score ks q).
    destruct (Nat.ltb_spec 0 sc) as [Hpos|Hzero].
    + cbn [sort_by_score fold_right]. fold (sort_by_score (matches_of table q)).
      rewrite insert_by_score_hd.
      rewrite <- (IH (c, sc)).
      pose proof (best_category_lower_bound (c, sc) table q) as Hlb. cbn [snd] in Hlb.
      destruct (Nat.ltb_spec (snd best) sc) as [Hlt|Hge].
      * destruct (Nat.ltb_spec (snd best) (snd (best_category (c, sc) table q)));
          [reflexivity | lia].
      * rewrite (IH best). rewrite (IH (c, sc)).
        destruct (hd_error (sort_by_score (matches_of table q))) as [m|].
        -- cbn [snd].
           destruct (Nat.ltb_spec (snd best) (snd m)) as [H1|H1].
           ++ destruct (Nat.ltb_spec sc (snd m)); [|lia].
              destruct (Nat.ltb_spec (snd best) (snd m)); [reflexivity | lia].
           ++ destruct (Nat.ltb_spec sc (snd m)).
              ** destruct (Nat.ltb_spec (snd best) (snd m)); [lia | reflexivity].
              ** cbn [snd]. destruct (Nat.ltb_spec (snd best) sc); [lia | reflexivity].
        -- cbn [snd]. destruct (Nat.ltb_spec (snd best) sc); [lia | reflexivity].
    + assert (sc = 0)%nat as Hsc by lia. rewrite Hsc.
      replace (snd best <? 0)%nat with false by (symmetry; apply Nat.ltb_ge; lia).
      apply IH.
Qed.

Lemma matches_positive table q m :
  In m (matches_of table q) -> (0 < snd m)%nat.
Proof.
  induction table as [|[c ks] table IH]; cbn [matches_of]; [intros []|].
  cbv zeta. destruct (Nat.ltb_spec 0 (keyword_score ks q)).
  - intros [<-|H']; [assumption | auto].
  - auto.
Qed.

Lemma insert_by_score_In x l y :
  In y (insert_by_score x l) <-> y = x \/ In y l.
Proof.
  induction l as [|z l IH]; cbn [insert_by_score].
  - cbn. intuition.
  - destruct (snd x <? snd z)%nat; cbn [In]; [rewrite IH|]; intuition.
Qed.

Lemma sort_by_score_In l y : In y (sort_by_score l) <-> In y l.
Proof.
  induction l as [|x l IH]; cbn [sort_by_score fold_right]; [reflexivity|].
  fold (sort_by_score l). rewrite insert_by_score_In, IH. cbn. intuition.
Qed.

Lemma matches_in_table table q m :
  In m (matches_of table q) ->
  exists ks, In (fst m, ks) table /\ snd m = keyword_score ks q.
Proof.
  induction table as [|[c ks] table IH]; cbn [matches_of]; [intros []|].
  cbv zeta. destruct (0 <? keyword_score ks q)%nat.
  - intros [<-|H'].
    + exists ks. split; [left; reflexivity | reflexivity].
    + destruct (IH H') as (ks' & Hin & Hs). exists ks'. split; [right|]; assumption.
  - intro H'. destruct (IH H') as (ks' & Hin & Hs). exists ks'. split; [right|]; assumption.
Qed.

Lemma matches_nil table q :
  matches_of table q = [] ->
  forall c ks, In (c, ks) table -> keyword_score ks q = 0%nat.
Proof.
  induction table as [|[c0 ks0] table IH]; cbn [matches_of]; [intros _ c ks []|].
  cbv zeta. destruct (Nat.ltb_spec 0 (keyword_score ks0 q)); [discriminate|].
  intros Hnil c ks [Heq|Hin].
  - injection Heq as <- <-. lia.
  - eauto.
Qed.

Lemma keyword_score_positive ks q :
  (0 < keyword_score ks q)%nat <-> exists k, In k ks /\ Text.contains k q = true.
Proof.
  unfold keyword_score. split.
  - intro H. destruct (List.filter (fun k => Text.contains k q) ks) as [|k l] eqn:E;
      [cbn in H; lia|].
    assert (In k (List.filter (fun k => Text.contains k q) ks)) as Hin
      by (rewrite E; left; reflexivity).
    apply filter_In in Hin. exists k. exact Hin.
  - intros (k & Hin & Hc).
    assert (In k (List.filter (fun k => Text.contains k q) ks)) as Hf
      by (apply filter_In; split; assumption).
    destruct (List.filter (fun k => Text.contains k q) ks); [destruct Hf | cbn; lia].
Qed.

Lemma sort_by_score_nil l : sort_by_score l = [] -> l = [].
Proof.
  destruct l as [|x l]; [reflexivity|].
  intro H. assert (In x (sort_by_score (x :: l))) as Hin
    by (apply sort_by_score_In; left; reflexivity).
  rewrite H in Hin. destruct Hin.
Qed.

End FAQFacts.

(** X20. [search_faq] and the general FAQ handler [_handle_general_faq]
    give the same answer to every text: sorting the matching categories by
    score with Python's stable descending sort and taking the first one
    picks the same category as keeping the first category of maximal
    score, and both fall back to the help text when nothing matches. *)
Theorem search_faq_agrees_with_general_faq (text : string) :
  FAQSearch.search_faq text = FAQAgent._handle_general_faq text.
Proof.
  unfold FAQSearch.search_faq, FAQAgent._handle_general_faq. cbv zeta.
  rewrite FAQFacts.best_category_sorted_head.
  destruct (FAQSearch.sort_by_score
              (FAQSearch.matches_of FAQAgent.faqs (Text.lower text)))
    as [|m l] eqn:E; cbn [hd_error snd fst].
  - reflexivity.
  - assert (0 < snd m)%nat as Hpos.
    { apply (FAQFacts.matches_positive FAQAgent.faqs (Text.lower text)).
      apply FAQFacts.sort_by_score_In. rewrite E. left. reflexivity. }
    destruct (Nat.ltb_spec 0 (snd m)); [|lia].
    destruct (Nat.ltb_spec 0 (snd m)); [reflexivity | lia].
Qed.

(** X21. What the FAQ search answers: the help text exactly when no
    keyword of any category occurs in the lower-cased text, and otherwise
    the text of a category of the table one of whose keywords occurs in
    it. *)
Theorem search_faq_answers (text : string) :
  (FAQSearch.search_faq text = HelpText <->
   forall c ks k, In (c, ks) FAQAgent.faqs -> In k ks ->
                  Text.contains k (Text.lower text) = false) /\
  (forall c, FAQSearch.search_faq text = FaqText c ->
             In c FAQSearch.get_faq_categories /\
             exists ks k, In (c, ks) FAQAgent.faqs /\ In k ks /\
                          Text.contains k (Text.lower text) = true).
Proof.
  unfold FAQSearch.search_faq. cbv zeta.
  destruct (FAQSearch.sort_by_score
              (FAQSearch.matches_of FAQAgent.faqs (Text.lower text)))
    as [|m l] eqn:E.
  - apply FAQFacts.sort_by_score_nil in E. split.
    + split; [|reflexivity]. intros _ c ks k Hin Hk.
      pose proof (FAQFacts.matches_nil _ _ E c ks Hin) as Hz.
      destruct (Text.contains k (Text.lower text)) eqn:Hc; [|reflexivity].
      assert (0 < FAQAgent.keyword_score ks (Text.lower text))%nat
        by (apply FAQFacts.keyword_score_positive; eauto).
      lia.
    + discriminate.
  - assert (In m (FAQSearch.matches_of FAQAgent.faqs (Text.lower text))) as Hm.
    { apply FAQFacts.sort_by_score_In. rewrite E. left. reflexivity. }
    pose proof (FAQFacts.matches_positive _ _ _ Hm) as Hpos.
    destruct (FAQFacts.matches_in_table _ _ _ Hm) as (ks & Hin & Hs).
    rewrite Hs in Hpos. apply FAQFacts.keyword_score_positive in Hpos.
    destruct Hpos as (k & Hk & Hc).
    split.
    + split; [discriminate|]. intro Hnone.
      rewrite (Hnone _ _ _ Hin Hk) in Hc. discriminate.
    + intros c Heq. injection Heq as <-. split.
      * unfold FAQSearch.get_faq_categories. apply in_map_iff.
        exists (fst m, ks). split; [reflexivity | assumption].
      * exists ks, k. auto.
Qed.

(** ** The webhook entry point *)

Module WebhookFacts.
Import Webhook.

Lemma validate_webhook_spec (form : Form) :
  validate_webhook form = true <->
  (exists c s, form !! "From" = Some (String c s)) /\
  (exists c s, form !! "Body" = Some (String c s)).
Proof.
  unfold validate_webhook, form_get. cbn [forallb].
  rewrite andb_true_r, andb_true_iff.
  destruct (form !! "From") as [[|c s]|]; destruct (form !! "Body") as [[|c' s']|];
    cbn [default Text.is_empty negb]; split;
    try (intros [? ?]; discriminate);
    try (intros [(? & ? & ?) (? & ? & ?)]; discriminate).
  all: intros _; split; eauto.
Qed.

(** The router returns a reply. *)
Lemma route_returns {DB : Type} (svc : DatabaseService DB) now uuid i message sender st :
  exists reply, fst (ManagerAgent._route_to_agent svc now uuid i message sender st)
                = Ok reply.
Proof. unfold ManagerAgent._route_to_agent. apply DispatchFacts.try_ret_ok. Qed.

(** Skipping the rest of a separator occurrence. *)
Lemma split_str_skip sep t s :
  Text.split_str sep (t +:+ String.append s EmptyString) (String.length t)
  = Text.split_str sep (String.append s EmptyString) 0.
Proof.
  induction t as [|c t IH]; [reflexivity|].
  cbn [String.append String.length Text.split_str]. exact IH.
Qed.

Lemma append_empty (s : string) : String.append s EmptyString = s.
Proof. induction s as [|c s IH]; cbn [String.append]; [reflexivity | now rewrite IH]. Qed.

(** A text without the separator is one part. *)
Lemma split_str_absent sep s :
  Text.contains sep s = false -> Text.split_str sep s 0 = [s].
Proof.
  induction s as [|c s IH]; [reflexivity|].
  rewrite TextFacts.contains_cons. intro H. apply orb_false_iff in H as [Hp Hc].
  cbn [Text.split_str]. rewrite Hp, (IH Hc). reflexivity.
Qed.

Lemma remove_all_absent sep s :
  Text.contains sep s = false -> remove_all sep s = s.
Proof.
  intro H. unfold remove_all. rewrite (split_str_absent _ _ H).
  cbn [fold_right]. apply append_empty.
Qed.

Lemma remove_all_prefixed c sep s :
  Text.contains (String c sep) s = false ->
  remove_all (String c sep) (String c sep +:+ s) = s.
Proof.
  intro H. unfold remove_all.
  assert (String.prefix (String c sep) (String c sep +:+ s) = true) as Hp.
  { generalize (String c sep). intro t. induction t as [|a t IH]; cbn.
    - destruct s; reflexivity.
    - destruct (ascii_dec a a); [exact IH | congruence]. }
  change (String c sep +:+ s) with (String c (sep +:+ s)) in *.
  cbn [Text.split_str]. rewrite Hp.
  cbn [String.length]. rewrite Nat.sub_1_r. cbn [Nat.pred].
  rewrite <- (append_empty s) at 1. rewrite split_str_skip, append_empty.
  rewrite (split_str_absent _ _ H). cbn [fold_right String.append].
  apply append_empty.
Qed.

Lemma absent_no_prefix sep s :
  Text.contains sep s = false -> String.prefix sep s = false.
Proof.
  destruct s as [|c s].
  - rewrite TextFacts.contains_nil. auto.
  - rewrite TextFacts.contains_cons. intro H. apply orb_false_iff in H. tauto.
Qed.

End WebhookFacts.

(** X22. The webhook answers 400 exactly when the request lacks a non-empty
    [From] or a non-empty [Body]; it then changes nothing: no conversation
    row, no message sent, no session or order touched. It never answers
    500: its own [except] branch cannot be reached, since the router
    contains every exception of the agents. *)
Theorem webhook_status (accepts : string -> Reply -> bool)
    (clock utcoffset : Z) (isoformat : Z -> string) (uuid : N)
    (form : Webhook.Form) (w : Webhook.World) :
  let res := Webhook.handle_incoming_message accepts clock utcoffset isoformat uuid form w in
  (fst res = 400%Z \/ fst res = 200%Z) /\
  (fst res = 200%Z <->
   (exists c s, form !! "From" = Some (String c s)) /\
   (exists c s, form !! "Body" = Some (String c s))) /\
  (fst res = 400%Z -> snd res = w).
Proof.
  cbv zeta. unfold Webhook.handle_incoming_message.
  rewrite <- WebhookFacts.validate_webhook_spec.
  destruct (Webhook.validate_webhook form); cbn [negb].
  - cbv zeta.
    match goal with |- context [ManagerAgent._route_to_agent ?svc ?n ?u ?i ?m ?s ?st] =>
      destruct (WebhookFacts.route_returns svc n u i m s st) as [reply Hr];
      destruct (ManagerAgent._route_to_agent svc n u i m s st) as [r st1] end.
    cbn [fst] in Hr. subst r. unfold Webhook.send_message. cbv zeta.
    destruct (accepts _ reply); cbn [fst snd].
    + split; [right; reflexivity|]. split; [tauto | discriminate].
    + split; [right; reflexivity|]. split; [tauto | discriminate].
  - cbn [fst snd]. split; [left; reflexivity|].
    split; [|reflexivity]. split; [discriminate | intro; discriminate].
Qed.

(** X23. What a valid webhook request does. With [sender] the [From] field
    without its [whatsapp:] marks and [body] the stripped [Body] field: the
    incoming text is logged with the classifier's intent name before the
    router runs; the router runs on the classifier's intent, and its state
    is the agents' state afterwards; its reply is handed to the messaging
    client; the reply is recorded as sent and logged as outgoing, without an
    intent, exactly when the client accepts it. A refused delivery leaves
    the incoming row and the agents' changes in place. *)
Theorem webhook_valid_request (accepts : string -> Reply -> bool) (clock utcoffset : Z)
    (isoformat : Z -> string) (uuid : N) (form : Webhook.Form) (w : Webhook.World) :
  Webhook.validate_webhook form = true ->
  let body := Webhook.get_message_body form in
  let sender := Webhook.get_sender_number form in
  let intent := MessageParser.intent (MessageParser.parse_message body) in
  let routed := ManagerAgent._route_to_agent (Sqlite.service clock utcoffset isoformat) clock uuid
                  intent body sender (Webhook.agents w) in
  let incoming := {| Webhook.conv_phone := sender; Webhook.message_type := "incoming";
                     Webhook.message_body := Webhook.Received body;
                     Webhook.conv_intent := Some (Webhook.intent_value intent) |} in
  let res := Webhook.handle_incoming_message accepts clock utcoffset isoformat uuid form w in
  exists reply,
    fst routed = Ok reply /\
    Webhook.agents (snd res) = snd routed /\
    let delivered := accepts (Webhook.whatsapp_address sender) reply in
    Webhook.outbox (snd res) =
      Webhook.outbox w ++
      (if delivered then [(Webhook.whatsapp_address sender, reply)] else []) /\
    Webhook.conversations (snd res) =
      Webhook.conversations w ++ incoming ::
      (if delivered
       then [{| Webhook.conv_phone := sender; Webhook.message_type := "outgoing";
                Webhook.message_body := Webhook.Answered reply;
                Webhook.conv_intent := None |}]
       else []).
Proof.
  intro Hv. cbv zeta. unfold Webhook.handle_incoming_message. rewrite Hv. cbn [negb].
  cbv zeta. unfold Webhook.send_message, Webhook.log_conversation. cbv zeta.
  cbn [Webhook.agents Webhook.outbox Webhook.conversations].
  match goal with |- context [ManagerAgent._route_to_agent ?svc ?n ?u ?i ?m ?s ?st] =>
    destruct (WebhookFacts.route_returns svc n u i m s st) as [reply Hr];
    destruct (ManagerAgent._route_to_agent svc n u i m s st) as [r st1] end.
  cbn [fst] in Hr. subst r. exists reply. cbn [fst snd].
  split; [reflexivity|].
  destruct (accepts _ reply);
    cbn [fst snd Webhook.agents Webhook.outbox Webhook.conversations].
  - split; [reflexivity|]. split; [reflexivity|].
    rewrite <- app_assoc. reflexivity.
  - split; [reflexivity|]. split; [apply app_nil_r || (symmetry; apply app_nil_r)|].
    reflexivity.
Qed.

Lemma webhook_valid_request_witness :
  exists reply,
    Webhook.outbox
      (snd (Webhook.handle_incoming_message Requests.reliable 0 0
              Situations.no_isoformat 0 Requests.hello Requests.fresh))
    = [("whatsapp:+15550123", reply)].
Proof.
  assert (Webhook.validate_webhook Requests.hello = true) as Hv by reflexivity.
  destruct (webhook_valid_request Requests.reliable 0 0 Situations.no_isoformat 0
              Requests.hello Requests.fresh Hv) as (reply & _ & _ & Hout & _).
  exists reply. exact Hout.
Defined.

(** X24. The reply goes back to where the message came from. For a number
    [n] in which [whatsapp:] does not occur, whether the [From] field is
    [whatsapp:n] or the bare [n], the sender the agents see is [n], and the
    address handed to the messaging client is [whatsapp:n]. *)
Theorem sender_address_round_trip (form : Webhook.Form) (n : string) :
  Text.contains "whatsapp:" n = false ->
  form !! "From" = Some ("whatsapp:" +:+ n) \/ form !! "From" = Some n ->
  Webhook.get_sender_number form = n /\
  Webhook.whatsapp_address (Webhook.get_sender_number form) = "whatsapp:" +:+ n.
Proof.
  intros Hn Hfrom.
  assert (Webhook.get_sender_number form = n) as Hs.
  { unfold Webhook.get_sender_number, Webhook.form_get.
    destruct Hfrom as [-> | ->]; cbn [default].
    - apply (WebhookFacts.remove_all_prefixed _ _ _ Hn).
    - apply (WebhookFacts.remove_all_absent _ _ Hn). }
  rewrite Hs. split; [reflexivity|].
  unfold Webhook.whatsapp_address.
  rewrite (WebhookFacts.absent_no_prefix _ _ Hn). reflexivity.
Qed.

Lemma sender_address_round_trip_witness :
  Webhook.get_sender_number (<["From" := "whatsapp:+15550123"]> ∅) = "+15550123" /\
  Webhook.whatsapp_address
    (Webhook.get_sender_number (<["From" := "whatsapp:+15550123"]> ∅))
  = "whatsapp:+15550123".
Proof.
  apply (sender_address_round_trip (<["From" := "whatsapp:+15550123"]> ∅) "+15550123").
  - reflexivity.
  - left. apply lookup_insert_eq.
Defined.

(** ** A full run of the guided wizard *)

Module WizardRunFacts.
Import OrderAgent Wizard.

(** One of the first three answers through the order-creation handler. *)
Lemma handle_records {DB : Type} (svc : DatabaseService DB) clock uuid message sender
    (st : AgentState DB) od s' :
  pending_orders st !! sender = Some od ->
  next_step (step od) = Some s' ->
  _handle_order_creation svc clock uuid message sender st
  = (Ok (prompt_after (step od)),
     Build_AgentState
       (<[sender := {| step := s';
                       data := <[answer_key (step od) := Text.strip message]> (data od);
                       started_at := started_at od |}]> (pending_orders st))
       (db st)).
Proof.
  intros H Hn. rewrite (WizardFacts.handle_creation_continues svc _ _ _ _ _ _ H).
  apply (WizardFacts.continue_records svc _ _ _ _ _ _ H Hn).
Qed.

End WizardRunFacts.

(** X25. A full run of the guided wizard with arbitrary answers. Start a
    session and deliver four answers to the order-creation handler. The
    first three are answered with the prompts for the name, the phone
    number and the address, and none of them touches the store. When the
    generated id is free, the fourth stores an order for the sender with
    the stripped first answer as product, quantity 1, status pending, and a
    detail bag holding exactly the four stripped answers and the two
    markers of the guided path; the reply is the confirmation built from
    the four answers, and the session map is the initial one without the
    sender. No answer is validated: an empty answer is stored as an empty
    field. *)
Theorem wizard_run_stores_answers
    (utcoffset : Z) (isoformat : Z -> string) (t0 t1 t2 t3 t4 : Z) (u1 u2 u3 u4 : N)
    (first_message sender product name phone address : string)
    (st0 : OrderAgent.AgentState Sqlite.DB) :
  Sqlite.orders (OrderAgent.db st0) !! OrderAgent.new_order_id u4 = None ->
  let handle := fun t u answer st =>
    OrderAgent._handle_order_creation (Sqlite.service t utcoffset isoformat) t u answer sender st in
  let st1 := snd (OrderAgent._start_guided_order_creation t0 first_message sender st0) in
  let r1 := handle t1 u1 product st1 in
  let r2 := handle t2 u2 name (snd r1) in
  let r3 := handle t3 u3 phone (snd r2) in
  let res := handle t4 u4 address (snd r3) in
  let fields := WizardRun.collected product name phone address in
  fst r1 = Ok GuidedNamePrompt /\ fst r2 = Ok GuidedPhonePrompt /\
  fst r3 = Ok GuidedAddressPrompt /\
  OrderAgent.db (snd r3) = OrderAgent.db st0 /\
  fst res = Ok (OrderAgent._get_order_confirmation (OrderAgent.new_order_id u4) fields) /\
  OrderAgent.pending_orders (snd res) = delete sender (OrderAgent.pending_orders st0) /\
  Sqlite.orders (OrderAgent.db (snd res)) !! OrderAgent.new_order_id u4
  = Some {| order_id := OrderAgent.new_order_id u4; customer_phone := sender;
            Store.product := Text.strip product; quantity := 1; status := "pending";
            details := Predicates.guided_details fields;
            created_at := Sqlite.current_timestamp t4 utcoffset;
            updated_at := Sqlite.current_timestamp t4 utcoffset |}.
Proof.
  intros Hfresh handle st1 r1 r2 r3 res fields.
  set (p0 := {| OrderAgent.step := OrderAgent.step_product;
                OrderAgent.data := ∅; OrderAgent.started_at := t0 |}).
  assert (st1 = OrderAgent.Build_AgentState
                  (<[sender := p0]> (OrderAgent.pending_orders st0))
                  (OrderAgent.db st0)) as E1 by reflexivity.
  assert (OrderAgent.pending_orders st1 !! sender = Some p0) as L1
    by (rewrite E1; apply lookup_insert_eq).
  pose proof (WizardRunFacts.handle_records (Sqlite.service t1 utcoffset isoformat) t1 u1
                product sender st1 p0 OrderAgent.step_name L1 eq_refl) as C1.
  fold (handle t1 u1 product st1) in C1. fold r1 in C1.
  rewrite E1 in C1. cbn [OrderAgent.pending_orders OrderAgent.db] in C1.
  rewrite insert_insert_eq in C1.
  match type of C1 with _ = (_, OrderAgent.Build_AgentState (<[_ := ?p]> _) _) =>
    set (p1 := p) in * end.
  assert (OrderAgent.pending_orders (snd r1) !! sender = Some p1) as L2
    by (rewrite C1; apply lookup_insert_eq).
  pose proof (WizardRunFacts.handle_records (Sqlite.service t2 utcoffset isoformat) t2 u2
                name sender (snd r1) p1 OrderAgent.step_phone L2 eq_refl) as C2.
  fold (handle t2 u2 name (snd r1)) in C2. fold r2 in C2.
  rewrite C1 in C2. cbn [snd OrderAgent.pending_orders OrderAgent.db] in C2.
  rewrite insert_insert_eq in C2.
  match type of C2 with _ = (_, OrderAgent.Build_AgentState (<[_ := ?p]> _) _) =>
    set (p2 := p) in * end.
  assert (OrderAgent.pending_orders (snd r2) !! sender = Some p2) as L3
    by (rewrite C2; apply lookup_insert_eq).
  pose proof (WizardRunFacts.handle_records (Sqlite.service t3 utcoffset isoformat) t3 u3
                phone sender (snd r2) p2 OrderAgent.step_address L3 eq_refl) as C3.
  fold (handle t3 u3 phone (snd r2)) in C3. fold r3 in C3.
  rewrite C2 in C3. cbn [snd OrderAgent.pending_orders OrderAgent.db] in C3.
  rewrite insert_insert_eq in C3.
  match type of C3 with _ = (_, OrderAgent.Build_AgentState (<[_ := ?p]> _) _) =>
    set (p3 := p) in * end.
  assert (OrderAgent.pending_orders (snd r3) !! sender = Some p3) as L4
    by (rewrite C3; apply lookup_insert_eq).
  assert (OrderAgent.db (snd r3) = OrderAgent.db st0) as D4 by (rewrite C3; reflexivity).
  assert (<["address" := Text.strip address]> (OrderAgent.data p3) = fields) as Hf
    by reflexivity.
  assert (fields !! "product" = Some (Text.strip product)) as Hp.
  { unfold fields, WizardRun.collected.
    rewrite !lookup_insert_ne by discriminate. apply lookup_insert_eq. }
  rewrite <- D4 in Hfresh.
  destruct (CommitFacts.sqlite_commit t4 utcoffset isoformat u4 address sender (snd r3) p3
              (Text.strip product) L4 eq_refl) as (d' & E & Ho);
    [rewrite Hf; exact Hp | exact Hfresh |].
  rewrite Hf in E, Ho.
  assert (res = OrderAgent._continue_order_creation
                  (Sqlite.service t4 utcoffset isoformat) u4 address sender (snd r3)) as E5.
  { unfold res, handle.
    now rewrite (WizardFacts.handle_creation_continues _ t4 u4 address sender
                   (snd r3) p3 L4). }
  rewrite E5, E. cbn [fst snd OrderAgent.pending_orders OrderAgent.db].
  split; [rewrite C1; reflexivity|].
  split; [rewrite C2; reflexivity|].
  split; [rewrite C3; reflexivity|].
  split; [exact D4|].
  split; [reflexivity|].
  split; [|exact Ho].
  rewrite C3. cbn [snd OrderAgent.pending_orders]. apply delete_insert_eq.
Qed.

Lemma wizard_run_stores_answers_witness :
  OrderAgent.pending_orders
    (snd (OrderAgent._handle_order_creation Situations.store 0 7 " 1 Main St" "+15550100"
       (snd (OrderAgent._handle_order_creation Situations.store 0 0 "" "+15550100"
       (snd (OrderAgent._handle_order_creation Situations.store 0 0 "Jane Doe " "+15550100"
       (snd (OrderAgent._handle_order_creation Situations.store 0 0 "Laptop" "+15550100"
       (snd (OrderAgent._start_guided_order_creation 0 "I want to order" "+15550100"
               (OrderAgent.Build_AgentState ∅ Sqlite.empty_db)))))))))))
  = delete "+15550100" ∅.
Proof.
  assert (Sqlite.orders (OrderAgent.db (OrderAgent.Build_AgentState ∅ Sqlite.empty_db))
          !! OrderAgent.new_order_id 7 = None) as Hfresh by reflexivity.
  destruct (wizard_run_stores_answers 0 Situations.no_isoformat 0 0 0 0 0 0 0 0 7
              "I want to order" "+15550100" "Laptop" "Jane Doe " "" " 1 Main St"
              (OrderAgent.Build_AgentState ∅ Sqlite.empty_db) Hfresh)
    as (_ & _ & _ & _ & _ & Hs & _).
  exact Hs.
Defined.
